(** * GeoIdentix backend: token codec, refresh sessions, geo-fence and check-in

    A shallow embedding of the TypeScript services
    - [src/utils/jwt.ts]            (token codec, [hashToken], [getTokenExpiry]),
    - [src/utils/geoLocation.ts]    (haversine distance, radius test),
    - [src/utils/validators.ts]     ([isValidEmbedding]),
    - [src/utils/rekognition.ts]    ([compareFaces]),
    - [src/modules/tenants/tenant.service.ts],
    - [src/modules/employees/employee.service.ts] ([getEmployeeById]),
    - [src/modules/attendance/attendance.service.ts],
    and of the relational store of the Prisma migration.

    Conventions of the embedding.
    - A JavaScript [number] that the code only stores or compares is a
      real number ([R]); [NaN] then only appears as an element of an
      untyped array ([JsNaN]).  The coordinates and the radius, on which
      the code computes, are IEEE 754 binary64 numbers ([double], the
      primitive floats): [+], [-], [*], [/] and [Math.sqrt] are the
      correctly rounded operations, while [Math.sin], [Math.cos] and
      [Math.atan2], which ECMAScript leaves to the engine, are
      observations ([MathLib]).
    - A [Date] is its time value in milliseconds ([Z]) or invalid
      ([JsDate]).  The clock reads a time from 1970 on ([0 <= now]); the
      arithmetic of [Date], which is that of binary64, is then exact
      whenever its result is in the range of [Date], and out of that
      range whenever it is not exact.  The server's zone is an
      observation ([TimeZone]); the start of the local day in [checkIn]
      is taken in a zone of constant offset.
    - An [async] method is a function of the store that returns its
      outcome together with the store it leaves behind; the store keeps
      the writes made before an exception was thrown.
    - What a call observes from outside the process (the clock, generated
      identifiers, a failing database round trip, the answer of the face
      service, the password hasher) is gathered in the record [Env]. *)

From Stdlib Require Import Floats ZArith List String Ascii Bool Lia Reals Lra.
Import ListNotations.

Set Warnings "-register-all".
Local Open Scope string_scope.
Local Open Scope Z_scope.

Definition number := R.

(** A number on which the code computes: an IEEE 754 binary64 value. *)
Definition double : Set := float.

Definition double_eq_dec (x y : double) : {x = y} + {x <> y}.
Proof.
  destruct (PrimFloat.Leibniz.eqb x y) eqn:E.
  - left. apply Leibniz.eqb_spec. exact E.
  - right. intros H. apply Leibniz.eqb_spec in H. congruence.
Defined.

(** [JSON.parse(JSON.stringify(x))] on a number, which is how a number
    travels inside a token: [-0] comes back as [0], every other finite
    number as itself; [NaN] and the infinities come back as [null]
    ([None]). *)
Definition jsonNumber (x : double) : option double :=
  if PrimFloat.is_finite x then Some (x + 0)%float else None.

(** ** Exceptions and outcomes *)

(** [AppError] is the class of [error.middleware.ts]; [Error] is any other
    JavaScript exception. *)
Inductive Exn : Type :=
| AppError (message : string) (statusCode : Z)
| Error (message : string).

Inductive Result (A : Type) : Type :=
| Ok (a : A)
| Throw (e : Exn).
Arguments Ok {A} a.
Arguments Throw {A} e.

Definition isOk {A} (r : Result A) : bool :=
  match r with Ok _ => true | Throw _ => false end.

(** [try { c } catch (error) { throw new Error(msg) }] on a pure call. *)
Definition orThrow {A} (r : Result A) (e : Exn) : Result A :=
  match r with Ok a => Ok a | Throw _ => Throw e end.

(** ** Values that cross the API boundary *)

(** A value of type [any]. *)
Inductive JsValue : Type :=
| JsUndefined
| JsNaN
| JsNumber (x : number)
| JsString (s : string)
| JsArray (items : list JsValue).

Inductive PlanType : Type := FREE | PAID.

Definition PlanType_eqb (a b : PlanType) : bool :=
  match a, b with FREE, FREE | PAID, PAID => true | _, _ => false end.

Definition planTypeName (p : PlanType) : string :=
  match p with FREE => "FREE" | PAID => "PAID" end.

(** ** Token payloads ([jwt.ts], lines 5-21) *)

Module AccessTokenPayload.
Record t : Type := mk { tenantId : string; username : string; planType : string }.
End AccessTokenPayload.

Module RefreshTokenPayload.
Record t : Type := mk { tenantId : string; tokenId : string }.
End RefreshTokenPayload.

Module LocationTokenPayload.
Record t : Type :=
  mk { tenantId : string; employeeId : string; latitude : double; longitude : double }.
End LocationTokenPayload.

(** The object given to [jwt.sign], and the same members as they are
    read back from the JSON text of a token: strings are unchanged, the
    coordinates of a location payload are numbers or [null]
    ([LocationJson]).  The casts [as AccessTokenPayload] and the like are
    unchecked, so a verifier hands back whichever payload the token
    carries. *)
Inductive Payload : Type :=
| AccessP (p : AccessTokenPayload.t)
| RefreshP (p : RefreshTokenPayload.t)
| LocationP (p : LocationTokenPayload.t)
| LocationJson (tenantId employeeId : string) (latitude longitude : option double).

Module Payload.
(** [payload.tenantId]: every payload has the field. *)
Definition tenantId (p : Payload) : string :=
  match p with
  | AccessP a => AccessTokenPayload.tenantId a
  | RefreshP r => RefreshTokenPayload.tenantId r
  | LocationP l => LocationTokenPayload.tenantId l
  | LocationJson tid _ _ _ => tid
  end.

(** [payload.employeeId]: [undefined] ([None]) outside location payloads. *)
Definition employeeId (p : Payload) : option string :=
  match p with
  | LocationP l => Some (LocationTokenPayload.employeeId l)
  | LocationJson _ eid _ _ => Some eid
  | _ => None
  end.

(** The payload as the JSON text of the token carries it. *)
Definition toJson (p : Payload) : Payload :=
  match p with
  | LocationP l =>
      LocationJson (LocationTokenPayload.tenantId l) (LocationTokenPayload.employeeId l)
                   (jsonNumber (LocationTokenPayload.latitude l))
                   (jsonNumber (LocationTokenPayload.longitude l))
  | _ => p
  end.
End Payload.

(** ** Symbolic strings for tokens and digests

    The package [jsonwebtoken] and Node's [crypto] are not part of the
    repository.  They are modelled symbolically, under the usual perfect
    cryptography reading: the text of a signed token is determined by its
    claims and by the key it was signed with, a signature checks only
    against the key that made it, and a digest determines its preimage.

    - [Lit s] is a string that is neither a signed token nor a digest;
    - [JwtText c key] is the compact serialisation of the claims [c]
      signed (HS256) with [key];
    - [HexDigest t] is the lowercase hexadecimal SHA-256 digest of [t]. *)

(** The object inside a token, which is also the object that [jwt.verify]
    hands back: the members of the payload, and the registered claims
    [iat] and [exp] that [jwt.sign] adds. *)
Record Claims : Type := mkClaims {
  body : Payload;   (* the members of the payload given to [jwt.sign] *)
  iat : Z;          (* issued-at, seconds *)
  exp : Z           (* expiry, seconds *)
}.

(** [decoded.tenantId], [decoded.employeeId]: the members of the payload
    are read off the decoded object. *)
Coercion body : Claims >-> Payload.

Inductive Text : Type :=
| Lit (s : string)
| JwtText (c : Claims) (key : string)
| HexDigest (t : Text).

Definition AccessTokenPayload_eq_dec (a b : AccessTokenPayload.t) : {a = b} + {a <> b}.
Proof. decide equality; apply string_dec. Defined.

Definition RefreshTokenPayload_eq_dec (a b : RefreshTokenPayload.t) : {a = b} + {a <> b}.
Proof. decide equality; apply string_dec. Defined.

Definition LocationTokenPayload_eq_dec (a b : LocationTokenPayload.t) : {a = b} + {a <> b}.
Proof. decide equality; try apply string_dec; apply double_eq_dec. Defined.

Definition Payload_eq_dec (a b : Payload) : {a = b} + {a <> b}.
Proof.
  decide equality;
    try apply string_dec;
    try (decide equality; apply double_eq_dec);
    [ apply AccessTokenPayload_eq_dec
    | apply RefreshTokenPayload_eq_dec
    | apply LocationTokenPayload_eq_dec ].
Defined.

Definition Claims_eq_dec (a b : Claims) : {a = b} + {a <> b}.
Proof. decide equality; try apply Z.eq_dec; apply Payload_eq_dec. Defined.

Definition Text_eq_dec (a b : Text) : {a = b} + {a <> b}.
Proof. decide equality; try apply string_dec; apply Claims_eq_dec. Defined.

(** [a === b] on strings that may be tokens or digests. *)
Definition Text_eqb (a b : Text) : bool :=
  if Text_eq_dec a b then true else false.

(** ** Configuration ([config/index.ts]) *)

Record Config : Type := mkConfig {
  accessSecret : string;
  refreshSecret : string;
  locationSecret : string;
  accessExpiry : string;
  refreshExpiry : string;
  locationExpiry : string;
  similarityThreshold : number;
  allowedCheckInRadius : double;
  (* Not a setting, but what the [jsonwebtoken] package of the
     installation makes of an [expiresIn] that [timespan] below does not
     read (the other spellings of its [ms] parser, and values beyond
     exact arithmetic): the [exp] of a token issued at the given second,
     or nothing when the package refuses the string. *)
  otherExpiry : string -> Z -> option Z
}.

(** ** Expiry strings *)

Definition asciiCode (c : ascii) : Z := Z.of_N (N_of_ascii c).

(** [\d] *)
Definition isDigit (c : ascii) : bool :=
  (48 <=? asciiCode c) && (asciiCode c <=? 57).

(** [[smhd]] *)
Definition isUnit (c : ascii) : bool :=
  Ascii.eqb c "s" || Ascii.eqb c "m" || Ascii.eqb c "h" || Ascii.eqb c "d".

(** [expiryString.match(/^(\d+)([smhd])$/)] followed by
    [parseInt(match[1], 10)]: the value read so far is [acc], [seen] tells
    whether a digit was read.  The value is the exact one; [parseInt]
    rounds it from 2^53 on, where every use below takes another path. *)
Fixpoint matchExpiryFrom (s : string) (acc : Z) (seen : bool) : option (Z * ascii) :=
  match s with
  | EmptyString => None
  | String c rest =>
      if isDigit c then matchExpiryFrom rest (10 * acc + (asciiCode c - 48)) true
      else
        match rest with
        | EmptyString => if seen && isUnit c then Some (acc, c) else None
        | String _ _ => None
        end
  end.

Definition matchExpiry (s : string) : option (Z * ascii) := matchExpiryFrom s 0 false.

(** Milliseconds in one unit: the [switch] of [getTokenExpiry]. *)
Definition unitMillis (u : ascii) : Z :=
  if Ascii.eqb u "s" then 1000
  else if Ascii.eqb u "m" then 60000
  else if Ascii.eqb u "h" then 3600000
  else if Ascii.eqb u "d" then 86400000
  else 0.

(** *** Dates *)

(** The server's time zone, as [Date] uses it (offsets in milliseconds,
    less than a day in magnitude). *)
Record TimeZone : Type := mkTimeZone {
  offsetAt : Z -> Z;        (* [LocalTime(t) = t + offsetAt t] *)
  offsetOfLocal : Z -> Z    (* [UTC(tl) = tl - offsetOfLocal tl] *)
}.

(** A zone whose clocks are never changed. *)
Definition fixedZone (offset : Z) : TimeZone :=
  {| offsetAt := fun _ => offset; offsetOfLocal := fun _ => offset |}.

Definition constantOffset (zone : TimeZone) : Prop :=
  exists offset, forall t, offsetAt zone t = offset /\ offsetOfLocal zone t = offset.

(** A [Date] object. *)
Inductive JsDate : Type :=
| ValidDate (t : Z)
| InvalidDate.

Definition maxTime : Z := 8640000000000000.

(** [TimeClip] *)
Definition timeClip (t : Z) : JsDate :=
  if Z.abs t <=? maxTime then ValidDate t else InvalidDate.

(** [getTokenExpiry] ([jwt.ts], lines 95-122), called at time [now].
    [setSeconds(getSeconds() + value)], [setMinutes], [setHours] and
    [setDate] move the wall clock of the server's zone by [value] units
    and read the result back as an instant; a result out of the range of
    [Date] is an invalid date.  (For a clock that reads a time from 1970
    on, the arithmetic of [Date] is exact up to 2^53, which is beyond
    its range, so that rounding never changes a result that is in
    range.) *)
Definition getTokenExpiry (zone : TimeZone) (expiryString : string) (now : Z)
  : Result JsDate :=
  match matchExpiry expiryString with
  | None => Throw (Error "Invalid expiry format")
  | Some (value, unit) =>
      let wallClock := now + offsetAt zone now + value * unitMillis unit in
      Ok (timeClip (wallClock - offsetOfLocal zone wallClock))
  end.

(** The seconds that [jsonwebtoken] (through [ms]) reads from an
    [expiresIn] of the format of [getTokenExpiry], when the string has at
    most 100 characters and its milliseconds stay below 2^53, so that the
    package computes exactly.  What the package makes of any other string
    is [otherExpiry]. *)
Definition timespan (expiresIn : string) : option Z :=
  match matchExpiry expiresIn with
  | None => None
  | Some (value, unit) =>
      if (Z.of_nat (String.length expiresIn) <=? 100)
         && (value * unitMillis unit <? 2 ^ 53)
      then Some (value * unitMillis unit / 1000)
      else None
  end.

(** ** The token codec *)

Definition isEmpty (s : string) : bool :=
  match s with EmptyString => true | String _ _ => false end.

(** [jwt.sign(payload, secret, { expiresIn })] at time [now]; [other] is
    the package's reading of the strings that [timespan] leaves out. *)
Definition jwt_sign (other : string -> Z -> option Z)
  (payload : Payload) (secret expiresIn : string) (now : Z) : Result Text :=
  if isEmpty secret then Throw (Error "secretOrPrivateKey must have a value")
  else if isEmpty expiresIn then
    Throw (Error "expiresIn should be a number of seconds or a timespan")
  else
    let timestamp := now / 1000 in
    match timespan expiresIn with
    | Some span =>
        Ok (JwtText {| body := Payload.toJson payload;
                       iat := timestamp; exp := timestamp + span |}
                    secret)
    | None =>
        match other expiresIn timestamp with
        | Some expiry =>
            Ok (JwtText {| body := Payload.toJson payload;
                           iat := timestamp; exp := expiry |}
                        secret)
        | None =>
            Throw (Error "expiresIn should be a number of seconds or a timespan")
        end
    end.

(** [jwt.verify(token, secret)] at time [now]: the decoded object, with
    the registered claims [iat] and [exp] beside the members of the
    payload. *)
Definition jwt_verify (token : Text) (secret : string) (now : Z) : Result Claims :=
  match token with
  | JwtText c key =>
      if isEmpty secret then Throw (Error "secret or public key must be provided")
      else if negb (String.eqb key secret) then Throw (Error "invalid signature")
      else if exp c <=? now / 1000 then Throw (Error "jwt expired")
      else Ok c
  | _ => Throw (Error "jwt malformed")
  end.

Section Codec.
Variable config : Config.

Definition generateAccessToken (payload : AccessTokenPayload.t) (now : Z) : Result Text :=
  jwt_sign (otherExpiry config) (AccessP payload)
           (accessSecret config) (accessExpiry config) now.

Definition generateRefreshToken (payload : RefreshTokenPayload.t) (now : Z) : Result Text :=
  jwt_sign (otherExpiry config) (RefreshP payload)
           (refreshSecret config) (refreshExpiry config) now.

Definition generateLocationToken (payload : LocationTokenPayload.t) (now : Z) : Result Text :=
  jwt_sign (otherExpiry config) (LocationP payload)
           (locationSecret config) (locationExpiry config) now.

(** The verifiers hand back the decoded object; their declared types,
    [AccessTokenPayload] and the like, are not checked. *)
Definition verifyAccessToken (token : Text) (now : Z) : Result Claims :=
  orThrow (jwt_verify token (accessSecret config) now)
          (Error "Invalid or expired access token").

Definition verifyRefreshToken (token : Text) (now : Z) : Result Claims :=
  orThrow (jwt_verify token (refreshSecret config) now)
          (Error "Invalid or expired refresh token").

Definition verifyLocationToken (token : Text) (now : Z) : Result Claims :=
  orThrow (jwt_verify token (locationSecret config) now)
          (Error "Invalid or expired location token").
End Codec.

(** [hashToken] ([jwt.ts], lines 88-90). *)
Definition hashToken (token : Text) : Text := HexDigest token.

(** ** Geo-fence ([geoLocation.ts]) *)

Definition Rleb (x y : R) : bool := if Rle_dec x y then true else false.

(** [Math.sin], [Math.cos] and [Math.atan2] of the engine. *)
Record MathLib : Type := mkMathLib {
  Math_sin : double -> double;
  Math_cos : double -> double;
  Math_atan2 : double -> double -> double
}.

(** [Math.PI] *)
Definition Math_PI : double := 0x1.921fb54442d18p+1%float.

(** Haversine distance in metres ([calculateDistance]), operation by
    operation in binary64. *)
Definition calculateDistance (math : MathLib) (lat1 lon1 lat2 lon2 : double) : double :=
  (let R0 := 6371000 in
   let phi1 := (lat1 * Math_PI) / 180 in
   let phi2 := (lat2 * Math_PI) / 180 in
   let dphi := ((lat2 - lat1) * Math_PI) / 180 in
   let dlambda := ((lon2 - lon1) * Math_PI) / 180 in
   let a :=
     Math_sin math (dphi / 2) * Math_sin math (dphi / 2) +
     Math_cos math phi1 * Math_cos math phi2
     * Math_sin math (dlambda / 2) * Math_sin math (dlambda / 2) in
   let c := 2 * Math_atan2 math (PrimFloat.sqrt a) (PrimFloat.sqrt (1 - a)) in
   R0 * c)%float.

(** [distance <= radiusMeters], false when either is [NaN]. *)
Definition isWithinRadius (math : MathLib)
  (checkLat checkLon centerLat centerLon radiusMeters : double) : bool :=
  let distance := calculateDistance math checkLat checkLon centerLat centerLon in
  PrimFloat.leb distance radiusMeters.

(** The sine of half a difference of degrees, in radians, as it occurs
    twice in [calculateDistance]. *)
Definition sinHalf (math : MathLib) (d : double) : double :=
  Math_sin math (((d * Math_PI) / 180) / 2)%float.

(** Numbers of binary64, as opposed to the infinities and [NaN], in terms
    of the specification of the format. *)
Definition SFfinite (x : spec_float) : Prop :=
  match x with
  | S754_zero _ | S754_finite _ _ _ => True
  | _ => False
  end.


(** [lat >= -90 && lat <= 90] *)
Definition isValidLatitude (lat : double) : bool :=
  PrimFloat.leb (-90)%float lat && PrimFloat.leb lat 90%float.

Definition isValidLongitude (lon : double) : bool :=
  PrimFloat.leb (-180)%float lon && PrimFloat.leb lon 180%float.

Record CoordValidation : Type := mkCoordValidation {
  isValid : bool;
  error : option string
}.

Definition validateCoordinates (lat lon : double) : CoordValidation :=
  if negb (isValidLatitude lat) then
    {| isValid := false; error := Some "Invalid latitude. Must be between -90 and 90" |}
  else if negb (isValidLongitude lon) then
    {| isValid := false; error := Some "Invalid longitude. Must be between -180 and 180" |}
  else {| isValid := true; error := None |}.

(** ** Validators ([validators.ts]) *)

(** [typeof val === 'number' && !isNaN(val)] *)
Definition isRealNumber (val : JsValue) : bool :=
  match val with JsNumber _ => true | _ => false end.

Definition isValidEmbedding (embedding : JsValue) : bool :=
  match embedding with
  | JsArray items =>
      match items with
      | [] => false
      | _ :: _ => forallb isRealNumber items
      end
  | _ => false
  end.

(** ** The relational store (Prisma migration) *)

Module Tenant.
Record t : Type := mk {
  id : string; tenantName : string; gst : string; address : string;
  longitude : double; latitude : double;
  username : string; password : string; planType : PlanType;
  createdAt : Z; updatedAt : Z
}.
End Tenant.

Module Employee.
Record t : Type := mk {
  id : string; tenantId : string; name : string; photoUrl : string;
  embedding : JsValue; salary : number;
  emergencyContactNumber : string; contactNumber : string;
  createdAt : Z; updatedAt : Z
}.
End Employee.

Module Attendance.
Record t : Type := mk {
  id : string; tenantId : string; employeeId : string; photoUrl : string;
  embedding : JsValue; checkInTime : Z; matchConfidence : option number;
  createdAt : Z
}.
End Attendance.

Module RefreshToken.
Record t : Type := mk {
  id : string; tenantId : string; tokenHash : Text;
  expiresAt : Z; createdAt : Z; isRevoked : bool
}.

Definition revoke (r : t) : t :=
  mk (id r) (tenantId r) (tokenHash r) (expiresAt r) (createdAt r) true.
End RefreshToken.

Record Store : Type := mkStore {
  tenants : list Tenant.t;
  employees : list Employee.t;
  attendances : list Attendance.t;
  refreshTokens : list RefreshToken.t
}.

(** ** What a call observes from outside *)

Inductive DbOp : Type :=
| TenantFindUnique | TenantCreate
| EmployeeFindUnique
| AttendanceFindFirst | AttendanceCreate
| RefreshTokenFindUnique | RefreshTokenUpdate | RefreshTokenUpdateMany
| RefreshTokenCreate.

(** One entry of [response.FaceMatches]. *)
Record FaceMatch : Type := mkFaceMatch {
  Similarity : option number;
  FaceConfidence : option number     (* [Face?.Confidence] *)
}.

(** What the two downloads and [rekognitionClient.send] come to. *)
Inductive RekognitionOutcome : Type :=
| DownloadFailed
| SendFailed
| Response (FaceMatches : option (list FaceMatch)).

Record Env : Type := mkEnv {
  now : Z;                                   (* [new Date()], milliseconds *)
  zone : TimeZone;                           (* the zone of the server *)
  math : MathLib;                            (* the [Math] of the engine *)
  dbFails : DbOp -> bool;                    (* the round trip throws *)
  newId : DbOp -> string;                    (* uuid of a created row *)
  randomUUID : string;                       (* [crypto.randomUUID()] *)
  rekognition : string -> string -> RekognitionOutcome;
  (* [utils/password.ts] is not among the sources: the hasher is taken
     as an opaque pair of functions. *)
  hashPassword : string -> string;
  comparePassword : string -> string -> bool
}.

(** ** Methods on the store *)

Definition M (A : Type) : Type := Store -> Result A * Store.

Definition ret {A} (a : A) : M A := fun s => (Ok a, s).
Definition throw {A} (e : Exn) : M A := fun s => (Throw e, s).
Definition lift {A} (r : Result A) : M A := fun s => (r, s).

Definition bind {A B} (m : M A) (k : A -> M B) : M B :=
  fun s =>
    match m s with
    | (Ok a, s') => k a s'
    | (Throw e, s') => (Throw e, s')
    end.

Definition tryCatch {A} (m : M A) (handler : Exn -> M A) : M A :=
  fun s =>
    match m s with
    | (Ok a, s') => (Ok a, s')
    | (Throw e, s') => handler e s'
    end.

Notation "x <- m ;; k" := (bind m (fun x => k))
  (at level 61, m at next level, right associativity).
Notation "m ;;; k" := (bind m (fun _ => k))
  (at level 61, right associativity).

(** [if (error instanceof AppError) throw error; throw new AppError(msg, 500)] *)
Definition rethrowAs {A} (msg : string) (e : Exn) : M A :=
  match e with
  | AppError _ _ => throw e
  | Error _ => throw (AppError msg 500)
  end.

(** ** Prisma calls

    Every call is one round trip, which throws when [dbFails] says so and
    then leaves the store as it was.  The unique indexes of the migration
    (primary keys, [tenants.gst], [tenants.username],
    [refresh_tokens.tokenHash]) are enforced by [create].  Foreign keys are
    not checked: the services below only insert rows whose parents they
    have just read or created. *)

Record StoredToken : Type := mkStoredToken {
  row : RefreshToken.t;
  tenant : option Tenant.t        (* [include: { tenant: true }] *)
}.

(** The rows after [isRevoked: true] was written to those with this [id]. *)
Definition revokeById (id : string) (rows : list RefreshToken.t) : list RefreshToken.t :=
  map (fun r => if String.eqb (RefreshToken.id r) id then RefreshToken.revoke r else r)
      rows.

Section Prisma.
Variable env : Env.

Definition dbError : Exn := Error "PrismaClientKnownRequestError".

Definition query {A} (op : DbOp) (read : Store -> A) : M A :=
  fun s => if dbFails env op then (Throw dbError, s) else (Ok (read s), s).

Definition tenant_findUnique_id (id : string) : M (option Tenant.t) :=
  query TenantFindUnique
    (fun s => find (fun t => String.eqb (Tenant.id t) id) (tenants s)).

Definition tenant_findUnique_username (username : string) : M (option Tenant.t) :=
  query TenantFindUnique
    (fun s => find (fun t => String.eqb (Tenant.username t) username) (tenants s)).

Definition tenant_findUnique_gst (gst : string) : M (option Tenant.t) :=
  query TenantFindUnique
    (fun s => find (fun t => String.eqb (Tenant.gst t) gst) (tenants s)).

Definition tenant_create
  (tenantName gst address : string) (longitude latitude : double)
  (username password : string) (planType : PlanType) : M Tenant.t :=
  fun s =>
    if dbFails env TenantCreate then (Throw dbError, s)
    else
      let created :=
        Tenant.mk (newId env TenantCreate) tenantName gst address longitude latitude
                  username password planType (now env) (now env) in
      if existsb (fun t => String.eqb (Tenant.id t) (Tenant.id created)
                           || String.eqb (Tenant.gst t) gst
                           || String.eqb (Tenant.username t) username) (tenants s)
      then (Throw dbError, s)
      else (Ok created,
            mkStore (tenants s ++ [created])%list (employees s) (attendances s)
                    (refreshTokens s)).

Definition employee_findUnique (id : string) : M (option Employee.t) :=
  query EmployeeFindUnique
    (fun s => find (fun e => String.eqb (Employee.id e) id) (employees s)).

(** [findFirst({ where: { employeeId, checkInTime: { gte } } })] *)
Definition attendance_findFirst (employeeId : string) (gte : Z)
  : M (option Attendance.t) :=
  query AttendanceFindFirst
    (fun s => find (fun a => String.eqb (Attendance.employeeId a) employeeId
                             && (gte <=? Attendance.checkInTime a))
                   (attendances s)).

(** [checkInTime] and [createdAt] take their default, the current time:
    the database and the server read one clock. *)
Definition attendance_create
  (tenantId employeeId photoUrl : string) (embedding : JsValue)
  (matchConfidence : option number) : M Attendance.t :=
  fun s =>
    if dbFails env AttendanceCreate then (Throw dbError, s)
    else
      let created :=
        Attendance.mk (newId env AttendanceCreate) tenantId employeeId photoUrl
                      embedding (now env) matchConfidence (now env) in
      if existsb (fun a => String.eqb (Attendance.id a) (Attendance.id created))
                 (attendances s)
      then (Throw dbError, s)
      else (Ok created,
            mkStore (tenants s) (employees s) (attendances s ++ [created])%list
                    (refreshTokens s)).

(** [findUnique({ where: { tokenHash }, include: { tenant: true } })] *)
Definition refreshToken_findUnique (tokenHash : Text) : M (option StoredToken) :=
  query RefreshTokenFindUnique
    (fun s =>
       match find (fun r => Text_eqb (RefreshToken.tokenHash r) tokenHash)
                  (refreshTokens s) with
       | None => None
       | Some r =>
           Some {| row := r;
                   tenant := find (fun t => String.eqb (Tenant.id t)
                                                       (RefreshToken.tenantId r))
                                  (tenants s) |}
       end).

(** [update({ where: { id }, data: { isRevoked: true } })] *)
Definition refreshToken_update_revoke (id : string) : M unit :=
  fun s =>
    if dbFails env RefreshTokenUpdate then (Throw dbError, s)
    else if existsb (fun r => String.eqb (RefreshToken.id r) id) (refreshTokens s)
    then (Ok tt,
          mkStore (tenants s) (employees s) (attendances s)
                  (revokeById id (refreshTokens s)))
    else (Throw dbError, s).

(** [updateMany({ where: { tenantId, tokenHash }, data: { isRevoked: true } })] *)
Definition refreshToken_updateMany_revoke (tenantId : string) (tokenHash : Text)
  : M unit :=
  fun s =>
    if dbFails env RefreshTokenUpdateMany then (Throw dbError, s)
    else (Ok tt,
          mkStore (tenants s) (employees s) (attendances s)
                  (map (fun r => if String.eqb (RefreshToken.tenantId r) tenantId
                                    && Text_eqb (RefreshToken.tokenHash r) tokenHash
                                 then RefreshToken.revoke r else r)
                       (refreshTokens s))).

Definition refreshToken_create (tenantId : string) (tokenHash : Text) (expiresAt : Z)
  : M RefreshToken.t :=
  fun s =>
    if dbFails env RefreshTokenCreate then (Throw dbError, s)
    else
      let created :=
        RefreshToken.mk (newId env RefreshTokenCreate) tenantId tokenHash expiresAt
                        (now env) false in
      if existsb (fun r => String.eqb (RefreshToken.id r) (RefreshToken.id created)
                           || Text_eqb (RefreshToken.tokenHash r) tokenHash)
                 (refreshTokens s)
      then (Throw dbError, s)
      else (Ok created,
            mkStore (tenants s) (employees s) (attendances s)
                    (refreshTokens s ++ [created])%list).

(** [EmployeeService.getEmployeeById] *)
Definition getEmployeeById (employeeId : string) : M (option Employee.t) :=
  tryCatch (employee_findUnique employeeId)
           (fun _ => throw (AppError "Failed to fetch employee" 500)).
End Prisma.

(** ** Face comparison ([rekognition.ts]) *)

Record FaceComparisonResult : Type := mkFaceComparisonResult {
  isMatch : bool;
  confidence : number;
  similarity : option number
}.

(** Truthiness of a number. *)
Definition truthy (x : number) : bool := if Req_dec_T x 0%R then false else true.

(** [x || 0] on an optional number. *)
Definition orZero (x : option number) : number :=
  match x with
  | Some v => if truthy v then v else 0%R
  | None => 0%R
  end.

Definition noMatch : FaceComparisonResult :=
  {| isMatch := false; confidence := 0%R; similarity := Some 0%R |}.

Definition compareFaces (config : Config) (env : Env)
  (sourceImageUrl targetImageUrl : string) : Result FaceComparisonResult :=
  match rekognition env sourceImageUrl targetImageUrl with
  | DownloadFailed | SendFailed =>
      Throw (Error "Failed to compare faces using AWS Rekognition")
  | Response None | Response (Some []) => Ok noMatch
  | Response (Some (first :: _)) =>
      match Similarity first with
      | None => Ok noMatch
      | Some sim =>
          if truthy sim then
            Ok {| isMatch := Rleb (similarityThreshold config) sim;
                  confidence := orZero (FaceConfidence first);
                  similarity := Some sim |}
          else Ok noMatch
      end
  end.

(** ** Tenant service ([tenant.service.ts]) *)

Record RegisterTenantInput : Type := mkRegisterTenantInput {
  in_tenantName : string;
  in_gst : string;
  in_address : string;
  in_longitude : double;
  in_latitude : double;
  in_username : string;
  in_password : string;
  in_planType : option PlanType
}.

(** [Omit<Tenant, 'password'>] *)
Module TenantWithoutPassword.
Record t : Type := mk {
  id : string; tenantName : string; gst : string; address : string;
  longitude : double; latitude : double;
  username : string; planType : PlanType;
  createdAt : Z; updatedAt : Z
}.
End TenantWithoutPassword.

Definition withoutPassword (t : Tenant.t) : TenantWithoutPassword.t :=
  TenantWithoutPassword.mk
    (Tenant.id t) (Tenant.tenantName t) (Tenant.gst t) (Tenant.address t)
    (Tenant.longitude t) (Tenant.latitude t) (Tenant.username t)
    (Tenant.planType t) (Tenant.createdAt t) (Tenant.updatedAt t).

Module LoginResponse.
Record t : Type := mk {
  tenant : TenantWithoutPassword.t;
  accessToken : Text;
  refreshToken : Text
}.
End LoginResponse.

(** The three guards on the row read back in [refreshAccessToken]
    (lines 195-205), at time [now]. *)
Definition checkStoredToken
  (storedToken : option StoredToken) (payload : Payload) (now : Z)
  : Result StoredToken :=
  match storedToken with
  | None => Throw (AppError "Invalid or revoked refresh token" 401)
  | Some st =>
      if RefreshToken.isRevoked (row st) then
        Throw (AppError "Invalid or revoked refresh token" 401)
      else if RefreshToken.expiresAt (row st) <? now then
        Throw (AppError "Refresh token expired" 401)
      else if negb (String.eqb (RefreshToken.tenantId (row st)) (Payload.tenantId payload))
      then Throw (AppError "Token tenant mismatch" 401)
      else Ok st
  end.

Section TenantService.
Variable config : Config.
Variable env : Env.

(** Lines 73-105, 139-171 and 213-245, the block that [registerTenant],
    [loginTenant] and [refreshAccessToken] share: mint the pair, store the
    hash of the refresh token, answer. *)
Definition openSession (t : Tenant.t) : M LoginResponse.t :=
  accessToken <- lift (generateAccessToken config
                         (AccessTokenPayload.mk (Tenant.id t) (Tenant.username t)
                                                (planTypeName (Tenant.planType t)))
                         (now env)) ;;
  let refreshTokenPayload := RefreshTokenPayload.mk (Tenant.id t) (randomUUID env) in
  refreshToken <- lift (generateRefreshToken config refreshTokenPayload (now env)) ;;
  expiresAt <- lift (getTokenExpiry (zone env) (refreshExpiry config) (now env)) ;;
  match expiresAt with
  | InvalidDate =>
      (* the client refuses an invalid [Date] before any round trip *)
      throw (Error "PrismaClientValidationError")
  | ValidDate expiry =>
      refreshToken_create env (Tenant.id t) (hashToken refreshToken) expiry
  end ;;;
  ret (LoginResponse.mk (withoutPassword t) accessToken refreshToken).

Definition registerTenant (input : RegisterTenantInput) : M LoginResponse.t :=
  tryCatch
    (existingUsername <- tenant_findUnique_username env (in_username input) ;;
     match existingUsername with
     | Some _ => throw (AppError "Username already exists" 409)
     | None =>
         existingGST <- tenant_findUnique_gst env (in_gst input) ;;
         match existingGST with
         | Some _ => throw (AppError "GST number already registered" 409)
         | None =>
             let hashedPassword := hashPassword env (in_password input) in
             t <- tenant_create env
                    (in_tenantName input) (in_gst input) (in_address input)
                    (in_longitude input) (in_latitude input) (in_username input)
                    hashedPassword
                    (match in_planType input with Some p => p | None => FREE end) ;;
             openSession t
         end
     end)
    (rethrowAs "Failed to register tenant").

Definition loginTenant (username password : string) : M LoginResponse.t :=
  tryCatch
    (found <- tenant_findUnique_username env username ;;
     match found with
     | None => throw (AppError "Invalid username or password" 401)
     | Some t =>
         if negb (comparePassword env password (Tenant.password t)) then
           throw (AppError "Invalid username or password" 401)
         else openSession t
     end)
    (rethrowAs "Login failed").

(** Lines 190-205: read the row by the hash of the presented token and
    run the three guards. *)
Definition validateStoredToken (refreshToken : Text) (payload : Payload)
  : M StoredToken :=
  storedToken <- refreshToken_findUnique env (hashToken refreshToken) ;;
  lift (checkStoredToken storedToken payload (now env)).

Definition refreshAccessToken (refreshToken : Text) : M LoginResponse.t :=
  tryCatch
    (payload <- lift (verifyRefreshToken config refreshToken (now env)) ;;
     storedToken <- validateStoredToken refreshToken payload ;;
     (* Revoke old refresh token (token rotation) *)
     refreshToken_update_revoke env (RefreshToken.id (row storedToken)) ;;;
     match tenant storedToken with
     | None => throw (Error "TypeError: Cannot read properties of null")
     | Some t => openSession t
     end)
    (rethrowAs "Failed to refresh token").

Definition logoutTenant (tenantId : string) (refreshToken : Text) : M unit :=
  tryCatch
    (refreshToken_updateMany_revoke env tenantId (hashToken refreshToken))
    (fun _ => throw (AppError "Failed to logout" 500)).
End TenantService.

(** ** Attendance service ([attendance.service.ts]) *)

Record LocationCheckInput : Type := mkLocationCheckInput {
  lc_employeeId : string;
  lc_latitude : double;
  lc_longitude : double
}.

Module LocationCheckResponse.
Record t : Type := mk {
  success : bool;
  tenantId : option string;
  tenantName : option string;
  address : option string;
  locationToken : option Text;
  message : string
}.
End LocationCheckResponse.

Record CheckInInput : Type := mkCheckInInput {
  ci_employeeId : string;
  ci_photoUrl : string;
  ci_embedding : JsValue;
  ci_locationToken : Text
}.

Definition dayMillis : Z := 86400000.

(** [today.setHours(0, 0, 0, 0)]: local midnight of the day of [t], in a
    zone [tzOffset] milliseconds east of UTC. *)
Definition startOfDay (tzOffset t : Z) : Z := t - (t + tzOffset) mod dayMillis.

Definition optString_eqb (a : option string) (b : string) : bool :=
  match a with Some x => String.eqb x b | None => false end.

Section AttendanceService.
Variable config : Config.
Variable tzOffset : Z.
Variable env : Env.

Definition checkEmployeeLocation (input : LocationCheckInput)
  : M LocationCheckResponse.t :=
  tryCatch
    (let coordValidation :=
       validateCoordinates (lc_latitude input) (lc_longitude input) in
     if negb (isValid coordValidation) then
       throw (AppError (match error coordValidation with
                        | Some msg => if isEmpty msg then "Invalid coordinates" else msg
                        | None => "Invalid coordinates"
                        end) 400)
     else
       found <- getEmployeeById env (lc_employeeId input) ;;
       match found with
       | None => throw (AppError "Employee not found" 404)
       | Some employee =>
           owner <- tenant_findUnique_id env (Employee.tenantId employee) ;;
           match owner with
           | None => throw (AppError "Tenant not found" 404)
           | Some t =>
               let isWithin :=
                 isWithinRadius (math env) (lc_latitude input) (lc_longitude input)
                                (Tenant.latitude t) (Tenant.longitude t)
                                (allowedCheckInRadius config) in
               if isWithin then
                 ret (LocationCheckResponse.mk false None None None None
                        "You are within the office premises. Please proceed with check-in.")
               else
                 locationToken <-
                   lift (generateLocationToken config
                           (LocationTokenPayload.mk (Tenant.id t) (Employee.id employee)
                              (lc_latitude input) (lc_longitude input))
                           (now env)) ;;
                 ret (LocationCheckResponse.mk true
                        (Some (Tenant.id t)) (Some (Tenant.tenantName t))
                        (Some (Tenant.address t)) (Some locationToken)
                        "Location verified. You are outside office premises.")
           end
       end)
    (rethrowAs "Failed to check location").

(** Lines 220-253: the confidence to record, or the failure of the
    face check. *)
Definition verifyIdentity (employee : Employee.t) (t : Tenant.t) (input : CheckInInput)
  : M (option number) :=
  if PlanType_eqb (Tenant.planType t) PAID then
    tryCatch
      (comparisonResult <-
         lift (compareFaces config env (Employee.photoUrl employee) (ci_photoUrl input)) ;;
       if negb (isMatch comparisonResult) then
         throw (AppError
                  "Face verification failed. Please try again with a clear photo." 400)
       else ret (Some (orZero (similarity comparisonResult))))
      (rethrowAs "Face verification failed. Please try again.")
  else ret None.

(** Lines 258-284: the once-a-day guard and the insert. *)
Definition recordAttendance (employee : Employee.t) (input : CheckInInput)
  (matchConfidence : option number) : M Attendance.t :=
  let today := startOfDay tzOffset (now env) in
  existingCheckIn <- attendance_findFirst env (ci_employeeId input) today ;;
  match existingCheckIn with
  | Some _ => throw (AppError "Already checked in today" 409)
  | None =>
      attendance_create env (Employee.tenantId employee) (Employee.id employee)
                        (ci_photoUrl input) (ci_embedding input) matchConfidence
  end.

Definition checkIn (input : CheckInInput) : M Attendance.t :=
  tryCatch
    (locationPayload <-
       lift (orThrow (verifyLocationToken config (ci_locationToken input) (now env))
                     (AppError "Invalid or expired location token" 401)) ;;
     if negb (optString_eqb (Payload.employeeId locationPayload) (ci_employeeId input))
     then throw (AppError "Employee ID mismatch with location token" 403)
     else if negb (isValidEmbedding (ci_embedding input)) then
       throw (AppError "Invalid embedding format" 400)
     else
       found <- getEmployeeById env (ci_employeeId input) ;;
       match found with
       | None => throw (AppError "Employee not found" 404)
       | Some employee =>
           if negb (String.eqb (Employee.tenantId employee)
                               (Payload.tenantId locationPayload))
           then throw (AppError "Tenant mismatch" 403)
           else
             owner <- tenant_findUnique_id env (Employee.tenantId employee) ;;
             match owner with
             | None => throw (AppError "Tenant not found" 404)
             | Some t =>
                 matchConfidence <- verifyIdentity employee t input ;;
                 recordAttendance employee input matchConfidence
             end
       end)
    (rethrowAs "Failed to process check-in").
End AttendanceService.

(** ** Sample data and auxiliary notions

    Used by the statements and the worked examples of the second part. *)

(** The defaults of [config/index.ts], with three distinct secrets. *)
Definition demoConfig : Config :=
  {| accessSecret := "access-secret";
     refreshSecret := "refresh-secret";
     locationSecret := "location-secret";
     accessExpiry := "15m";
     refreshExpiry := "7d";
     locationExpiry := "5m";
     similarityThreshold := 85%R;
     allowedCheckInRadius := 100%float;
     otherExpiry := fun _ _ => None |}.

(** What the [Math] of a Node process answers at the arguments that the
    worked examples meet: the sine and cosine of eight degrees and of a
    right angle, the arc tangent of the pair (1, 0).  At any other
    argument the sample answers [x] for the sine, [1] for the cosine and
    [y] for the arc tangent of (y, x). *)
Definition sampleMath : MathLib :=
  {| Math_sin := fun x =>
       (if x =? 0x1.1df46a2529d39p-3 then 0x1.1d06c968d9e19p-3
        else if x =? -0x1.1df46a2529d39p-3 then -0x1.1d06c968d9e19p-3
        else if x =? 0x1.921fb54442d18p+0 then 1
        else if x =? -0x1.921fb54442d18p+0 then -1
        else x)%float;
     Math_cos := fun x =>
       (if PrimFloat.abs x =? 0x1.1df46a2529d39p-3 then 0x1.fb046a930947ap-1
        else 1)%float;
     Math_atan2 := fun y x =>
       (if PrimFloat.is_nan y || PrimFloat.is_nan x then PrimFloat.nan
        else if (y =? 1) && (x =? 0) then 0x1.921fb54442d18p+0
        else y)%float |}.

(** *** Refresh sessions *)

(** A quiet environment: the clock reads [t], no round trip fails. *)
Definition quietEnv (t : Z) : Env :=
  {| now := t;
     zone := fixedZone 0;
     math := sampleMath;
     dbFails := fun _ => false;
     newId := fun _ => "row-new";
     randomUUID := "uuid-new";
     rekognition := fun _ _ => Response None;
     hashPassword := fun p => String.append "bcrypt:" p;
     comparePassword := fun p h => String.eqb (String.append "bcrypt:" p) h |}.

Definition acme : Tenant.t :=
  Tenant.mk "tenant-1" "Acme" "29ABCDE1234F1Z5" "MG Road" 0%float 0%float
            "acme" "bcrypt:secret" PAID 0 0.

(** The refresh token minted for [acme] at time 0 with token id [uuid-1]. *)
Definition acmeToken : Text :=
  JwtText (mkClaims (RefreshP (RefreshTokenPayload.mk "tenant-1" "uuid-1")) 0 604800)
          "refresh-secret".

Definition acmeSession (expiresAt : Z) : RefreshToken.t :=
  RefreshToken.mk "row-1" "tenant-1" (hashToken acmeToken) expiresAt 0 false.

Definition acmeStore (expiresAt : Z) : Store :=
  mkStore [acme] [] [] [acmeSession expiresAt].

(** The row that carries the hash of the presented token, if any. *)
Definition sessionOf (refreshToken : Text) (s : Store) : option RefreshToken.t :=
  find (fun r => Text_eqb (RefreshToken.tokenHash r) (hashToken refreshToken))
       (refreshTokens s).

Definition withRefreshTokens (s : Store) (rows : list RefreshToken.t) : Store :=
  mkStore (tenants s) (employees s) (attendances s) rows.

(** What the service-level [catch] rethrows. *)
Definition rethrown (msg : string) (e : Exn) : Exn :=
  match e with
  | AppError _ _ => e
  | Error _ => AppError msg 500
  end.

(** An environment in which the insert into [refresh_tokens] fails. *)
Definition createFailsEnv (t : Z) : Env :=
  {| now := t;
     zone := fixedZone 0;
     math := sampleMath;
     dbFails := fun op => match op with RefreshTokenCreate => true | _ => false end;
     newId := fun _ => "row-new";
     randomUUID := "uuid-new";
     rekognition := fun _ _ => Response None;
     hashPassword := fun p => String.append "bcrypt:" p;
     comparePassword := fun p h => String.eqb (String.append "bcrypt:" p) h |}.

(** *** The hash column *)

(** The [tokenHash] column. *)
Definition hashColumn (s : Store) : list Text :=
  map RefreshToken.tokenHash (refreshTokens s).

(** Every stored [tokenHash] is a digest. *)
Definition digestsOnly (s : Store) : Prop :=
  Forall (fun h => exists t, h = HexDigest t) (hashColumn s).

(** The operations of the tenant service that write to [refresh_tokens]. *)
Inductive SessionOp : Type :=
| Register (input : RegisterTenantInput)
| Login (username password : string)
| Refresh (refreshToken : Text)
| Logout (tenantId : string) (refreshToken : Text).

(** The outcome of an operation, with the session pair it hands out. *)
Definition runSessionOp (config : Config) (env : Env) (op : SessionOp)
  : M (option LoginResponse.t) :=
  match op with
  | Register input => resp <- registerTenant config env input ;; ret (Some resp)
  | Login username password =>
      resp <- loginTenant config env username password ;; ret (Some resp)
  | Refresh refreshToken =>
      resp <- refreshAccessToken config env refreshToken ;; ret (Some resp)
  | Logout tenantId refreshToken =>
      logoutTenant env tenantId refreshToken ;;; ret None
  end.

(** The hash column after an operation: unchanged, or extended by the
    hash of the refresh token in the answer. *)
Definition hashColumnAfter (s : Store) (res : Result (option LoginResponse.t))
  : list Text :=
  match res with
  | Ok (Some resp) => (hashColumn s ++ [hashToken (LoginResponse.refreshToken resp)])%list
  | _ => hashColumn s
  end.

(** *** Check-in *)

Definition withAttendances (s : Store) (rows : list Attendance.t) : Store :=
  mkStore (tenants s) (employees s) rows (refreshTokens s).

(** The request has passed the token, embedding, employee and tenant
    checks of [checkIn] and stands before the identity verification, with
    [employee] and [t] resolved. *)
Definition reachesIdentityCheck
  (config : Config) (env : Env) (input : CheckInInput) (s : Store)
  (employee : Employee.t) (t : Tenant.t) : Prop :=
  exists payload,
    verifyLocationToken config (ci_locationToken input) (now env) = Ok payload /\
    Payload.employeeId payload = Some (ci_employeeId input) /\
    isValidEmbedding (ci_embedding input) = true /\
    dbFails env EmployeeFindUnique = false /\
    find (fun e => String.eqb (Employee.id e) (ci_employeeId input)) (employees s)
      = Some employee /\
    Employee.tenantId employee = Payload.tenantId payload /\
    dbFails env TenantFindUnique = false /\
    find (fun x => String.eqb (Tenant.id x) (Employee.tenantId employee)) (tenants s)
      = Some t.

(** The part of [checkIn] that follows the resolution of employee and tenant. *)
Definition verifyAndRecord
  (config : Config) (tzOffset : Z) (env : Env) (input : CheckInInput)
  (employee : Employee.t) (t : Tenant.t) : M Attendance.t :=
  tryCatch
    (matchConfidence <- verifyIdentity config env employee t input ;;
     recordAttendance tzOffset env employee input matchConfidence)
    (rethrowAs "Failed to process check-in").

(** *** Sample data: two employees of one FREE tenant *)

Definition globex : Tenant.t :=
  Tenant.mk "tenant-2" "Globex" "27ABCDE1234F1Z5" "Ring Road" 0%float 0%float
            "globex" "bcrypt:secret" FREE 0 0.

Definition sampleEmbedding : JsValue := JsArray [JsNumber 1%R; JsNumber 2%R].

Definition asha : Employee.t :=
  Employee.mk "emp-1" "tenant-2" "Asha" "https://photos/emp-1.jpg" sampleEmbedding
              1000%R "9000000001" "9000000002" 0 0.

Definition ravi : Employee.t :=
  Employee.mk "emp-2" "tenant-2" "Ravi" "https://photos/emp-2.jpg" sampleEmbedding
              1000%R "9000000003" "9000000004" 0 0.

Definition globexStore : Store := mkStore [acme; globex] [asha; ravi] [] [].

(** The proof issued to [emp-1] at time 0, good for five minutes. *)
Definition ashaProof : Text :=
  JwtText (mkClaims (LocationJson "tenant-2" "emp-1" (Some 1%float) (Some 1%float))
                    0 300)
          "location-secret".

Definition ashaRequest : CheckInInput :=
  mkCheckInInput "emp-1" "https://photos/in-1.jpg" sampleEmbedding ashaProof.

(** [emp-2] presents the proof issued to [emp-1]. *)
Definition raviWithAshaProof : CheckInInput :=
  mkCheckInInput "emp-2" "https://photos/in-2.jpg" sampleEmbedding ashaProof.

(** *** Sample data: an employee of the PAID tenant *)

Definition meera : Employee.t :=
  Employee.mk "emp-3" "tenant-1" "Meera" "https://photos/emp-3.jpg" sampleEmbedding
              1000%R "9000000005" "9000000006" 0 0.

Definition acmeStaffStore : Store := mkStore [acme; globex] [asha; ravi; meera] [] [].

Definition meeraProof : Text :=
  JwtText (mkClaims (LocationJson "tenant-1" "emp-3" (Some 1%float) (Some 1%float))
                    0 300)
          "location-secret".

Definition meeraRequest : CheckInInput :=
  mkCheckInInput "emp-3" "https://photos/in-3.jpg" sampleEmbedding meeraProof.

(** The oracle answers with one face match of the given similarity. *)
Definition oracleEnv (t : Z) (sim : number) : Env :=
  {| now := t;
     zone := fixedZone 0;
     math := sampleMath;
     dbFails := fun _ => false;
     newId := fun _ => "row-new";
     randomUUID := "uuid-new";
     rekognition := fun _ _ => Response (Some [mkFaceMatch (Some sim) (Some 99%R)]);
     hashPassword := fun p => String.append "bcrypt:" p;
     comparePassword := fun p h => String.eqb (String.append "bcrypt:" p) h |}.

(** *** Once a day *)







From Stdlib Require Import Sorted Permutation.

(** ** Further notions for the properties of the second part *)

(** *** Expiry strings *)

Fixpoint allDigits (s : string) : bool :=
  match s with
  | EmptyString => true
  | String c rest => isDigit c && allDigits rest
  end.

(** The number a string of decimal digits denotes, continuing from [acc]. *)
Fixpoint decimalFrom (s : string) (acc : Z) : Z :=
  match s with
  | EmptyString => acc
  | String c rest => decimalFrom rest (10 * acc + (asciiCode c - 48))
  end.

Definition decimalValue (s : string) : Z := decimalFrom s 0.

(** An expiry string as [getTokenExpiry] wants it: one or more decimal
    digits followed by one of the letters s, m, h, d. *)
Definition isExpiryOf (s digits : string) (unit : ascii) : Prop :=
  s = String.append digits (String unit EmptyString) /\
  digits <> EmptyString /\
  allDigits digits = true /\
  isUnit unit = true.

(** *** Revoked sessions *)

(** Session operations one after the other, each with what it observes. *)
Fixpoint runSessionOps (config : Config) (calls : list (Env * SessionOp)) (s : Store)
  : Store :=
  match calls with
  | [] => s
  | (env, op) :: rest =>
      runSessionOps config rest (snd (runSessionOp config env op s))
  end.

(** The row found for the hash of [refreshToken] is revoked. *)
Definition presentedRevoked (refreshToken : Text) (s : Store) : Prop :=
  exists r, sessionOf refreshToken s = Some r /\ RefreshToken.isRevoked r = true.

(** How [refresh_tokens] changes: rows keep their place and their hash, a
    revoked row stays revoked, new rows come at the end. *)
Definition evolves (rows rows' : list RefreshToken.t) : Prop :=
  exists g extra,
    rows' = (map g rows ++ extra)%list /\
    forall r, RefreshToken.tokenHash (g r) = RefreshToken.tokenHash r /\
              (RefreshToken.isRevoked r = true -> RefreshToken.isRevoked (g r) = true).

(** *** Registration *)

Definition withTenants (s : Store) (rows : list Tenant.t) : Store :=
  mkStore rows (employees s) (attendances s) (refreshTokens s).

(** *** Error catalogues *)

Definition checkInErrors : list Exn :=
  [ AppError "Invalid or expired location token" 401;
    AppError "Employee ID mismatch with location token" 403;
    AppError "Invalid embedding format" 400;
    AppError "Failed to fetch employee" 500;
    AppError "Employee not found" 404;
    AppError "Tenant mismatch" 403;
    AppError "Tenant not found" 404;
    AppError "Face verification failed. Please try again with a clear photo." 400;
    AppError "Face verification failed. Please try again." 500;
    AppError "Already checked in today" 409;
    AppError "Failed to process check-in" 500 ].

Definition locationCheckErrors : list Exn :=
  [ AppError "Invalid latitude. Must be between -90 and 90" 400;
    AppError "Invalid longitude. Must be between -180 and 180" 400;
    AppError "Failed to fetch employee" 500;
    AppError "Employee not found" 404;
    AppError "Tenant not found" 404;
    AppError "Failed to check location" 500 ].

Definition sessionErrors (op : SessionOp) : list Exn :=
  match op with
  | Register _ =>
      [ AppError "Username already exists" 409;
        AppError "GST number already registered" 409;
        AppError "Failed to register tenant" 500 ]
  | Login _ _ =>
      [ AppError "Invalid username or password" 401;
        AppError "Login failed" 500 ]
  | Refresh _ =>
      [ AppError "Invalid or revoked refresh token" 401;
        AppError "Refresh token expired" 401;
        AppError "Token tenant mismatch" 401;
        AppError "Failed to refresh token" 500 ]
  | Logout _ _ => [ AppError "Failed to logout" 500 ]
  end.

(** ** The rest of the services

    The methods of the three services that the attendance and session
    flows above do not go through, and the middleware that guards their
    routes. *)

(** *** Round trips of these methods *)

Inductive QueryOp : Type :=
| TenantUpdate
| EmployeeFindFirst | EmployeeCreate | EmployeeUpdate | EmployeeDelete
| EmployeeFindMany | EmployeeCount
| AttendanceFindMany | AttendanceCount.

(** What these methods observe beyond [Env]. *)
Record QueryEnv : Type := mkQueryEnv {
  base : Env;
  queryFails : QueryOp -> bool;              (* the round trip throws *)
  newEmployeeId : string;                    (* uuid of a created employee *)
  oneMonthAgo : Z;                           (* [new Date()] after [setMonth(getMonth() - 1)] *)
  (* What a DECIMAL(10,2) column keeps of a number; [None]: refused. *)
  toDecimal : number -> option number;
  (* What a JSONB column keeps of a value that is no array of numbers. *)
  toJsonb : JsValue -> option JsValue;
  (* [name: { contains: search, mode: 'insensitive' }], the database's ILIKE. *)
  containsInsensitive : string -> string -> bool
}.

Definition withEmployees (s : Store) (rows : list Employee.t) : Store :=
  mkStore (tenants s) rows (attendances s) (refreshTokens s).

(** [orderBy: { <key>: 'desc' }]; rows of equal key stay in table order,
    which is one of the orders the database may answer with. *)
Fixpoint insertDesc {A} (key : A -> Z) (x : A) (l : list A) : list A :=
  match l with
  | [] => [x]
  | y :: rest => if key y <=? key x then x :: l else y :: insertDesc key x rest
  end.

Definition orderByDesc {A} (key : A -> Z) (l : list A) : list A :=
  fold_right (insertDesc key) [] l.

(** Newest first. *)
Definition descending {A} (key : A -> Z) (l : list A) : Prop :=
  StronglySorted (fun a b => key b <= key a) l.

(** [skip] and [take] of [findMany]: a negative [skip] is refused, a
    negative [take] reads from the end of the ordered rows. *)
Definition paginate {A} (skip take : Z) (rows : list A) : option (list A) :=
  if skip <? 0 then None
  else if 0 <=? take then
    Some (firstn (Z.to_nat take) (skipn (Z.to_nat skip) rows))
  else
    Some (rev (firstn (Z.to_nat (- take)) (skipn (Z.to_nat skip) (rev rows)))).

(** [Math.ceil(total / limit)] on integers. *)
Inductive PageCount : Type :=
| Pages (n : Z)
| InfinitePages          (* [Infinity] *)
| NoPageCount.           (* [NaN] *)

Definition totalPagesOf (total limit : Z) : PageCount :=
  if limit =? 0 then (if total =? 0 then NoPageCount else InfinitePages)
  else Pages (- ((- total) / limit)).

(** JavaScript truthiness. *)
Definition jsTruthy (v : JsValue) : bool :=
  match v with
  | JsUndefined | JsNaN => false
  | JsNumber x => if Req_dec_T x 0 then false else true
  | JsString s => negb (isEmpty s)
  | JsArray _ => true
  end.

Section Queries.
Variable qenv : QueryEnv.

(** [employee.findFirst({ where: { id, tenantId } })] *)
Definition employee_findFirst (id tenantId : string) : M (option Employee.t) :=
  fun s =>
    if queryFails qenv EmployeeFindFirst then (Throw dbError, s)
    else (Ok (find (fun e => String.eqb (Employee.id e) id
                             && String.eqb (Employee.tenantId e) tenantId)
                   (employees s)), s).

(** [employee.create]: primary key and the foreign key to [tenants]. *)
Definition employee_create
  (tenantId name photoUrl : string) (embedding : JsValue) (salary : number)
  (emergencyContactNumber contactNumber : string) : M Employee.t :=
  fun s =>
    if queryFails qenv EmployeeCreate then (Throw dbError, s)
    else
      match toDecimal qenv salary with
      | None => (Throw dbError, s)
      | Some kept =>
          let created :=
            Employee.mk (newEmployeeId qenv) tenantId name photoUrl embedding kept
                        emergencyContactNumber contactNumber
                        (now (base qenv)) (now (base qenv)) in
          if existsb (fun e => String.eqb (Employee.id e) (Employee.id created))
                     (employees s)
             || negb (existsb (fun t => String.eqb (Tenant.id t) tenantId) (tenants s))
          then (Throw dbError, s)
          else (Ok created, withEmployees s (employees s ++ [created])%list)
      end.

(** [employee.delete({ where: { id } })]; the attendances of the employee
    go with it (ON DELETE CASCADE). *)
Definition employee_delete (id : string) : M unit :=
  fun s =>
    if queryFails qenv EmployeeDelete then (Throw dbError, s)
    else if existsb (fun e => String.eqb (Employee.id e) id) (employees s) then
      (Ok tt,
       mkStore (tenants s)
               (filter (fun e => negb (String.eqb (Employee.id e) id)) (employees s))
               (filter (fun a => negb (String.eqb (Attendance.employeeId a) id))
                       (attendances s))
               (refreshTokens s))
    else (Throw dbError, s).
End Queries.

(** ** Employee service ([employee.service.ts]) *)

Record RegisterEmployeeInput : Type := mkRegisterEmployeeInput {
  re_tenantId : string;
  re_name : string;
  re_photoUrl : string;
  re_embedding : JsValue;
  re_salary : number;
  re_emergencyContactNumber : string;
  re_contactNumber : string
}.

(** [Partial<RegisterEmployeeInput>]: [None] is a key that is absent or
    undefined. *)
Record EmployeeUpdates : Type := mkEmployeeUpdates {
  ue_tenantId : option string;
  ue_name : option string;
  ue_photoUrl : option string;
  ue_embedding : option JsValue;
  ue_salary : option number;
  ue_emergencyContactNumber : option string;
  ue_contactNumber : option string
}.

(** [EmployeeWithAttendance]: the spread keeps the included [attendances]
    beside [lastMonthAttendance]. *)
Record EmployeeWithAttendance : Type := mkEmployeeWithAttendance {
  details_employee : Employee.t;
  details_attendances : list Attendance.t;
  lastMonthAttendance : list Attendance.t
}.

Definition orElse {A} (o : option A) (d : A) : A :=
  match o with Some a => a | None => d end.

(** The embedding among the updates, [undefined] read as absent. *)
Definition givenEmbedding (updates : EmployeeUpdates) : option JsValue :=
  match ue_embedding updates with
  | Some JsUndefined => None
  | other => other
  end.

Definition noUpdates (updates : EmployeeUpdates) : bool :=
  match ue_tenantId updates, ue_name updates, ue_photoUrl updates,
        givenEmbedding updates, ue_salary updates,
        ue_emergencyContactNumber updates, ue_contactNumber updates with
  | None, None, None, None, None, None, None => true
  | _, _, _, _, _, _, _ => false
  end.

(** [updates.embedding && !isValidEmbedding(updates.embedding)] *)
Definition embeddingRefused (updates : EmployeeUpdates) : bool :=
  match ue_embedding updates with
  | Some v => jsTruthy v && negb (isValidEmbedding v)
  | None => false
  end.

(** [attendances: { where: { checkInTime: { gte } }, orderBy: { checkInTime:
    'desc' } }] of one employee. *)
Definition attendancesSince (gte : Z) (employeeId : string) (rows : list Attendance.t)
  : list Attendance.t :=
  orderByDesc Attendance.checkInTime
    (filter (fun a => String.eqb (Attendance.employeeId a) employeeId
                      && (gte <=? Attendance.checkInTime a))
            rows).

Section EmployeeService.
Variable qenv : QueryEnv.

(** The row that [employee.update({ data: updates })] writes in place of
    [e]; [None] when a column refuses its value.  [updatedAt] moves only
    when there is something to write. *)
Definition patchEmployee (updates : EmployeeUpdates) (e : Employee.t)
  : option Employee.t :=
  if noUpdates updates then Some e
  else
    match (match ue_salary updates with
           | None => Some (Employee.salary e)
           | Some x => toDecimal qenv x
           end),
          (match givenEmbedding updates with
           | None => Some (Employee.embedding e)
           | Some v => if isValidEmbedding v then Some v else toJsonb qenv v
           end) with
    | Some salary, Some embedding =>
        Some (Employee.mk (Employee.id e)
                (orElse (ue_tenantId updates) (Employee.tenantId e))
                (orElse (ue_name updates) (Employee.name e))
                (orElse (ue_photoUrl updates) (Employee.photoUrl e))
                embedding salary
                (orElse (ue_emergencyContactNumber updates)
                        (Employee.emergencyContactNumber e))
                (orElse (ue_contactNumber updates) (Employee.contactNumber e))
                (Employee.createdAt e) (now (base qenv)))
    | _, _ => None
    end.

(** [employee.update({ where: { id }, data: updates })] *)
Definition employee_update (id : string) (updates : EmployeeUpdates) : M Employee.t :=
  fun s =>
    if queryFails qenv EmployeeUpdate then (Throw dbError, s)
    else
      match find (fun e => String.eqb (Employee.id e) id) (employees s) with
      | None => (Throw dbError, s)
      | Some e =>
          match patchEmployee updates e with
          | None => (Throw dbError, s)
          | Some e' =>
              if existsb (fun t => String.eqb (Tenant.id t) (Employee.tenantId e'))
                         (tenants s)
                 || String.eqb (Employee.tenantId e') (Employee.tenantId e)
              then
                (Ok e',
                 withEmployees s
                   (map (fun x => if String.eqb (Employee.id x) id then e' else x)
                        (employees s)))
              else (Throw dbError, s)
          end
      end.

Definition registerEmployee (input : RegisterEmployeeInput) : M Employee.t :=
  tryCatch
    (if negb (isValidEmbedding (re_embedding input)) then
       throw (AppError "Invalid embedding format" 400)
     else
       found <- tenant_findUnique_id (base qenv) (re_tenantId input) ;;
       match found with
       | None => throw (AppError "Tenant not found" 404)
       | Some _ =>
           employee_create qenv (re_tenantId input) (re_name input) (re_photoUrl input)
             (re_embedding input) (re_salary input)
             (re_emergencyContactNumber input) (re_contactNumber input)
       end)
    (rethrowAs "Failed to register employee").

(** [employee.findFirst] with [include: { attendances: { where, orderBy } }] *)
Definition employee_findFirst_withAttendances (id tenantId : string) (gte : Z)
  : M (option (Employee.t * list Attendance.t)) :=
  found <- employee_findFirst qenv id tenantId ;;
  match found with
  | None => ret None
  | Some e =>
      fun s => (Ok (Some (e, attendancesSince gte (Employee.id e) (attendances s))), s)
  end.

Definition getEmployeeDetails (employeeId tenantId : string)
  : M EmployeeWithAttendance :=
  tryCatch
    (found <- employee_findFirst_withAttendances employeeId tenantId
                (oneMonthAgo qenv) ;;
     match found with
     | None => throw (AppError "Employee not found" 404)
     | Some (employee, rows) => ret (mkEmployeeWithAttendance employee rows rows)
     end)
    (rethrowAs "Failed to fetch employee details").

Definition updateEmployee (employeeId tenantId : string) (updates : EmployeeUpdates)
  : M Employee.t :=
  tryCatch
    (if embeddingRefused updates
     then throw (AppError "Invalid embedding format" 400)
     else
       found <- employee_findFirst qenv employeeId tenantId ;;
       match found with
       | None => throw (AppError "Employee not found" 404)
       | Some _ => employee_update employeeId updates
       end)
    (rethrowAs "Failed to update employee").

Definition deleteEmployee (employeeId tenantId : string) : M unit :=
  tryCatch
    (found <- employee_findFirst qenv employeeId tenantId ;;
     match found with
     | None => throw (AppError "Employee not found" 404)
     | Some _ => employee_delete qenv employeeId
     end)
    (rethrowAs "Failed to delete employee").
End EmployeeService.

Record EmployeePage : Type := mkEmployeePage {
  ep_employees : list Employee.t;
  ep_total : Z;
  ep_page : Z;
  ep_totalPages : PageCount
}.

Section EmployeeList.
Variable qenv : QueryEnv.

(** The [where] of [listEmployees]: [search] counts when it is truthy. *)
Definition listedBy (tenantId : string) (search : option string) (e : Employee.t)
  : bool :=
  String.eqb (Employee.tenantId e) tenantId
  && match search with
     | None => true
     | Some q => if isEmpty q then true else containsInsensitive qenv (Employee.name e) q
     end.

Definition employee_findMany (where_ : Employee.t -> bool) (skip take : Z)
  : M (list Employee.t) :=
  fun s =>
    if queryFails qenv EmployeeFindMany then (Throw dbError, s)
    else
      match paginate skip take
              (orderByDesc Employee.createdAt (filter where_ (employees s))) with
      | None => (Throw (Error "PrismaClientValidationError"), s)
      | Some rows => (Ok rows, s)
      end.

Definition employee_count (where_ : Employee.t -> bool) : M Z :=
  fun s =>
    if queryFails qenv EmployeeCount then (Throw dbError, s)
    else (Ok (Z.of_nat (List.length (filter where_ (employees s)))), s).

(** [page] and [limit] are integers, as [parseInt] yields them. *)
Definition listEmployees (tenantId : string) (page limit : Z) (search : option string)
  : M EmployeePage :=
  tryCatch
    (let skip := (page - 1) * limit in
     let where_ := listedBy tenantId search in
     employees <- employee_findMany where_ skip limit ;;
     total <- employee_count where_ ;;
     ret (mkEmployeePage employees total page (totalPagesOf total limit)))
    (fun _ => throw (AppError "Failed to list employees" 500)).
End EmployeeList.

(** ** Attendance queries ([attendance.service.ts], lines 305-429) *)

Record AttendancePage : Type := mkAttendancePage {
  ap_attendances : list Attendance.t;
  ap_total : Z;
  ap_page : Z;
  ap_totalPages : PageCount
}.

(** [include: { employee: { select: { id, name, contactNumber } } }] *)
Record EmployeeSummary : Type := mkEmployeeSummary {
  sum_id : string;
  sum_name : string;
  sum_contactNumber : string
}.

Record ReportRow : Type := mkReportRow {
  report_attendance : Attendance.t;
  report_employee : EmployeeSummary
}.

Definition optZ_leb_lo (lo : option Z) (x : Z) : bool :=
  match lo with Some l => l <=? x | None => true end.

Definition optZ_leb_hi (x : Z) (hi : option Z) : bool :=
  match hi with Some h => x <=? h | None => true end.

(** The [where] of [getEmployeeAttendance]. *)
Definition attendedBy (employeeId tenantId : string) (startDate endDate : option Z)
  (a : Attendance.t) : bool :=
  String.eqb (Attendance.employeeId a) employeeId
  && String.eqb (Attendance.tenantId a) tenantId
  && optZ_leb_lo startDate (Attendance.checkInTime a)
  && optZ_leb_hi (Attendance.checkInTime a) endDate.

(** The [where] of [getAttendanceReport]: [employeeId] counts when it is
    truthy. *)
Definition reportedFor (tenantId : string) (startDate endDate : Z)
  (employeeId : option string) (a : Attendance.t) : bool :=
  String.eqb (Attendance.tenantId a) tenantId
  && (startDate <=? Attendance.checkInTime a)
  && (Attendance.checkInTime a <=? endDate)
  && match employeeId with
     | None => true
     | Some id => if isEmpty id then true else String.eqb (Attendance.employeeId a) id
     end.

(** The employee of each row, as the [include] joins it; a row without
    its employee makes the query fail. *)
Fixpoint withEmployee (staff : list Employee.t) (rows : list Attendance.t)
  : option (list ReportRow) :=
  match rows with
  | [] => Some []
  | a :: rest =>
      match find (fun e => String.eqb (Employee.id e) (Attendance.employeeId a)) staff,
            withEmployee staff rest with
      | Some e, Some joined =>
          Some (mkReportRow a (mkEmployeeSummary (Employee.id e) (Employee.name e)
                                                 (Employee.contactNumber e))
                :: joined)
      | _, _ => None
      end
  end.

Section AttendanceQueries.
Variable qenv : QueryEnv.

Definition attendance_findMany (where_ : Attendance.t -> bool) (skip take : Z)
  : M (list Attendance.t) :=
  fun s =>
    if queryFails qenv AttendanceFindMany then (Throw dbError, s)
    else
      match paginate skip take
              (orderByDesc Attendance.checkInTime (filter where_ (attendances s))) with
      | None => (Throw (Error "PrismaClientValidationError"), s)
      | Some rows => (Ok rows, s)
      end.

Definition attendance_count (where_ : Attendance.t -> bool) : M Z :=
  fun s =>
    if queryFails qenv AttendanceCount then (Throw dbError, s)
    else (Ok (Z.of_nat (List.length (filter where_ (attendances s)))), s).

(** [findMany] without [skip] and [take], with the employee joined. *)
Definition attendance_findMany_withEmployee (where_ : Attendance.t -> bool)
  : M (list ReportRow) :=
  fun s =>
    if queryFails qenv AttendanceFindMany then (Throw dbError, s)
    else
      match withEmployee (employees s)
              (orderByDesc Attendance.checkInTime (filter where_ (attendances s))) with
      | None => (Throw dbError, s)
      | Some rows => (Ok rows, s)
      end.

(** [page] and [limit] are integers, as [parseInt] yields them; a date is
    a valid [Date] or absent. *)
Definition getEmployeeAttendance (employeeId tenantId : string)
  (startDate endDate : option Z) (page limit : Z) : M AttendancePage :=
  tryCatch
    (found <- employee_findFirst qenv employeeId tenantId ;;
     match found with
     | None => throw (AppError "Employee not found" 404)
     | Some _ =>
         let skip := (page - 1) * limit in
         let where_ := attendedBy employeeId tenantId startDate endDate in
         attendances <- attendance_findMany where_ skip limit ;;
         total <- attendance_count where_ ;;
         ret (mkAttendancePage attendances total page (totalPagesOf total limit))
     end)
    (rethrowAs "Failed to fetch attendance records").

Definition getAttendanceReport (tenantId : string) (startDate endDate : Z)
  (employeeId : option string) : M (list ReportRow) :=
  tryCatch
    (let where_ := reportedFor tenantId startDate endDate employeeId in
     match employeeId with
     | Some id =>
         if isEmpty id then attendance_findMany_withEmployee where_
         else
           found <- employee_findFirst qenv id tenantId ;;
           match found with
           | None => throw (AppError "Employee not found" 404)
           | Some _ => attendance_findMany_withEmployee where_
           end
     | None => attendance_findMany_withEmployee where_
     end)
    (rethrowAs "Failed to generate attendance report").
End AttendanceQueries.

(** ** Tenant profile ([tenant.service.ts], lines 258-298) *)

(** [Partial<RegisterTenantInput>] *)
Record TenantUpdates : Type := mkTenantUpdates {
  ut_tenantName : option string;
  ut_gst : option string;
  ut_address : option string;
  ut_longitude : option double;
  ut_latitude : option double;
  ut_username : option string;
  ut_password : option string;
  ut_planType : option PlanType
}.

Definition noTenantUpdates (updates : TenantUpdates) : bool :=
  match ut_tenantName updates, ut_gst updates, ut_address updates,
        ut_longitude updates, ut_latitude updates, ut_username updates,
        ut_password updates, ut_planType updates with
  | None, None, None, None, None, None, None, None => true
  | _, _, _, _, _, _, _, _ => false
  end.

Definition withTenantRows (s : Store) (rows : list Tenant.t) : Store :=
  mkStore rows (employees s) (attendances s) (refreshTokens s).

Definition getTenantProfile (env : Env) (tenantId : string)
  : M TenantWithoutPassword.t :=
  tryCatch
    (found <- tenant_findUnique_id env tenantId ;;
     match found with
     | None => throw (AppError "Tenant not found" 404)
     | Some t => ret (withoutPassword t)
     end)
    (rethrowAs "Failed to fetch tenant profile").

Section TenantProfile.
Variable qenv : QueryEnv.

(** The row that [tenant.update({ data: updates })] writes in place of
    [t]; [updatedAt] moves only when there is something to write. *)
Definition patchTenant (updates : TenantUpdates) (t : Tenant.t) : Tenant.t :=
  if noTenantUpdates updates then t
  else
    Tenant.mk (Tenant.id t)
      (orElse (ut_tenantName updates) (Tenant.tenantName t))
      (orElse (ut_gst updates) (Tenant.gst t))
      (orElse (ut_address updates) (Tenant.address t))
      (orElse (ut_longitude updates) (Tenant.longitude t))
      (orElse (ut_latitude updates) (Tenant.latitude t))
      (orElse (ut_username updates) (Tenant.username t))
      (orElse (ut_password updates) (Tenant.password t))
      (orElse (ut_planType updates) (Tenant.planType t))
      (Tenant.createdAt t) (now (base qenv)).

(** [tenant.update({ where: { id }, data: updates })]: the row must be
    there, and a new [gst] or [username] must not be another row's. *)
Definition tenant_update (id : string) (updates : TenantUpdates) : M Tenant.t :=
  fun s =>
    if queryFails qenv TenantUpdate then (Throw dbError, s)
    else
      match find (fun t => String.eqb (Tenant.id t) id) (tenants s) with
      | None => (Throw dbError, s)
      | Some t =>
          let t' := patchTenant updates t in
          if existsb (fun x =>
                        negb (String.eqb (Tenant.id x) id)
                        && ((negb (String.eqb (Tenant.gst t') (Tenant.gst t))
                             && String.eqb (Tenant.gst x) (Tenant.gst t'))
                            || (negb (String.eqb (Tenant.username t') (Tenant.username t))
                                && String.eqb (Tenant.username x) (Tenant.username t'))))
                     (tenants s)
          then (Throw dbError, s)
          else
            (Ok t',
             withTenantRows s
               (map (fun x => if String.eqb (Tenant.id x) id then t' else x)
                    (tenants s)))
      end.

Definition updateTenant (tenantId : string) (updates : TenantUpdates)
  : M TenantWithoutPassword.t :=
  tryCatch
    (t <- tenant_update tenantId updates ;; ret (withoutPassword t))
    (fun _ => throw (AppError "Failed to update tenant" 500)).
End TenantProfile.

(** ** Authentication middleware ([auth.middleware.ts]) *)

(** The value of the [Authorization] header: any text, or the text
    [Bearer ] followed by a token. *)
Inductive HeaderValue : Type :=
| HeaderText (s : string)
| BearerToken (token : Text).

(** What a middleware does with a request: answer it, or hand it on. *)
Inductive Handled (A : Type) : Type :=
| Respond (status : Z) (message : string)
| Next (a : A).
Arguments Respond {A} status message.
Arguments Next {A} a.

(** [authHeader.substring(7)] where [authHeader.startsWith('Bearer ')]. *)
Definition bearerOf (authHeader : option HeaderValue) : option Text :=
  match authHeader with
  | None => None
  | Some (BearerToken token) => Some token
  | Some (HeaderText s) =>
      if String.prefix "Bearer " s
      then Some (Lit (String.substring 7 (String.length s - 7) s))
      else None
  end.

Section Middleware.
Variable config : Config.
Variable now : Z.

(** [req.tenant] of the request handed on: the decoded object. *)
Definition authenticateTenant (authHeader : option HeaderValue) : Handled Claims :=
  match bearerOf authHeader with
  | None => Respond 401 "Authorization token required"
  | Some token =>
      match verifyAccessToken config token now with
      | Ok payload => Next payload
      | Throw _ => Respond 401 "Invalid or expired token"
      end
  end.

Definition optionalAuthentication (authHeader : option HeaderValue)
  : Handled (option Claims) :=
  match bearerOf authHeader with
  | None => Next None
  | Some token =>
      match verifyAccessToken config token now with
      | Ok payload => Next (Some payload)
      | Throw _ => Next None
      end
  end.
End Middleware.

(** ** The calls of these methods, side by side *)

Inductive ServiceCall : Type :=
| GetTenantProfile (tenantId : string)
| UpdateTenant (tenantId : string) (updates : TenantUpdates)
| RegisterEmployee (input : RegisterEmployeeInput)
| GetEmployeeDetails (employeeId tenantId : string)
| ListEmployees (tenantId : string) (page limit : Z) (search : option string)
| UpdateEmployee (employeeId tenantId : string) (updates : EmployeeUpdates)
| DeleteEmployee (employeeId tenantId : string)
| GetEmployeeAttendance (employeeId tenantId : string) (startDate endDate : option Z)
                        (page limit : Z)
| GetAttendanceReport (tenantId : string) (startDate endDate : Z)
                      (employeeId : option string).

(** The outcome of a call without its answer. *)
Definition outcome {A} (m : M A) : M unit := _ <- m ;; ret tt.

Definition runServiceCall (qenv : QueryEnv) (c : ServiceCall) : M unit :=
  match c with
  | GetTenantProfile tenantId => outcome (getTenantProfile (base qenv) tenantId)
  | UpdateTenant tenantId updates => outcome (updateTenant qenv tenantId updates)
  | RegisterEmployee input => outcome (registerEmployee qenv input)
  | GetEmployeeDetails employeeId tenantId =>
      outcome (getEmployeeDetails qenv employeeId tenantId)
  | ListEmployees tenantId page limit search =>
      outcome (listEmployees qenv tenantId page limit search)
  | UpdateEmployee employeeId tenantId updates =>
      outcome (updateEmployee qenv employeeId tenantId updates)
  | DeleteEmployee employeeId tenantId =>
      outcome (deleteEmployee qenv employeeId tenantId)
  | GetEmployeeAttendance employeeId tenantId startDate endDate page limit =>
      outcome (getEmployeeAttendance qenv employeeId tenantId startDate endDate
                                     page limit)
  | GetAttendanceReport tenantId startDate endDate employeeId =>
      outcome (getAttendanceReport qenv tenantId startDate endDate employeeId)
  end.

Definition serviceErrors (c : ServiceCall) : list Exn :=
  match c with
  | GetTenantProfile _ =>
      [ AppError "Tenant not found" 404;
        AppError "Failed to fetch tenant profile" 500 ]
  | UpdateTenant _ _ => [ AppError "Failed to update tenant" 500 ]
  | RegisterEmployee _ =>
      [ AppError "Invalid embedding format" 400;
        AppError "Tenant not found" 404;
        AppError "Failed to register employee" 500 ]
  | GetEmployeeDetails _ _ =>
      [ AppError "Employee not found" 404;
        AppError "Failed to fetch employee details" 500 ]
  | ListEmployees _ _ _ _ => [ AppError "Failed to list employees" 500 ]
  | UpdateEmployee _ _ _ =>
      [ AppError "Invalid embedding format" 400;
        AppError "Employee not found" 404;
        AppError "Failed to update employee" 500 ]
  | DeleteEmployee _ _ =>
      [ AppError "Employee not found" 404;
        AppError "Failed to delete employee" 500 ]
  | GetEmployeeAttendance _ _ _ _ _ _ =>
      [ AppError "Employee not found" 404;
        AppError "Failed to fetch attendance records" 500 ]
  | GetAttendanceReport _ _ _ _ =>
      [ AppError "Employee not found" 404;
        AppError "Failed to generate attendance report" 500 ]
  end.

Definition writes (c : ServiceCall) : bool :=
  match c with
  | UpdateTenant _ _ | RegisterEmployee _ | UpdateEmployee _ _ _ | DeleteEmployee _ _ =>
      true
  | _ => false
  end.

(** ** Sample data for the worked examples of the further properties *)

(** A later quiet environment, with ids of its own. *)
Definition laterEnv (t : Z) : Env :=
  {| now := t;
     zone := fixedZone 0;
     math := sampleMath;
     dbFails := fun _ => false;
     newId := fun _ => "row-later";
     randomUUID := "uuid-later";
     rekognition := fun _ _ => Response None;
     hashPassword := fun p => String.append "bcrypt:" p;
     comparePassword := fun p h => String.eqb (String.append "bcrypt:" p) h |}.

Definition initech : RegisterTenantInput :=
  mkRegisterTenantInput "Initech" "24ABCDE1234F1Z5" "Park Street" 0%float 0%float
                        "initech" "secret" None.

(** A registration under the username of [acme]. *)
Definition acmeAgain : RegisterTenantInput :=
  mkRegisterTenantInput "Acme Two" "24ABCDE1234F1Z5" "Park Street" 0%float 0%float
                        "acme" "secret" None.



(** An office near the date line, and an employee of it who asks from
    nearly the opposite point of the globe. *)
Definition meridian : Tenant.t :=
  Tenant.mk "tenant-3" "Meridian" "30ABCDE1234F1Z5" "Date Line Road"
            180%float (-8)%float "meridian" "bcrypt:secret" FREE 0 0.

Definition tavita : Employee.t :=
  Employee.mk "emp-9" "tenant-3" "Tavita" "https://photos/emp-9.jpg" sampleEmbedding
              1000%R "9000000009" "9000000010" 0 0.

Definition meridianStore : Store := mkStore [meridian] [tavita] [] [].

Definition oppositeCheck : LocationCheckInput :=
  mkLocationCheckInput "emp-9" 8%float 0%float.

(** A zone whose clocks go forward by an hour at [springForward]
    (2024-03-31 01:00 UTC, as in London): wall-clock times of the hour
    that is skipped are read with the offset from before the change. *)
Definition springForward : Z := 1711846800000.

Definition springZone : TimeZone :=
  {| offsetAt := fun t => if t <? springForward then 0 else 3600000;
     offsetOfLocal := fun tl => if tl <? springForward + 3600000 then 0 else 3600000 |}.

(** A quiet environment in that zone. *)
Definition springEnv (t : Z) : Env :=
  {| now := t;
     zone := springZone;
     math := sampleMath;
     dbFails := fun _ => false;
     newId := fun _ => "row-new";
     randomUUID := "uuid-new";
     rekognition := fun _ _ => Response None;
     hashPassword := fun p => String.append "bcrypt:" p;
     comparePassword := fun p h => String.eqb (String.append "bcrypt:" p) h |}.

(** A proof for [emp-1] that names the tenant [emp-1] is not with. *)
Definition strayProof : Text :=
  JwtText (mkClaims (LocationJson "tenant-1" "emp-1" (Some 1%float) (Some 1%float))
                    0 300)
          "location-secret".

(** A quiet environment for the other methods: no round trip fails and
    the columns keep what they are given. *)
Definition quietQueryEnv (t : Z) : QueryEnv :=
  {| base := quietEnv t;
     queryFails := fun _ => false;
     newEmployeeId := "emp-new";
     oneMonthAgo := t - 2592000000;
     toDecimal := fun x => Some x;
     toJsonb := fun v => Some v;
     containsInsensitive := fun _ _ => true |}.

Definition ashaFirstDay : Attendance.t :=
  Attendance.mk "att-1" "tenant-2" "emp-1" "https://photos/in-1.jpg" sampleEmbedding
                1000 None 1000.

Definition raviFirstDay : Attendance.t :=
  Attendance.mk "att-2" "tenant-2" "emp-2" "https://photos/in-2.jpg" sampleEmbedding
                2000 None 2000.

Definition ashaSecondDay : Attendance.t :=
  Attendance.mk "att-3" "tenant-2" "emp-1" "https://photos/in-1b.jpg" sampleEmbedding
                86401000 None 86401000.

Definition attendedStore : Store :=
  withAttendances acmeStaffStore [ashaFirstDay; raviFirstDay; ashaSecondDay].

(** A new name for an employee, a new address for a tenant. *)
Definition renameOnly : EmployeeUpdates :=
  mkEmployeeUpdates None (Some "Asha R") None None None None None.

Definition moveOnly : TenantUpdates :=
  mkTenantUpdates None None (Some "Brigade Road") None None None None None.

(** * Properties *)

(** ** Comparisons of real numbers *)

Lemma Rleb_true x y : Rleb x y = true <-> (x <= y)%R.
Proof. unfold Rleb. destruct (Rle_dec x y); split; intros; auto; discriminate. Qed.

Lemma Rleb_false x y : Rleb x y = false <-> (y < x)%R.
Proof.
  unfold Rleb. destruct (Rle_dec x y); split; intros; auto; try discriminate; lra.
Qed.

(** ** Token codec *)

Lemma orThrow_Ok {A} (r : Result A) (e : Exn) (a : A) :
  r = Ok a -> orThrow r e = Ok a.
Proof. intros ->. reflexivity. Qed.

Lemma orThrow_Throw {A} (r : Result A) (e : Exn) :
  isOk r = false -> orThrow r e = Throw e.
Proof. destruct r; simpl; intros H; [discriminate | reflexivity]. Qed.

Lemma timespan_nonempty expiresIn span :
  timespan expiresIn = Some span -> isEmpty expiresIn = false.
Proof. destruct expiresIn; [discriminate | reflexivity]. Qed.

Lemma jwt_sign_Ok other payload secret expiresIn now span :
  isEmpty secret = false ->
  timespan expiresIn = Some span ->
  jwt_sign other payload secret expiresIn now =
  Ok (JwtText (mkClaims (Payload.toJson payload) (now / 1000) (now / 1000 + span)) secret).
Proof.
  intros Hs Ht. unfold jwt_sign.
  rewrite Hs, (timespan_nonempty _ _ Ht), Ht. reflexivity.
Qed.

(** Whatever the spelling of the expiry, a token that was signed carries
    the payload as JSON has it, the second of its issue and an expiry,
    under the key of the signer. *)
Lemma jwt_sign_inv other payload secret expiresIn now tok :
  jwt_sign other payload secret expiresIn now = Ok tok ->
  exists expiry,
    isEmpty secret = false /\
    tok = JwtText (mkClaims (Payload.toJson payload) (now / 1000) expiry) secret /\
    (forall span, timespan expiresIn = Some span -> expiry = now / 1000 + span).
Proof.
  unfold jwt_sign. destruct (isEmpty secret); [discriminate |].
  destruct (isEmpty expiresIn); [discriminate |].
  destruct (timespan expiresIn) as [span |].
  - intros H. injection H as <-. exists (now / 1000 + span).
    repeat split; auto. intros span' H. injection H as <-. reflexivity.
  - destruct (other expiresIn (now / 1000)) as [expiry |]; [| discriminate].
    intros H. injection H as <-. exists expiry.
    repeat split; auto. discriminate.
Qed.

Lemma jwt_sign_Throw other payload secret expiresIn now e :
  jwt_sign other payload secret expiresIn now = Throw e -> exists msg, e = Error msg.
Proof.
  unfold jwt_sign.
  destruct (isEmpty secret); [intros H; injection H as <-; eauto |].
  destruct (isEmpty expiresIn); [intros H; injection H as <-; eauto |].
  destruct (timespan expiresIn); [discriminate |].
  destruct (other expiresIn (now / 1000)); [discriminate |].
  intros H; injection H as <-; eauto.
Qed.

(** A token verifies against the key that signed it until it expires:
    the verifier hands back the object inside the token. *)
Lemma jwt_verify_same_key c key later :
  isEmpty key = false ->
  later / 1000 < exp c ->
  jwt_verify (JwtText c key) key later = Ok c.
Proof.
  intros Hk Hlt. unfold jwt_verify. rewrite Hk, String.eqb_refl. simpl.
  destruct (Z.leb_spec (exp c) (later / 1000)); [lia | reflexivity].
Qed.

Lemma jwt_verify_expired c key secret later :
  exp c <= later / 1000 ->
  isOk (jwt_verify (JwtText c key) secret later) = false.
Proof.
  intros Hle. unfold jwt_verify.
  destruct (isEmpty secret); [reflexivity |].
  destruct (negb (String.eqb key secret)); [reflexivity |].
  destruct (Z.leb_spec (exp c) (later / 1000)); [reflexivity | lia].
Qed.

(** A token never verifies against another key. *)
Lemma jwt_verify_other_key c key secret later :
  key <> secret ->
  isOk (jwt_verify (JwtText c key) secret later) = false.
Proof.
  intros Hne. unfold jwt_verify.
  destruct (isEmpty secret); [reflexivity |].
  destruct (String.eqb_spec key secret) as [-> | _]; [contradiction | reflexivity].
Qed.

(** Issue at [now], then verify at [later], with one key. *)
Lemma jwt_round_trip other payload secret expiresIn now tok e :
  jwt_sign other payload secret expiresIn now = Ok tok ->
  exists expiry,
    (forall span, timespan expiresIn = Some span -> expiry = now / 1000 + span) /\
    forall later,
      (later / 1000 < expiry ->
       orThrow (jwt_verify tok secret later) e =
       Ok (mkClaims (Payload.toJson payload) (now / 1000) expiry)) /\
      (expiry <= later / 1000 ->
       orThrow (jwt_verify tok secret later) e = Throw e).
Proof.
  intros H. apply jwt_sign_inv in H. destruct H as (expiry & Hk & -> & Hspan).
  exists expiry. split; [exact Hspan |]. intros later. split; intros Hl.
  - apply orThrow_Ok. apply (jwt_verify_same_key (mkClaims _ _ _)); assumption.
  - apply orThrow_Throw. apply jwt_verify_expired. exact Hl.
Qed.

(** C4, as the code has it.  A token of any of the three kinds that
    was issued at [now] has an expiry (for an expiry setting of the form
    digits and unit: the second of issue plus the span), and until then
    its verifier hands back the decoded token: an object that has the
    members of the issued payload as JSON carries them (for the
    coordinates of a location payload see [jsonNumber]) and, beside
    them, the registered claims [iat], the second of issue, and [exp].
    The issued payload is the projection [body] of what the verifier
    returns, not the returned object.  From its expiry on the verifier
    throws.  With a non-empty secret and an expiry setting of that form
    a token is issued.  When the three secrets are pairwise distinct, a
    token issued for one kind is rejected by the verifiers of the two
    other kinds at every time. *)
Theorem token_round_trip_and_kind_separation (config : Config) (now : Z) :
  (forall p tok, generateAccessToken config p now = Ok tok ->
     exists expiry,
       (forall span, timespan (accessExpiry config) = Some span ->
                     expiry = now / 1000 + span) /\
       forall later,
         (later / 1000 < expiry ->
          verifyAccessToken config tok later =
          Ok (mkClaims (AccessP p) (now / 1000) expiry)) /\
         (expiry <= later / 1000 ->
          verifyAccessToken config tok later =
          Throw (Error "Invalid or expired access token"))) /\
  (forall p tok, generateRefreshToken config p now = Ok tok ->
     exists expiry,
       (forall span, timespan (refreshExpiry config) = Some span ->
                     expiry = now / 1000 + span) /\
       forall later,
         (later / 1000 < expiry ->
          verifyRefreshToken config tok later =
          Ok (mkClaims (RefreshP p) (now / 1000) expiry)) /\
         (expiry <= later / 1000 ->
          verifyRefreshToken config tok later =
          Throw (Error "Invalid or expired refresh token"))) /\
  (forall p tok, generateLocationToken config p now = Ok tok ->
     exists expiry,
       (forall span, timespan (locationExpiry config) = Some span ->
                     expiry = now / 1000 + span) /\
       forall later,
         (later / 1000 < expiry ->
          verifyLocationToken config tok later =
          Ok (mkClaims (LocationJson (LocationTokenPayload.tenantId p)
                                     (LocationTokenPayload.employeeId p)
                                     (jsonNumber (LocationTokenPayload.latitude p))
                                     (jsonNumber (LocationTokenPayload.longitude p)))
                       (now / 1000) expiry)) /\
         (expiry <= later / 1000 ->
          verifyLocationToken config tok later =
          Throw (Error "Invalid or expired location token"))) /\
  (forall span p, isEmpty (accessSecret config) = false ->
     timespan (accessExpiry config) = Some span ->
     isOk (generateAccessToken config p now) = true) /\
  (forall span p, isEmpty (refreshSecret config) = false ->
     timespan (refreshExpiry config) = Some span ->
     isOk (generateRefreshToken config p now) = true) /\
  (forall span p, isEmpty (locationSecret config) = false ->
     timespan (locationExpiry config) = Some span ->
     isOk (generateLocationToken config p now) = true) /\
  (accessSecret config <> refreshSecret config ->
   accessSecret config <> locationSecret config ->
   refreshSecret config <> locationSecret config ->
   forall later tok,
     ((exists p, generateAccessToken config p now = Ok tok) ->
      isOk (verifyRefreshToken config tok later) = false /\
      isOk (verifyLocationToken config tok later) = false) /\
     ((exists p, generateRefreshToken config p now = Ok tok) ->
      isOk (verifyAccessToken config tok later) = false /\
      isOk (verifyLocationToken config tok later) = false) /\
     ((exists p, generateLocationToken config p now = Ok tok) ->
      isOk (verifyAccessToken config tok later) = false /\
      isOk (verifyRefreshToken config tok later) = false)).
Proof.
  assert (Hsep : forall payload key expiresIn tok secret later e,
             jwt_sign (otherExpiry config) payload key expiresIn now = Ok tok ->
             key <> secret ->
             isOk (orThrow (jwt_verify tok secret later) e) = false).
  { intros payload key expiresIn tok secret later e Hsig Hne.
    apply jwt_sign_inv in Hsig. destruct Hsig as (expiry & _ & -> & _).
    rewrite orThrow_Throw; [reflexivity |].
    apply jwt_verify_other_key. assumption. }
  assert (Hiss : forall payload secret expiresIn span,
             isEmpty secret = false -> timespan expiresIn = Some span ->
             isOk (jwt_sign (otherExpiry config) payload secret expiresIn now) = true).
  { intros payload secret expiresIn span Hk Hs.
    rewrite (jwt_sign_Ok _ _ _ _ _ span Hk Hs). reflexivity. }
  split; [| split; [| split; [| split; [| split; [| split]]]]].
  - intros p tok H. exact (jwt_round_trip _ _ _ _ _ _ _ H).
  - intros p tok H. exact (jwt_round_trip _ _ _ _ _ _ _ H).
  - intros p tok H. exact (jwt_round_trip _ _ _ _ _ _ _ H).
  - intros span p Hk Hs. exact (Hiss _ _ _ span Hk Hs).
  - intros span p Hk Hs. exact (Hiss _ _ _ span Hk Hs).
  - intros span p Hk Hs. exact (Hiss _ _ _ span Hk Hs).
  - intros Har Hal Hrl later tok.
    split; [| split]; intros [p Hp]; split;
      (eapply Hsep; [eassumption | congruence]).
Qed.

Lemma token_round_trip_and_kind_separation_witness :
  (forall p later, later / 1000 < 900 ->
     exists tok, generateAccessToken demoConfig p 0 = Ok tok /\
                 verifyAccessToken demoConfig tok later =
                 Ok (mkClaims (AccessP p) 0 900)) /\
  (forall later tok,
     (exists p, generateLocationToken demoConfig p 0 = Ok tok) ->
     isOk (verifyAccessToken demoConfig tok later) = false /\
     isOk (verifyRefreshToken demoConfig tok later) = false).
Proof.
  destruct (token_round_trip_and_kind_separation demoConfig 0)
    as (Ha & _ & _ & Hia & _ & _ & Hsep).
  split.
  - intros p later Hlt.
    specialize (Hia 900 p eq_refl eq_refl).
    destruct (generateAccessToken demoConfig p 0) as [tok | e] eqn:Hg;
      [| discriminate].
    exists tok. split; [reflexivity |].
    destruct (Ha p tok Hg) as (expiry & Hspan & Hv).
    rewrite (Hspan 900 eq_refl) in Hv. apply Hv. exact Hlt.
  - intros later tok Hl.
    assert (H1 : accessSecret demoConfig <> refreshSecret demoConfig) by discriminate.
    assert (H2 : accessSecret demoConfig <> locationSecret demoConfig) by discriminate.
    assert (H3 : refreshSecret demoConfig <> locationSecret demoConfig) by discriminate.
    exact (proj2 (proj2 (Hsep H1 H2 H3 later tok)) Hl).
Defined.

(** C4 as stated fails: the same payload issued at two instants
    verifies to two different objects (they differ in [iat] and [exp]),
    each with the payload as its [body]: what a verifier returns is not
    the payload that was issued. *)
Lemma verified_token_is_not_the_issued_payload :
  exists tok1 tok2 c1 c2,
    generateAccessToken demoConfig (AccessTokenPayload.mk "tenant-1" "acme" "PAID") 0
      = Ok tok1 /\
    generateAccessToken demoConfig (AccessTokenPayload.mk "tenant-1" "acme" "PAID") 5000
      = Ok tok2 /\
    verifyAccessToken demoConfig tok1 6000 = Ok c1 /\
    verifyAccessToken demoConfig tok2 6000 = Ok c2 /\
    body c1 = AccessP (AccessTokenPayload.mk "tenant-1" "acme" "PAID") /\
    body c2 = AccessP (AccessTokenPayload.mk "tenant-1" "acme" "PAID") /\
    iat c1 = 0 /\ exp c1 = 900 /\ iat c2 = 5 /\ exp c2 = 905 /\
    c1 <> c2.
Proof.
  do 4 eexists. repeat split; try reflexivity. discriminate.
Qed.

(** ** IEEE 754 arithmetic

    Facts about the operations of binary64, proved on their
    specification ([SpecFloat]) and carried to the numbers themselves. *)

Lemma binary_round_aux_neg prec emax s m e l :
  binary_round_aux prec emax (negb s) m e l =
  SFopp (binary_round_aux prec emax s m e l).
Proof.
  unfold binary_round_aux.
  destruct (shr_fexp prec emax m e l) as [mrs' e'].
  destruct (shr_fexp prec emax _ e' loc_Exact) as [mrs'' e''].
  destruct (shr_m mrs''); try reflexivity.
  destruct (Z.leb e'' (emax - prec)); reflexivity.
Qed.

Lemma binary_round_neg prec emax s m e :
  binary_round prec emax (negb s) m e = SFopp (binary_round prec emax s m e).
Proof.
  unfold binary_round. destruct (shl_align m e _) as [mz ez].
  apply binary_round_aux_neg.
Qed.

Lemma xorb_negb_l a b : xorb (negb a) b = negb (xorb a b).
Proof. destruct a, b; reflexivity. Qed.

Lemma SFopp_involutive x : SFopp (SFopp x) = x.
Proof. destruct x as [s | s | | s m e]; simpl; rewrite ?negb_involutive; reflexivity. Qed.

Lemma SFmul_comm prec emax x y : SFmul prec emax x y = SFmul prec emax y x.
Proof.
  destruct x as [sx | sx | | sx mx ex], y as [sy | sy | | sy my ey]; simpl;
    rewrite ?(xorb_comm sx sy); try reflexivity.
  rewrite (Pos.mul_comm mx my), (Z.add_comm ex ey). reflexivity.
Qed.

Lemma SFmul_opp_l prec emax x y :
  SFmul prec emax (SFopp x) y = SFopp (SFmul prec emax x y).
Proof.
  destruct x as [sx | sx | | sx mx ex], y as [sy | sy | | sy my ey]; simpl;
    rewrite ?xorb_negb_l; try reflexivity.
  apply binary_round_aux_neg.
Qed.

Lemma SFdiv_opp_l prec emax x y :
  SFdiv prec emax (SFopp x) y = SFopp (SFdiv prec emax x y).
Proof.
  destruct x as [sx | sx | | sx mx ex], y as [sy | sy | | sy my ey]; simpl;
    rewrite ?xorb_negb_l; try reflexivity.
  destruct (SFdiv_core_binary prec emax (Z.pos mx) ex (Z.pos my) ey) as [[mz ez] lz].
  apply binary_round_aux_neg.
Qed.

(** [x - y] and [y - x] are opposite, or both are [+0]. *)
Lemma SFsub_swap prec emax x y :
  SFsub prec emax x y = SFopp (SFsub prec emax y x) \/
  (SFsub prec emax x y = S754_zero false /\ SFsub prec emax y x = S754_zero false).
Proof.
  destruct x as [sx | sx | | sx mx ex], y as [sy | sy | | sy my ey]; simpl;
    try (destruct sx, sy; simpl; auto; fail);
    try (destruct sx; simpl; auto; fail);
    try (destruct sy; simpl; auto; fail);
    try (left; rewrite ?negb_involutive; reflexivity).
  rewrite (Z.min_comm ey ex).
  set (a := cond_Zopp sx _). set (b := cond_Zopp sy _).
  replace (b - a) with (- (a - b)) by lia.
  destruct (a - b) as [| p | p]; simpl.
  - right. split; reflexivity.
  - left. change true with (negb false). rewrite binary_round_neg.
    rewrite SFopp_involutive. reflexivity.
  - left. change true with (negb false). apply binary_round_neg.
Qed.


Lemma fmul_comm (x y : double) : (x * y = y * x)%float.
Proof. apply Prim2SF_inj. rewrite !FloatAxioms.mul_spec. apply SFmul_comm. Qed.

Lemma fopp_involutive (x : double) : (- - x = x)%float.
Proof. apply Prim2SF_inj. rewrite !FloatAxioms.opp_spec. apply SFopp_involutive. Qed.

Lemma fmul_opp_l (x y : double) : (- x * y = - (x * y))%float.
Proof.
  apply Prim2SF_inj. rewrite FloatAxioms.opp_spec, !FloatAxioms.mul_spec, FloatAxioms.opp_spec. apply SFmul_opp_l.
Qed.

Lemma fmul_opp_r (x y : double) : (x * - y = - (x * y))%float.
Proof. rewrite (fmul_comm x), fmul_opp_l, (fmul_comm y). reflexivity. Qed.

Lemma fmul_opp_opp (x y : double) : (- x * - y = x * y)%float.
Proof. rewrite fmul_opp_l, fmul_opp_r. apply fopp_involutive. Qed.

Lemma fdiv_opp_l (x y : double) : (- x / y = - (x / y))%float.
Proof.
  apply Prim2SF_inj. rewrite FloatAxioms.opp_spec, !FloatAxioms.div_spec, FloatAxioms.opp_spec. apply SFdiv_opp_l.
Qed.

Lemma fsub_swap (x y : double) :
  (x - y = - (y - x) \/ (x - y = 0 /\ y - x = 0))%float.
Proof.
  destruct (SFsub_swap prec emax (Prim2SF x) (Prim2SF y)) as [H | [H1 H2]].
  - left. apply Prim2SF_inj. rewrite FloatAxioms.opp_spec, !FloatAxioms.sub_spec. exact H.
  - right. split; apply Prim2SF_inj; rewrite FloatAxioms.sub_spec; assumption.
Qed.

(** *** Products of numbers between -1 and 1 do not overflow *)
















(** A number between two numbers is a number. *)
Lemma between_finite (lo hi x : double) :
  SFfinite (Prim2SF lo) -> SFfinite (Prim2SF hi) ->
  PrimFloat.leb lo x && PrimFloat.leb x hi = true -> SFfinite (Prim2SF x).
Proof.
  intros Hlo Hhi H. apply andb_prop in H. destruct H as [H1 H2].
  rewrite FloatAxioms.leb_spec in H1, H2. unfold SFleb in H1, H2.
  destruct (Prim2SF x) as [s | s | | s m e]; simpl; auto.
  - destruct (Prim2SF lo) as [sl | sl | | sl ml el], (Prim2SF hi) as [sh | sh | | sh mh eh];
      simpl in *; try contradiction; destruct s; discriminate.
  - destruct (Prim2SF lo) as [sl | sl | | sl ml el]; simpl in *; try contradiction; discriminate.
Qed.


Lemma is_nan_spec (x : double) : PrimFloat.is_nan x = true -> Prim2SF x = S754_nan.
Proof.
  unfold PrimFloat.is_nan. rewrite FloatAxioms.eqb_spec. unfold SFeqb, SFcompare.
  destruct (Prim2SF x) as [s | s | | s m e]; try reflexivity;
    try (destruct s; discriminate).
  rewrite Z.compare_refl, Pcompare_refl. destruct s; discriminate.
Qed.

(** No number is at least [NaN]: [NaN <= r] is false. *)
Lemma leb_nan_l (x r : double) :
  PrimFloat.is_nan x = true -> PrimFloat.leb x r = false.
Proof.
  intros H. rewrite FloatAxioms.leb_spec, (is_nan_spec x H). reflexivity.
Qed.

(** *** Order *)

Lemma SFcompare_swap x y :
  SFcompare y x = match SFcompare x y with
                  | Some c => Some (CompOpp c)
                  | None => None
                  end.
Proof.
  destruct x as [sx | sx | | sx mx ex], y as [sy | sy | | sy my ey];
    try reflexivity;
    try (destruct sx; reflexivity); try (destruct sy; reflexivity);
    try (destruct sx, sy; reflexivity).
  unfold SFcompare. rewrite !Pos.compare_cont_spec. cbn [Pos.switch_Eq].
  destruct sx, sy; try reflexivity;
    destruct (Z.compare_spec ex ey), (Z.compare_spec ey ex);
    try lia; try reflexivity;
    destruct (Pos.compare_spec mx my), (Pos.compare_spec my mx);
    try lia; try reflexivity.
Qed.

(** [x < y] excludes [y <= x]. *)
Lemma fltb_leb_false (x y : double) :
  PrimFloat.ltb x y = true -> PrimFloat.leb y x = false.
Proof.
  rewrite FloatAxioms.ltb_spec, FloatAxioms.leb_spec. unfold SFltb, SFleb.
  rewrite (SFcompare_swap (Prim2SF x) (Prim2SF y)).
  destruct (SFcompare (Prim2SF x) (Prim2SF y)) as [[] |]; try discriminate; reflexivity.
Qed.

Lemma leb_nan_r (x r : double) :
  PrimFloat.is_nan x = true -> PrimFloat.leb r x = false.
Proof.
  intros H. rewrite FloatAxioms.leb_spec, (is_nan_spec x H). unfold SFleb.
  destruct (Prim2SF r); reflexivity.
Qed.

Lemma SFcompare_finite_trans s1 m1 e1 s2 m2 e2 s3 m3 e3 c :
  c <> Gt ->
  SFcompare (S754_finite s1 m1 e1) (S754_finite s2 m2 e2) = Some c ->
  forall c', c' <> Gt ->
  SFcompare (S754_finite s2 m2 e2) (S754_finite s3 m3 e3) = Some c' ->
  exists c'', c'' <> Gt /\
    SFcompare (S754_finite s1 m1 e1) (S754_finite s3 m3 e3) = Some c''.
Proof.
  intros Hc H12 c' Hc' H23. unfold SFcompare in *.
  injection H12 as H12. injection H23 as H23. subst c c'.
  eexists. split; [| reflexivity].
  rewrite !Pos.compare_cont_spec in *. cbn [Pos.switch_Eq] in *.
  destruct s1, s2, s3; try congruence; try discriminate;
    destruct (Z.compare_spec e1 e2), (Z.compare_spec e2 e3), (Z.compare_spec e1 e3);
    cbn [CompOpp] in *; try congruence; try lia;
    destruct (Pos.compare_spec m1 m2), (Pos.compare_spec m2 m3), (Pos.compare_spec m1 m3);
    cbn [CompOpp Pos.switch_Eq] in *; try congruence; try lia.
Qed.

Lemma SFleb_trans x y z :
  SFleb x y = true -> SFleb y z = true -> SFleb x z = true.
Proof.
  unfold SFleb.
  destruct (SFcompare x y) as [c |] eqn:H12; [| discriminate].
  destruct (SFcompare y z) as [c' |] eqn:H23; [| discriminate].
  intros Hc Hc'.
  assert (Hn : c <> Gt) by (destruct c; [discriminate | discriminate | discriminate Hc]).
  assert (Hn' : c' <> Gt) by (destruct c'; [discriminate | discriminate | discriminate Hc']).
  clear Hc Hc'.
  destruct x as [sx | sx | | sx mx ex], y as [sy | sy | | sy my ey],
           z as [sz | sz | | sz mz ez];
    try discriminate;
    try (destruct (SFcompare_finite_trans _ _ _ _ _ _ _ _ _ c Hn H12 c' Hn' H23)
           as (c'' & Hn'' & ->); destruct c''; [reflexivity | reflexivity | congruence]);
    cbn in H12, H23 |- *;
    injection H12 as H12; injection H23 as H23; subst c c';
    try (destruct sx; try reflexivity; try congruence);
    try (destruct sy; try reflexivity; try congruence);
    try (destruct sz; try reflexivity; try congruence).
Qed.

Lemma fleb_trans (x y z : double) :
  PrimFloat.leb x y = true -> PrimFloat.leb y z = true -> PrimFloat.leb x z = true.
Proof. rewrite !FloatAxioms.leb_spec. apply SFleb_trans. Qed.

Lemma SFeqb_finite_eq x s m e :
  SFeqb x (S754_finite s m e) = true -> x = S754_finite s m e.
Proof.
  unfold SFeqb, SFcompare.
  destruct x as [sx | sx | | sx mx ex]; try discriminate;
    try (destruct sx; discriminate); try (destruct s; discriminate).
  destruct (Z.compare_spec ex e) as [-> | Hlt | Hgt];
    try (destruct sx, s; discriminate).
  destruct (Pos.compare_cont Eq mx m) eqn:Em;
    try (destruct sx, s; discriminate).
  apply Pcompare_Eq_eq in Em. subst mx.
  destruct sx, s; try discriminate; reflexivity.
Qed.

(** [x == c] for a number [c] other than zero means that [x] is [c]. *)
Lemma feqb_finite_eq (x c : double) s m e :
  Prim2SF c = S754_finite s m e -> PrimFloat.eqb x c = true -> x = c.
Proof.
  intros Hc H. rewrite FloatAxioms.eqb_spec, Hc in H.
  apply Prim2SF_inj. rewrite Hc. apply SFeqb_finite_eq. exact H.
Qed.

Lemma fopp_swap (x c : double) : (- x)%float = c -> x = (- c)%float.
Proof. intros <-. symmetry. apply fopp_involutive. Qed.

(** ** Geo-fence *)

Lemma validateCoordinates_isValid (lat lon : double) :
  isValid (validateCoordinates lat lon) = true <->
  isValidLatitude lat = true /\ isValidLongitude lon = true.
Proof.
  unfold validateCoordinates.
  destruct (isValidLatitude lat), (isValidLongitude lon); simpl; split;
    intros H; try discriminate; try (destruct H; discriminate); auto.
Qed.

Lemma validLatitude_finite lat : isValidLatitude lat = true -> SFfinite (Prim2SF lat).
Proof. apply between_finite; exact I. Qed.

Lemma validLongitude_finite lon : isValidLongitude lon = true -> SFfinite (Prim2SF lon).
Proof. apply between_finite; exact I. Qed.

Section Haversine.
Variable math : MathLib.

(** [Math.sin] is odd. *)
Hypothesis sin_odd : forall x, (Math_sin math (- x) = - Math_sin math x)%float.

Lemma half_opp d : (sinHalf math (- d) = - sinHalf math d)%float.
Proof.
  unfold sinHalf. rewrite fmul_opp_l, !fdiv_opp_l. apply sin_odd.
Qed.

Lemma half_square_swap x y :
  (sinHalf math (y - x) * sinHalf math (y - x)
   = sinHalf math (x - y) * sinHalf math (x - y))%float.
Proof.
  destruct (fsub_swap y x) as [-> | [-> ->]]; [| reflexivity].
  rewrite half_opp. apply fmul_opp_opp.
Qed.

Lemma half_factor_swap c x y :
  (c * sinHalf math (y - x) * sinHalf math (y - x)
   = c * sinHalf math (x - y) * sinHalf math (x - y))%float.
Proof.
  destruct (fsub_swap y x) as [-> | [-> ->]]; [| reflexivity].
  rewrite half_opp, (fmul_opp_r c). apply fmul_opp_opp.
Qed.

Lemma calculateDistance_sym lat1 lon1 lat2 lon2 :
  calculateDistance math lat1 lon1 lat2 lon2 =
  calculateDistance math lat2 lon2 lat1 lon1.
Proof.
  unfold calculateDistance. cbv zeta.
  fold (sinHalf math (lat2 - lat1)%float) (sinHalf math (lat1 - lat2)%float)
       (sinHalf math (lon2 - lon1)%float) (sinHalf math (lon1 - lon2)%float).
  rewrite (half_square_swap lat1 lat2), (half_factor_swap _ lon1 lon2).
  rewrite (fmul_comm (Math_cos math ((lat1 * Math_PI) / 180)%float)).
  reflexivity.
Qed.

Lemma isWithinRadius_sym lat1 lon1 lat2 lon2 radius :
  isWithinRadius math lat1 lon1 lat2 lon2 radius =
  isWithinRadius math lat2 lon2 lat1 lon1 radius.
Proof. unfold isWithinRadius. rewrite calculateDistance_sym. reflexivity. Qed.
End Haversine.

Section SamePoint.
Variable math : MathLib.

(** [Math.sin(0)] and [Math.atan2(0, 1)] are [0]. *)
Hypothesis sin_zero : Math_sin math 0%float = 0%float.
Hypothesis atan2_zero : Math_atan2 math 0%float 1%float = 0%float.


End SamePoint.

(** A distance that is [NaN] is within no radius. *)
Lemma isWithinRadius_nan math lat1 lon1 lat2 lon2 radius :
  PrimFloat.is_nan (calculateDistance math lat1 lon1 lat2 lon2) = true ->
  isWithinRadius math lat1 lon1 lat2 lon2 radius = false.
Proof. intros H. unfold isWithinRadius. apply leb_nan_l. exact H. Qed.

(** The sample engine is an engine as the properties below need it. *)
Lemma sampleMath_sin_odd x :
  (Math_sin sampleMath (- x) = - Math_sin sampleMath x)%float.
Proof.
  unfold sampleMath, Math_sin.
  destruct (PrimFloat.eqb (- x) 0x1.1df46a2529d39p-3)%float eqn:E1.
  { eapply feqb_finite_eq in E1; [| reflexivity].
    apply fopp_swap in E1. subst x. reflexivity. }
  destruct (PrimFloat.eqb (- x) (-0x1.1df46a2529d39p-3))%float eqn:E2.
  { eapply feqb_finite_eq in E2; [| reflexivity].
    apply fopp_swap in E2. subst x. reflexivity. }
  destruct (PrimFloat.eqb (- x) 0x1.921fb54442d18p+0)%float eqn:E3.
  { eapply feqb_finite_eq in E3; [| reflexivity].
    apply fopp_swap in E3. subst x. reflexivity. }
  destruct (PrimFloat.eqb (- x) (-0x1.921fb54442d18p+0))%float eqn:E4.
  { eapply feqb_finite_eq in E4; [| reflexivity].
    apply fopp_swap in E4. subst x. reflexivity. }
  destruct (PrimFloat.eqb x 0x1.1df46a2529d39p-3)%float eqn:F1.
  { eapply feqb_finite_eq in F1; [| reflexivity]. subst x. discriminate E2. }
  destruct (PrimFloat.eqb x (-0x1.1df46a2529d39p-3))%float eqn:F2.
  { eapply feqb_finite_eq in F2; [| reflexivity]. subst x. discriminate E1. }
  destruct (PrimFloat.eqb x 0x1.921fb54442d18p+0)%float eqn:F3.
  { eapply feqb_finite_eq in F3; [| reflexivity]. subst x. discriminate E4. }
  destruct (PrimFloat.eqb x (-0x1.921fb54442d18p+0))%float eqn:F4.
  { eapply feqb_finite_eq in F4; [| reflexivity]. subst x. discriminate E3. }
  reflexivity.
Qed.





(** ** Refresh sessions *)

Lemma validateStoredToken_run env refreshToken payload s :
  dbFails env RefreshTokenFindUnique = false ->
  validateStoredToken env refreshToken payload s =
  (checkStoredToken
     (match find (fun r => Text_eqb (RefreshToken.tokenHash r) (hashToken refreshToken))
                 (refreshTokens s) with
      | None => None
      | Some r =>
          Some {| row := r;
                  tenant := find (fun t => String.eqb (Tenant.id t)
                                                      (RefreshToken.tenantId r))
                                 (tenants s) |}
      end) payload (now env), s).
Proof.
  intros Hdb. unfold validateStoredToken, refreshToken_findUnique, query, bind, lift.
  rewrite Hdb. reflexivity.
Qed.

(** C6, as the code has it.  When the lookup itself does not fail, the
    validation of the stored session throws "Invalid or revoked refresh
    token" when no row carries the hash or the row is revoked, "Refresh
    token expired" when the row's expiry lies strictly before the current
    time, and it succeeds exactly when a row carries the hash, is not
    revoked, has an expiry at or after the current time and belongs to the
    tenant named in the token. *)
Theorem stored_session_validation
  (env : Env) (refreshToken : Text) (payload : Payload) (s : Store)
  (Hdb : dbFails env RefreshTokenFindUnique = false) :
  let outcome := fst (validateStoredToken env refreshToken payload s) in
  (sessionOf refreshToken s = None ->
   outcome = Throw (AppError "Invalid or revoked refresh token" 401)) /\
  (forall r, sessionOf refreshToken s = Some r -> RefreshToken.isRevoked r = true ->
   outcome = Throw (AppError "Invalid or revoked refresh token" 401)) /\
  (forall r, sessionOf refreshToken s = Some r -> RefreshToken.isRevoked r = false ->
   RefreshToken.expiresAt r < now env ->
   outcome = Throw (AppError "Refresh token expired" 401)) /\
  (isOk outcome = true <->
   exists r, sessionOf refreshToken s = Some r /\
             RefreshToken.isRevoked r = false /\
             now env <= RefreshToken.expiresAt r /\
             RefreshToken.tenantId r = Payload.tenantId payload) /\
  snd (validateStoredToken env refreshToken payload s) = s.
Proof.
  intros outcome. subst outcome.
  rewrite (validateStoredToken_run _ _ _ _ Hdb). simpl fst. simpl snd.
  unfold sessionOf.
  destruct (find _ (refreshTokens s)) as [r |]; simpl;
    [ destruct (RefreshToken.isRevoked r) eqn:Erev;
      [ | destruct (Z.ltb_spec (RefreshToken.expiresAt r) (now env)) as [Hlt | Hge];
          [ | destruct (String.eqb_spec (RefreshToken.tenantId r)
                                        (Payload.tenantId payload))
                as [Heq | Hne]; simpl ] ] | ];
    repeat match goal with
           | |- _ /\ _ => split
           | |- _ <-> _ => split
           | |- forall _, _ => intro
           | H : exists _, _ |- _ => destruct H
           | H : _ /\ _ |- _ => destruct H
           | H : Some _ = Some _ |- _ => injection H as <-
           end;
    try discriminate; try reflexivity; try congruence; try lia.
  exists r. auto.
Qed.

Lemma stored_session_validation_witness :
  isOk (fst (validateStoredToken (quietEnv 5000) acmeToken
               (RefreshP (RefreshTokenPayload.mk "tenant-1" "uuid-1"))
               (acmeStore 604800000))) = true <->
  exists r, sessionOf acmeToken (acmeStore 604800000) = Some r /\
            RefreshToken.isRevoked r = false /\
            now (quietEnv 5000) <= RefreshToken.expiresAt r /\
            RefreshToken.tenantId r =
              Payload.tenantId (RefreshP (RefreshTokenPayload.mk "tenant-1" "uuid-1")).
Proof.
  exact (proj1 (proj2 (proj2 (proj2
           (stored_session_validation (quietEnv 5000) acmeToken
              (RefreshP (RefreshTokenPayload.mk "tenant-1" "uuid-1"))
              (acmeStore 604800000) eq_refl))))).
Defined.

(** C6 as stated fails at the instant of expiry: the clock reads exactly
    the row's [expiresAt], yet the stored session is accepted. *)
Lemma stored_session_accepted_at_expiry_instant :
  sessionOf acmeToken (acmeStore 5000) = Some (acmeSession 5000) /\
  RefreshToken.expiresAt (acmeSession 5000) <= now (quietEnv 5000) /\
  validateStoredToken (quietEnv 5000) acmeToken
    (RefreshP (RefreshTokenPayload.mk "tenant-1" "uuid-1")) (acmeStore 5000)
  = (Ok {| row := acmeSession 5000; tenant := Some acme |}, acmeStore 5000).
Proof.
  split; [reflexivity |]. split; [simpl; lia |]. reflexivity.
Qed.

(** *** Rotation *)

Lemma rethrowAs_run {A} msg e s : @rethrowAs A msg e s = (Throw (rethrown msg e), s).
Proof. destruct e; reflexivity. Qed.

Lemma refreshToken_create_inv env tenantId tokenHash expiresAt s res s' :
  refreshToken_create env tenantId tokenHash expiresAt s = (res, s') ->
  (res = Throw dbError /\ s' = s) \/
  (dbFails env RefreshTokenCreate = false /\
   res = Ok (RefreshToken.mk (newId env RefreshTokenCreate) tenantId tokenHash
                             expiresAt (now env) false) /\
   s' = withRefreshTokens s
          (refreshTokens s ++
           [RefreshToken.mk (newId env RefreshTokenCreate) tenantId tokenHash
                            expiresAt (now env) false])%list).
Proof.
  unfold refreshToken_create.
  destruct (dbFails env RefreshTokenCreate).
  - intros H. injection H as <- <-. auto.
  - destruct (existsb _ (refreshTokens s)); intros H; injection H as <- <-; auto.
Qed.

Lemma refreshToken_update_revoke_inv env id s res s' :
  refreshToken_update_revoke env id s = (res, s') ->
  (res = Throw dbError /\ s' = s) \/
  (dbFails env RefreshTokenUpdate = false /\ res = Ok tt /\
   s' = withRefreshTokens s (revokeById id (refreshTokens s))).
Proof.
  unfold refreshToken_update_revoke.
  destruct (dbFails env RefreshTokenUpdate).
  - intros H. injection H as <- <-. auto.
  - destruct (existsb _ (refreshTokens s)); intros H; injection H as <- <-; auto.
Qed.

(** [openSession] either throws a plain error and writes nothing, or adds
    one row that holds the hash of the refresh token it hands out. *)
Lemma openSession_inv config env t s res s' :
  openSession config env t s = (res, s') ->
  (s' = s /\ exists msg, res = Throw (Error msg)) \/
  (exists resp created,
     res = Ok resp /\
     s' = withRefreshTokens s (refreshTokens s ++ [created])%list /\
     generateRefreshToken config
       (RefreshTokenPayload.mk (Tenant.id t) (randomUUID env)) (now env)
       = Ok (LoginResponse.refreshToken resp) /\
     RefreshToken.tokenHash created = hashToken (LoginResponse.refreshToken resp) /\
     RefreshToken.tenantId created = Tenant.id t /\
     RefreshToken.isRevoked created = false).
Proof.
  unfold openSession, bind, lift, ret, throw.
  destruct (generateAccessToken config _ (now env)) as [accessToken | e] eqn:Ea.
  2:{ intros H. injection H as <- <-. left. split; [reflexivity |].
      apply jwt_sign_Throw in Ea. destruct Ea as [msg ->]. eauto. }
  destruct (generateRefreshToken config _ (now env)) as [refreshToken | e] eqn:Er.
  2:{ intros H. injection H as <- <-. left. split; [reflexivity |].
      apply jwt_sign_Throw in Er. destruct Er as [msg ->]. eauto. }
  destruct (getTokenExpiry (zone env) (refreshExpiry config) (now env))
    as [[expiresAt |] | e] eqn:Ex.
  3:{ intros H. injection H as <- <-. left. split; [reflexivity |].
      unfold getTokenExpiry in Ex.
      destruct (matchExpiry _) as [[v u] |]; [discriminate | injection Ex as <-; eauto]. }
  2:{ intros H. injection H as <- <-. left. split; [reflexivity |]. eauto. }
  destruct (refreshToken_create env (Tenant.id t) (hashToken refreshToken) expiresAt s)
    as [r s1] eqn:Ec.
  apply refreshToken_create_inv in Ec.
  destruct Ec as [[-> ->] | (Hdb & -> & ->)]; intros H; injection H as <- <-.
  - left. split; [reflexivity |]. unfold dbError. eauto.
  - right. eexists. eexists. repeat split; eauto.
Qed.

Lemma In_revokeById id rows r :
  In r rows -> RefreshToken.id r = id -> In (RefreshToken.revoke r) (revokeById id rows).
Proof.
  intros Hin Hid. unfold revokeById.
  apply in_map_iff. exists r. split; [| assumption].
  rewrite Hid, String.eqb_refl. reflexivity.
Qed.

Lemma validateStoredToken_inv env refreshToken payload s res s' :
  validateStoredToken env refreshToken payload s = (res, s') ->
  s' = s /\
  forall st, res = Ok st ->
    sessionOf refreshToken s = Some (row st) /\
    RefreshToken.isRevoked (row st) = false /\
    now env <= RefreshToken.expiresAt (row st) /\
    RefreshToken.tenantId (row st) = Payload.tenantId payload /\
    tenant st = find (fun t => String.eqb (Tenant.id t) (RefreshToken.tenantId (row st)))
                     (tenants s).
Proof.
  unfold validateStoredToken, refreshToken_findUnique, query, bind, lift, sessionOf.
  destruct (dbFails env RefreshTokenFindUnique).
  - intros H. injection H as <- <-. split; [reflexivity | discriminate].
  - destruct (find _ (refreshTokens s)) as [r |]; simpl.
    + destruct (RefreshToken.isRevoked r) eqn:Erev.
      { intros Hv. injection Hv as <- <-. split; [reflexivity | discriminate]. }
      destruct (Z.ltb_spec (RefreshToken.expiresAt r) (now env)).
      { intros Hv. injection Hv as <- <-. split; [reflexivity | discriminate]. }
      destruct (String.eqb_spec (RefreshToken.tenantId r) (Payload.tenantId payload));
        simpl; intros Hv; injection Hv as <- <-; (split; [reflexivity |]).
      * intros st Hst. injection Hst as <-. simpl. auto.
      * discriminate.
    + intros H. injection H as <- <-. split; [reflexivity | discriminate].
Qed.

Lemma refreshToken_update_revoke_present env r s :
  dbFails env RefreshTokenUpdate = false ->
  In r (refreshTokens s) ->
  refreshToken_update_revoke env (RefreshToken.id r) s
  = (Ok tt, withRefreshTokens s (revokeById (RefreshToken.id r) (refreshTokens s))).
Proof.
  intros Hdb Hin. unfold refreshToken_update_revoke. rewrite Hdb.
  destruct (existsb _ (refreshTokens s)) eqn:Ex; [reflexivity |].
  assert (Hex : existsb (fun r0 => String.eqb (RefreshToken.id r0) (RefreshToken.id r))
                        (refreshTokens s) = true).
  { apply existsb_exists. exists r. split; [assumption | apply String.eqb_refl]. }
  rewrite Hex in Ex. discriminate.
Qed.

(** Once the presented row is validated and revoked, a failure of the
    rest of the exchange leaves exactly the revocation behind. *)
Lemma refresh_fails_after_revocation config env refreshToken s payload st e :
  verifyRefreshToken config refreshToken (now env) = Ok payload ->
  fst (validateStoredToken env refreshToken payload s) = Ok st ->
  dbFails env RefreshTokenUpdate = false ->
  fst (refreshAccessToken config env refreshToken s) = Throw e ->
  e = AppError "Failed to refresh token" 500 /\
  snd (refreshAccessToken config env refreshToken s)
  = withRefreshTokens s (revokeById (RefreshToken.id (row st)) (refreshTokens s)).
Proof.
  intros Hv Hst Hdb.
  destruct (validateStoredToken env refreshToken payload s) as [rv s1] eqn:Ev.
  simpl in Hst. subst rv.
  pose proof (validateStoredToken_inv _ _ _ _ _ _ Ev) as [-> Hrow].
  destruct (Hrow st eq_refl) as (Hfind & _).
  unfold sessionOf in Hfind. apply find_some in Hfind. destruct Hfind as [Hin _].
  unfold refreshAccessToken, tryCatch, bind, lift.
  rewrite Hv, Ev, (refreshToken_update_revoke_present env (row st) s Hdb Hin).
  destruct (tenant st) as [t |].
  - destruct (openSession config env t _) as [ro s3] eqn:Eo.
    apply openSession_inv in Eo.
    destruct Eo as [[-> [msg ->]] | (resp & created & -> & _)].
    + rewrite rethrowAs_run. simpl. intros Hq. injection Hq as <-. auto.
    + simpl. discriminate.
  - unfold throw. rewrite rethrowAs_run. simpl. intros Hq. injection Hq as <-. auto.
Qed.

(** The outcomes of [refreshAccessToken], by the writes they leave. *)
Lemma refresh_rotation_cases
  (config : Config) (env : Env) (refreshToken : Text) (s : Store) :
  let res := fst (refreshAccessToken config env refreshToken s) in
  let s' := snd (refreshAccessToken config env refreshToken s) in
  (forall resp, res = Ok resp ->
     exists presented created,
       sessionOf refreshToken s = Some presented /\
       RefreshToken.isRevoked presented = false /\
       s' = withRefreshTokens s
              (revokeById (RefreshToken.id presented) (refreshTokens s) ++ [created])%list /\
       In (RefreshToken.revoke presented) (refreshTokens s') /\
       In created (refreshTokens s') /\
       RefreshToken.tokenHash created = hashToken (LoginResponse.refreshToken resp) /\
       RefreshToken.isRevoked created = false) /\
  (forall e, res = Throw e ->
     s' = s \/
     (dbFails env RefreshTokenUpdate = false /\
      exists presented,
        sessionOf refreshToken s = Some presented /\
        RefreshToken.isRevoked presented = false /\
        s' = withRefreshTokens s
               (revokeById (RefreshToken.id presented) (refreshTokens s)))) /\
  (dbFails env RefreshTokenUpdate = true -> isOk res = false /\ s' = s).
Proof.
  intros res s'. subst res s'.
  unfold refreshAccessToken, tryCatch, bind, lift.
  destruct (verifyRefreshToken config refreshToken (now env)) as [payload | e0].
  2:{ rewrite rethrowAs_run. simpl.
      split; [discriminate |]. split; [auto | auto]. }
  destruct (validateStoredToken env refreshToken payload s) as [rv s1] eqn:Ev.
  apply validateStoredToken_inv in Ev. destruct Ev as [-> Hst].
  destruct rv as [st | e1].
  2:{ rewrite rethrowAs_run. simpl.
      split; [discriminate |]. split; [auto | auto]. }
  destruct (Hst st eq_refl) as (Hfind & Hrev & _ & _ & _).
  destruct (refreshToken_update_revoke env (RefreshToken.id (row st)) s)
    as [ru s2] eqn:Eu.
  apply refreshToken_update_revoke_inv in Eu.
  destruct Eu as [[-> ->] | (Hdb & -> & ->)].
  { rewrite rethrowAs_run. simpl.
    split; [discriminate |]. split; [auto | auto]. }
  destruct (tenant st) as [t |].
  2:{ unfold throw. rewrite rethrowAs_run. simpl.
      split; [discriminate |]. split; [| intros Hf; congruence].
      intros e _. right. split; [assumption |]. exists (row st). auto. }
  destruct (openSession config env t
              (withRefreshTokens s (revokeById (RefreshToken.id (row st)) (refreshTokens s))))
    as [ro s3] eqn:Eo.
  apply openSession_inv in Eo.
  destruct Eo as [[-> [msg ->]] | (resp & created & -> & -> & _ & Hhash & _ & Hnew)].
  - rewrite rethrowAs_run. simpl.
    split; [discriminate |]. split; [| intros Hf; congruence].
    intros e _. right. split; [assumption |]. exists (row st). auto.
  - simpl. split; [| split; [discriminate | intros Hf; congruence]].
    intros resp' Hresp. injection Hresp as <-.
    exists (row st), created.
    repeat split; try assumption.
    + apply in_or_app. left. apply In_revokeById; [| reflexivity].
      unfold sessionOf in Hfind. apply find_some in Hfind. apply Hfind.
    + apply in_or_app. right. left. reflexivity.
Qed.

(** C1, as the code has it.  A successful exchange has revoked the
    presented row and added a row holding the hash of the new refresh token.
    A failed exchange has written nothing, or only the revocation: the two
    writes are separate round trips and nothing undoes the first when the
    second fails: once the presented row is validated and revoked, a
    failure of the rest leaves the row revoked.  When the revocation
    itself fails the exchange fails and the store is unchanged. *)
Theorem refresh_rotation_writes
  (config : Config) (env : Env) (refreshToken : Text) (s : Store) :
  let res := fst (refreshAccessToken config env refreshToken s) in
  let s' := snd (refreshAccessToken config env refreshToken s) in
  (forall resp, res = Ok resp ->
     exists presented created,
       sessionOf refreshToken s = Some presented /\
       RefreshToken.isRevoked presented = false /\
       s' = withRefreshTokens s
              (revokeById (RefreshToken.id presented) (refreshTokens s) ++ [created])%list /\
       In (RefreshToken.revoke presented) (refreshTokens s') /\
       In created (refreshTokens s') /\
       RefreshToken.tokenHash created = hashToken (LoginResponse.refreshToken resp) /\
       RefreshToken.isRevoked created = false) /\
  (forall e, res = Throw e ->
     s' = s \/
     (dbFails env RefreshTokenUpdate = false /\
      exists presented,
        sessionOf refreshToken s = Some presented /\
        RefreshToken.isRevoked presented = false /\
        s' = withRefreshTokens s
               (revokeById (RefreshToken.id presented) (refreshTokens s)))) /\
  (forall payload st e,
     verifyRefreshToken config refreshToken (now env) = Ok payload ->
     fst (validateStoredToken env refreshToken payload s) = Ok st ->
     dbFails env RefreshTokenUpdate = false ->
     res = Throw e ->
     e = AppError "Failed to refresh token" 500 /\
     s' = withRefreshTokens s
            (revokeById (RefreshToken.id (row st)) (refreshTokens s))) /\
  (dbFails env RefreshTokenUpdate = true -> isOk res = false /\ s' = s).
Proof.
  intros res s'.
  destruct (refresh_rotation_cases config env refreshToken s) as (Hok & Hthrow & Hrev).
  split; [exact Hok |]. split; [exact Hthrow |]. split; [| exact Hrev].
  intros payload st e Hv Hst Hdb He.
  exact (refresh_fails_after_revocation config env refreshToken s payload st e
           Hv Hst Hdb He).
Qed.

(** C1 as stated fails: the presented session is valid, the creation of
    its replacement fails, the exchange fails, and the presented session
    is left revoked. *)
Lemma rotation_leaves_session_revoked_when_create_fails :
  sessionOf acmeToken (acmeStore 604800000) = Some (acmeSession 604800000) /\
  RefreshToken.isRevoked (acmeSession 604800000) = false /\
  refreshAccessToken demoConfig (createFailsEnv 5000) acmeToken (acmeStore 604800000)
  = (Throw (AppError "Failed to refresh token" 500),
     mkStore [acme] [] [] [RefreshToken.revoke (acmeSession 604800000)]) /\
  RefreshToken.isRevoked (RefreshToken.revoke (acmeSession 604800000)) = true.
Proof. repeat split. Qed.

(** The exchange does succeed in a quiet environment. *)
Example refresh_succeeds :
  isOk (fst (refreshAccessToken demoConfig (quietEnv 5000) acmeToken
               (acmeStore 604800000))) = true.
Proof. reflexivity. Qed.

Lemma refresh_rotation_writes_witness :
  AppError "Failed to refresh token" 500 = AppError "Failed to refresh token" 500 /\
  snd (refreshAccessToken demoConfig (createFailsEnv 5000) acmeToken
         (acmeStore 604800000))
  = withRefreshTokens (acmeStore 604800000)
      (revokeById (RefreshToken.id (acmeSession 604800000))
                  (refreshTokens (acmeStore 604800000))).
Proof.
  exact (proj1 (proj2 (proj2 (refresh_rotation_writes demoConfig (createFailsEnv 5000)
                                acmeToken (acmeStore 604800000))))
           (mkClaims (RefreshP (RefreshTokenPayload.mk "tenant-1" "uuid-1")) 0 604800)
           {| row := acmeSession 604800000; tenant := Some acme |}
           (AppError "Failed to refresh token" 500)
           eq_refl eq_refl eq_refl eq_refl).
Defined.

(** *** Only hashes are stored *)

Lemma hashToken_neq (t : Text) : hashToken t <> t.
Proof.
  unfold hashToken. induction t as [s | c key | t IH]; try discriminate.
  intros H. injection H as H. exact (IH H).
Qed.

Lemma hashColumn_revokeById s id :
  hashColumn (withRefreshTokens s (revokeById id (refreshTokens s))) = hashColumn s.
Proof.
  unfold hashColumn, revokeById. simpl. rewrite map_map.
  apply map_ext. intros r. destruct (String.eqb (RefreshToken.id r) id); reflexivity.
Qed.

Lemma openSession_hashColumn config env t s res s' :
  openSession config env t s = (res, s') ->
  match res with
  | Ok resp =>
      hashColumn s' = (hashColumn s ++ [hashToken (LoginResponse.refreshToken resp)])%list
  | Throw _ => hashColumn s' = hashColumn s
  end.
Proof.
  intros H. apply openSession_inv in H.
  destruct H as [[-> [msg ->]] | (resp & created & -> & -> & _ & Hh & _)].
  - reflexivity.
  - unfold hashColumn. simpl. rewrite map_app. simpl. rewrite Hh. reflexivity.
Qed.

Lemma tenant_create_hashColumn env a b c d e f g h s res s' :
  tenant_create env a b c d e f g h s = (res, s') -> hashColumn s' = hashColumn s.
Proof.
  unfold tenant_create.
  destruct (dbFails env TenantCreate); [intros H; injection H as <- <-; reflexivity |].
  destruct (existsb _ (tenants s)); intros H; injection H as <- <-; reflexivity.
Qed.

Lemma registerTenant_hashColumn config env input s :
  hashColumn (snd (registerTenant config env input s)) =
  hashColumnAfter s (match fst (registerTenant config env input s) with
                     | Ok resp => Ok (Some resp)
                     | Throw e => Throw e
                     end).
Proof.
  unfold registerTenant, tryCatch, bind, tenant_findUnique_username,
    tenant_findUnique_gst, query.
  destruct (dbFails env TenantFindUnique).
  { rewrite rethrowAs_run. reflexivity. }
  destruct (find _ (tenants s)).
  { unfold throw. rewrite rethrowAs_run. reflexivity. }
  destruct (find _ (tenants s)).
  { unfold throw. rewrite rethrowAs_run. reflexivity. }
  destruct (tenant_create env _ _ _ _ _ _ _ _ s) as [[t | e] s1] eqn:Ec;
    apply tenant_create_hashColumn in Ec.
  2:{ rewrite rethrowAs_run. simpl. assumption. }
  destruct (openSession config env t s1) as [[resp | e] s2] eqn:Eo;
    apply openSession_hashColumn in Eo.
  - simpl. rewrite Eo, Ec. reflexivity.
  - rewrite rethrowAs_run. simpl. rewrite Eo, Ec. reflexivity.
Qed.

Lemma loginTenant_hashColumn config env username password s :
  hashColumn (snd (loginTenant config env username password s)) =
  hashColumnAfter s (match fst (loginTenant config env username password s) with
                     | Ok resp => Ok (Some resp)
                     | Throw e => Throw e
                     end).
Proof.
  unfold loginTenant, tryCatch, bind, tenant_findUnique_username, query.
  destruct (dbFails env TenantFindUnique).
  { rewrite rethrowAs_run. reflexivity. }
  destruct (find _ (tenants s)) as [t |].
  2:{ unfold throw. rewrite rethrowAs_run. reflexivity. }
  destruct (comparePassword env password (Tenant.password t)); simpl.
  2:{ reflexivity. }
  destruct (openSession config env t s) as [[resp | e] s2] eqn:Eo;
    apply openSession_hashColumn in Eo.
  - simpl. assumption.
  - rewrite rethrowAs_run. simpl. assumption.
Qed.

Lemma refreshAccessToken_hashColumn config env refreshToken s :
  hashColumn (snd (refreshAccessToken config env refreshToken s)) =
  hashColumnAfter s (match fst (refreshAccessToken config env refreshToken s) with
                     | Ok resp => Ok (Some resp)
                     | Throw e => Throw e
                     end).
Proof.
  unfold refreshAccessToken, tryCatch, bind, lift.
  destruct (verifyRefreshToken config refreshToken (now env)) as [payload | e0].
  2:{ rewrite rethrowAs_run. reflexivity. }
  destruct (validateStoredToken env refreshToken payload s) as [rv s1] eqn:Ev.
  apply validateStoredToken_inv in Ev. destruct Ev as [-> _].
  destruct rv as [st | e1].
  2:{ rewrite rethrowAs_run. reflexivity. }
  destruct (refreshToken_update_revoke env (RefreshToken.id (row st)) s)
    as [ru s2] eqn:Eu.
  apply refreshToken_update_revoke_inv in Eu.
  destruct Eu as [[-> ->] | (_ & -> & ->)].
  { rewrite rethrowAs_run. reflexivity. }
  destruct (tenant st) as [t |].
  2:{ unfold throw. rewrite rethrowAs_run. simpl. apply hashColumn_revokeById. }
  destruct (openSession config env t _) as [[resp | e] s3] eqn:Eo;
    apply openSession_hashColumn in Eo; rewrite hashColumn_revokeById in Eo.
  - simpl. assumption.
  - rewrite rethrowAs_run. simpl. assumption.
Qed.

Lemma logoutTenant_hashColumn env tenantId refreshToken s :
  hashColumn (snd (logoutTenant env tenantId refreshToken s)) = hashColumn s.
Proof.
  unfold logoutTenant, tryCatch, refreshToken_updateMany_revoke.
  destruct (dbFails env RefreshTokenUpdateMany); [reflexivity |].
  unfold hashColumn. simpl. rewrite map_map. apply map_ext.
  intros r. destruct (_ && _); reflexivity.
Qed.

(** C8.  Whatever a session operation of the tenant service does, the
    [tokenHash] column afterwards is the column before, extended, when the
    operation hands out a session pair, by the hash of the refresh token of
    that pair, which differs from the token itself.  So a store that
    holds only digests still does after the operation. *)
Theorem refresh_token_stored_as_hash_only
  (config : Config) (env : Env) (op : SessionOp) (s : Store) :
  let res := fst (runSessionOp config env op s) in
  let s' := snd (runSessionOp config env op s) in
  hashColumn s' = hashColumnAfter s res /\
  (forall resp, res = Ok (Some resp) ->
     In (hashToken (LoginResponse.refreshToken resp)) (hashColumn s') /\
     hashToken (LoginResponse.refreshToken resp) <> LoginResponse.refreshToken resp /\
     match op with Logout _ _ => False | _ => True end) /\
  (digestsOnly s -> digestsOnly s').
Proof.
  intros res s'.
  assert (Hcol : hashColumn s' = hashColumnAfter s res).
  { subst res s'. destruct op as [input | u p | tok | tid tok]; unfold runSessionOp, bind, ret.
    - pose proof (registerTenant_hashColumn config env input s) as H.
      destruct (registerTenant config env input s) as [[resp | e] s1]; exact H.
    - pose proof (loginTenant_hashColumn config env u p s) as H.
      destruct (loginTenant config env u p s) as [[resp | e] s1]; exact H.
    - pose proof (refreshAccessToken_hashColumn config env tok s) as H.
      destruct (refreshAccessToken config env tok s) as [[resp | e] s1]; exact H.
    - pose proof (logoutTenant_hashColumn env tid tok s) as H.
      destruct (logoutTenant env tid tok s) as [[[] | e] s1]; exact H. }
  split; [exact Hcol |]. split.
  - intros resp Hres. rewrite Hcol, Hres. simpl. split; [| split].
    + apply in_or_app. right. left. reflexivity.
    + apply hashToken_neq.
    + subst res. destruct op; try exact I.
      unfold runSessionOp, bind, ret in Hres.
      destruct (logoutTenant env tenantId refreshToken s) as [[[] | e] s1];
        discriminate.
  - unfold digestsOnly. rewrite Hcol. intros Hs.
    destruct res as [[resp |] | e]; simpl; try assumption.
    apply Forall_app. split; [assumption |].
    constructor; [| constructor]. eexists. reflexivity.
Qed.

(** Logging in stores the digest of the refresh token it returns. *)
Example login_stores_hash :
  let out := loginTenant demoConfig (quietEnv 5000) "acme" "secret"
               (mkStore [acme] [] [] []) in
  exists resp, fst out = Ok resp /\
    hashColumn (snd out) = [HexDigest (LoginResponse.refreshToken resp)].
Proof. eexists. split; reflexivity. Qed.

(** ** Check-in *)

Lemma optString_eqb_true a b : optString_eqb a b = true <-> a = Some b.
Proof.
  destruct a as [x |]; simpl.
  - destruct (String.eqb_spec x b); split; intros H; congruence.
  - split; discriminate.
Qed.

Lemma checkIn_after_resolution config tzOffset env input s employee t :
  reachesIdentityCheck config env input s employee t ->
  checkIn config tzOffset env input s
  = verifyAndRecord config tzOffset env input employee t s.
Proof.
  intros (payload & Hv & He & Hemb & Hdb1 & Hfe & Ht & Hdb2 & Hft).
  unfold checkIn, verifyAndRecord, tryCatch, bind, lift, getEmployeeById, tryCatch,
    employee_findUnique, tenant_findUnique_id, query.
  rewrite Hv. simpl.
  rewrite (proj2 (optString_eqb_true _ _) He), Hemb. simpl.
  rewrite Hdb1, Hfe, Ht, String.eqb_refl. simpl.
  rewrite Hdb2. rewrite <- Ht, Hft. reflexivity.
Qed.

(** A request that does not get that far is refused and writes nothing. *)
Lemma checkIn_before_resolution config tzOffset env input s :
  (exists employee t, reachesIdentityCheck config env input s employee t) \/
  (exists e, checkIn config tzOffset env input s = (Throw e, s) /\
             e <> AppError "Already checked in today" 409).
Proof.
  unfold checkIn, tryCatch, bind, lift, getEmployeeById, tryCatch,
    employee_findUnique, tenant_findUnique_id, query, reachesIdentityCheck.
  destruct (verifyLocationToken config (ci_locationToken input) (now env))
    as [payload | e0] eqn:Hv; simpl.
  2:{ right. eexists. split; [reflexivity | discriminate]. }
  destruct (optString_eqb (Payload.employeeId payload) (ci_employeeId input)) eqn:He;
    simpl.
  2:{ right. eexists. split; [reflexivity | discriminate]. }
  apply optString_eqb_true in He.
  destruct (isValidEmbedding (ci_embedding input)) eqn:Hemb; simpl.
  2:{ right. eexists. split; [reflexivity | discriminate]. }
  destruct (dbFails env EmployeeFindUnique) eqn:Hdb1; simpl.
  { right. eexists. split; [reflexivity | discriminate]. }
  destruct (find _ (employees s)) as [employee |] eqn:Hfe; simpl.
  2:{ right. eexists. split; [reflexivity | discriminate]. }
  destruct (String.eqb_spec (Employee.tenantId employee) (Payload.tenantId payload))
    as [Ht | Hne]; simpl.
  2:{ right. eexists. split; [reflexivity | discriminate]. }
  destruct (dbFails env TenantFindUnique) eqn:Hdb2; simpl.
  { right. eexists. split; [reflexivity | discriminate]. }
  destruct (find _ (tenants s)) as [t |] eqn:Hft; simpl.
  2:{ right. eexists. split; [reflexivity | discriminate]. }
  left. exists employee, t, payload. repeat split; assumption.
Qed.

(** The face check reads nothing from the store and writes nothing. *)
Lemma verifyIdentity_inv config env employee t input s res s' :
  verifyIdentity config env employee t input s = (res, s') ->
  s' = s /\
  match Tenant.planType t with
  | FREE => res = Ok None
  | PAID =>
      match compareFaces config env (Employee.photoUrl employee) (ci_photoUrl input) with
      | Throw _ => res = Throw (AppError "Face verification failed. Please try again." 500)
      | Ok cmp =>
          if isMatch cmp then res = Ok (Some (orZero (similarity cmp)))
          else res = Throw (AppError
                 "Face verification failed. Please try again with a clear photo." 400)
      end
  end.
Proof.
  unfold verifyIdentity. destruct (Tenant.planType t); simpl.
  - unfold ret. intros H. injection H as <- <-. auto.
  - unfold tryCatch, bind, lift.
    destruct (compareFaces config env _ _) as [cmp | e] eqn:Ec.
    + destruct (isMatch cmp); simpl; intros H; injection H as <- <-; auto.
    + unfold compareFaces in Ec.
      destruct (rekognition env _ _) as [| | [[| first rest] |]];
        try (injection Ec as <-; simpl; intros H; injection H as <- <-; auto);
        try discriminate.
      destruct (Similarity first) as [sim |]; [| discriminate].
      destruct (truthy sim); discriminate.
Qed.

(** What [compareFaces] has seen when it reports a match. *)
Lemma compareFaces_match config env src tgt cmp :
  compareFaces config env src tgt = Ok cmp ->
  isMatch cmp = true ->
  exists first rest sim,
    rekognition env src tgt = Response (Some (first :: rest)) /\
    Similarity first = Some sim /\
    (similarityThreshold config <= sim)%R /\
    orZero (similarity cmp) = sim.
Proof.
  unfold compareFaces.
  destruct (rekognition env src tgt) as [| | [[| first rest] |]]; try discriminate;
    try (intros H; injection H as <-; discriminate).
  destruct (Similarity first) as [sim |] eqn:Es;
    [| intros H; injection H as <-; discriminate].
  destruct (truthy sim) eqn:Et; [| intros H; injection H as <-; discriminate].
  intros H. injection H as <-. simpl. intros Hm.
  exists first, rest, sim. rewrite Et. apply Rleb_true in Hm. auto.
Qed.

(** The once-a-day guard and the insert: one row appended, or nothing. *)
Lemma recordAttendance_inv tzOffset env employee input mc s res s' :
  recordAttendance tzOffset env employee input mc s = (res, s') ->
  (s' = s /\ exists e, res = Throw e) \/
  (res = Ok (Attendance.mk (newId env AttendanceCreate) (Employee.tenantId employee)
               (Employee.id employee) (ci_photoUrl input) (ci_embedding input)
               (now env) mc (now env)) /\
   s' = withAttendances s
          (attendances s ++
           [Attendance.mk (newId env AttendanceCreate) (Employee.tenantId employee)
              (Employee.id employee) (ci_photoUrl input) (ci_embedding input)
              (now env) mc (now env)])%list /\
   find (fun a => String.eqb (Attendance.employeeId a) (ci_employeeId input)
                  && (startOfDay tzOffset (now env) <=? Attendance.checkInTime a))
        (attendances s) = None).
Proof.
  unfold recordAttendance, bind, attendance_findFirst, query, attendance_create.
  destruct (dbFails env AttendanceFindFirst).
  { intros H. injection H as <- <-. left. eauto. }
  destruct (find _ (attendances s)) as [a |] eqn:Hf.
  { unfold throw. intros H. injection H as <- <-. left. eauto. }
  destruct (dbFails env AttendanceCreate).
  { intros H. injection H as <- <-. left. eauto. }
  destruct (existsb _ (attendances s)); intros H; injection H as <- <-.
  - left. eauto.
  - right. auto.
Qed.

(** Every run of [checkIn]: refused with the store untouched, or accepted
    with exactly one row appended to [attendances]. *)
Lemma checkIn_inv config tzOffset env input s res s' :
  checkIn config tzOffset env input s = (res, s') ->
  (s' = s /\ exists e, res = Throw e) \/
  (exists employee t mc,
     reachesIdentityCheck config env input s employee t /\
     verifyIdentity config env employee t input s = (Ok mc, s) /\
     res = Ok (Attendance.mk (newId env AttendanceCreate) (Employee.tenantId employee)
                 (Employee.id employee) (ci_photoUrl input) (ci_embedding input)
                 (now env) mc (now env)) /\
     s' = withAttendances s
            (attendances s ++
             [Attendance.mk (newId env AttendanceCreate) (Employee.tenantId employee)
                (Employee.id employee) (ci_photoUrl input) (ci_embedding input)
                (now env) mc (now env)])%list /\
     find (fun a => String.eqb (Attendance.employeeId a) (ci_employeeId input)
                    && (startOfDay tzOffset (now env) <=? Attendance.checkInTime a))
          (attendances s) = None).
Proof.
  destruct (checkIn_before_resolution config tzOffset env input s)
    as [(employee & t & Hreach) | (e & -> & _)].
  2:{ intros H. injection H as <- <-. left. eauto. }
  rewrite (checkIn_after_resolution _ _ _ _ _ _ _ Hreach).
  unfold verifyAndRecord, tryCatch, bind.
  destruct (verifyIdentity config env employee t input s) as [rv s1] eqn:Ev.
  pose proof (verifyIdentity_inv _ _ _ _ _ _ _ _ Ev) as [-> _].
  destruct rv as [mc | e].
  2:{ rewrite rethrowAs_run. intros H. injection H as <- <-. left. eauto. }
  destruct (recordAttendance tzOffset env employee input mc s) as [rr s2] eqn:Er.
  apply recordAttendance_inv in Er.
  destruct Er as [[-> [e ->]] | (-> & -> & Hnone)].
  - rewrite rethrowAs_run. intros H. injection H as <- <-. left. eauto.
  - intros H. injection H as <- <-. right.
    exists employee, t, mc. repeat split; assumption.
Qed.

(** C10.  A check-in that fails, for whatever reason, leaves the store,
    and so the attendance table, as it found it. *)
Theorem failed_checkIn_creates_no_attendance
  (config : Config) (tzOffset : Z) (env : Env) (input : CheckInInput)
  (s : Store) (e : Exn)
  (Hfail : fst (checkIn config tzOffset env input s) = Throw e) :
  snd (checkIn config tzOffset env input s) = s /\
  attendances (snd (checkIn config tzOffset env input s)) = attendances s.
Proof.
  destruct (checkIn config tzOffset env input s) as [res s'] eqn:Hrun.
  simpl in *. subst res.
  apply checkIn_inv in Hrun.
  destruct Hrun as [[-> _] | (employee & t & mc & _ & _ & Hres & _)].
  - auto.
  - discriminate.
Qed.

(** C7.  A location token that verifies but names another employee than
    the request is refused with the mismatch error, whatever the store
    holds, and nothing is written. *)
Theorem employee_mismatch_refused
  (config : Config) (tzOffset : Z) (env : Env) (input : CheckInInput)
  (s : Store) (payload : Claims)
  (Hvalid : verifyLocationToken config (ci_locationToken input) (now env) = Ok payload)
  (Hdiff : Payload.employeeId payload <> Some (ci_employeeId input)) :
  checkIn config tzOffset env input s
  = (Throw (AppError "Employee ID mismatch with location token" 403), s).
Proof.
  unfold checkIn, tryCatch, bind, lift. rewrite Hvalid. simpl.
  destruct (optString_eqb (Payload.employeeId payload) (ci_employeeId input)) eqn:He.
  - apply optString_eqb_true in He. contradiction.
  - reflexivity.
Qed.

Lemma employee_mismatch_refused_witness :
  checkIn demoConfig 0 (quietEnv 60000) raviWithAshaProof globexStore
  = (Throw (AppError "Employee ID mismatch with location token" 403), globexStore).
Proof.
  apply (employee_mismatch_refused demoConfig 0 (quietEnv 60000) raviWithAshaProof
           globexStore
           (mkClaims (LocationJson "tenant-2" "emp-1" (Some 1%float) (Some 1%float))
                     0 300)).
  - reflexivity.
  - discriminate.
Defined.

Lemma failed_checkIn_creates_no_attendance_witness :
  snd (checkIn demoConfig 0 (quietEnv 600000) ashaRequest globexStore) = globexStore /\
  attendances (snd (checkIn demoConfig 0 (quietEnv 600000) ashaRequest globexStore))
  = attendances globexStore.
Proof.
  apply (failed_checkIn_creates_no_attendance demoConfig 0 (quietEnv 600000)
           ashaRequest globexStore
           (AppError "Invalid or expired location token" 401)).
  reflexivity.
Defined.

(** A FREE check-in goes through and records no confidence. *)
Example free_checkIn_succeeds :
  checkIn demoConfig 0 (quietEnv 60000) ashaRequest globexStore
  = (Ok (Attendance.mk "row-new" "tenant-2" "emp-1" "https://photos/in-1.jpg"
           sampleEmbedding 60000 None 60000),
     mkStore [acme; globex] [asha; ravi]
       [Attendance.mk "row-new" "tenant-2" "emp-1" "https://photos/in-1.jpg"
          sampleEmbedding 60000 None 60000] []).
Proof. reflexivity. Qed.

Lemma verifyAndRecord_inv config tzOffset env input employee t s res s' :
  verifyAndRecord config tzOffset env input employee t s = (res, s') ->
  exists rv,
    verifyIdentity config env employee t input s = (rv, s) /\
    match rv with
    | Throw e => res = Throw (rethrown "Failed to process check-in" e) /\ s' = s
    | Ok mc =>
        exists rr,
          recordAttendance tzOffset env employee input mc s = (rr, s') /\
          res = match rr with
                | Ok a => Ok a
                | Throw e => Throw (rethrown "Failed to process check-in" e)
                end
    end.
Proof.
  intros Hrun. unfold verifyAndRecord, tryCatch, bind in Hrun.
  destruct (verifyIdentity config env employee t input s) as [rv s1] eqn:Ev.
  pose proof (verifyIdentity_inv _ _ _ _ _ _ _ _ Ev) as [-> _].
  exists rv. split; [reflexivity |].
  destruct rv as [mc | e].
  - destruct (recordAttendance tzOffset env employee input mc s) as [rr s2] eqn:Er.
    pose proof (recordAttendance_inv _ _ _ _ _ _ _ _ Er) as Hr.
    destruct rr as [a | e].
    + injection Hrun as <- <-. exists (Ok a). auto.
    + destruct Hr as [[-> _] | (Hd & _)]; [| discriminate].
      rewrite rethrowAs_run in Hrun. injection Hrun as <- <-.
      exists (Throw e). auto.
  - rewrite rethrowAs_run in Hrun. injection Hrun as <- <-. auto.
Qed.

Lemma compareFaces_below_threshold config env src tgt first rest sim :
  rekognition env src tgt = Response (Some (first :: rest)) ->
  Similarity first = Some sim ->
  (sim < similarityThreshold config)%R ->
  exists cmp, compareFaces config env src tgt = Ok cmp /\ isMatch cmp = false.
Proof.
  intros Hr Hs Hlt. unfold compareFaces. rewrite Hr, Hs.
  destruct (truthy sim).
  - eexists. split; [reflexivity |]. simpl. apply Rleb_false. assumption.
  - eexists. split; reflexivity.
Qed.

(** C5.  For a check-in that has reached the identity verification:
    under the FREE plan a created record carries no confidence; under the
    PAID plan a record is created only when the first face match reported
    by the oracle has a similarity at or above the threshold, and it
    carries that similarity; when the comparison reports no match (in
    particular a similarity below the threshold) or the oracle call throws,
    the check-in fails with a face-verification error and writes nothing. *)
Theorem identity_verification_by_plan
  (config : Config) (tzOffset : Z) (env : Env) (input : CheckInInput) (s : Store)
  (employee : Employee.t) (t : Tenant.t)
  (Hreach : reachesIdentityCheck config env input s employee t) :
  let run := checkIn config tzOffset env input s in
  let oracle := compareFaces config env (Employee.photoUrl employee) (ci_photoUrl input) in
  (Tenant.planType t = FREE ->
   forall att, fst run = Ok att -> Attendance.matchConfidence att = None) /\
  (Tenant.planType t = PAID ->
   (forall att, fst run = Ok att ->
      exists first rest sim,
        rekognition env (Employee.photoUrl employee) (ci_photoUrl input)
          = Response (Some (first :: rest)) /\
        Similarity first = Some sim /\
        (similarityThreshold config <= sim)%R /\
        Attendance.matchConfidence att = Some sim) /\
   (forall cmp, oracle = Ok cmp -> isMatch cmp = false ->
      run = (Throw (AppError
               "Face verification failed. Please try again with a clear photo." 400), s)) /\
   (forall first rest sim,
      rekognition env (Employee.photoUrl employee) (ci_photoUrl input)
        = Response (Some (first :: rest)) ->
      Similarity first = Some sim ->
      (sim < similarityThreshold config)%R ->
      run = (Throw (AppError
               "Face verification failed. Please try again with a clear photo." 400), s)) /\
   (forall e, oracle = Throw e ->
      run = (Throw (AppError "Face verification failed. Please try again." 500), s))).
Proof.
  intros run oracle. subst run oracle.
  rewrite (checkIn_after_resolution _ _ _ _ _ _ _ Hreach).
  destruct (verifyAndRecord config tzOffset env input employee t s) as [res s'] eqn:Hrun.
  apply verifyAndRecord_inv in Hrun. destruct Hrun as (rv & Hv & Hrest).
  pose proof (verifyIdentity_inv _ _ _ _ _ _ _ _ Hv) as [_ Hplan].
  assert (Hrec : forall mc att, rv = Ok mc -> res = Ok att ->
                                Attendance.matchConfidence att = mc).
  { intros mc att -> ->. destruct Hrest as (rr & Hr & Hres).
    apply recordAttendance_inv in Hr.
    destruct Hr as [[_ [e ->]] | (-> & _ & _)]; [discriminate |].
    injection Hres as ->. reflexivity. }
  assert (Hno : forall cmp,
             compareFaces config env (Employee.photoUrl employee) (ci_photoUrl input)
               = Ok cmp ->
             isMatch cmp = false -> Tenant.planType t = PAID ->
             (res, s') = (Throw (AppError
               "Face verification failed. Please try again with a clear photo." 400), s)).
  { intros cmp Hc Hm Hpaid. rewrite Hpaid, Hc, Hm in Hplan. subst rv.
    destruct Hrest as [-> ->]. reflexivity. }
  simpl fst. split.
  - intros Hfree att Hres. rewrite Hfree in Hplan. exact (Hrec None att Hplan Hres).
  - intros Hpaid. split; [| split; [| split]].
    + intros att Hres. rewrite Hpaid in Hplan.
      destruct (compareFaces config env (Employee.photoUrl employee) (ci_photoUrl input))
        as [cmp | e] eqn:Hc.
      * destruct (isMatch cmp) eqn:Hm.
        -- destruct (compareFaces_match _ _ _ _ _ Hc Hm)
             as (first & rest & sim & Hr & Hs & Hle & Hz).
           exists first, rest, sim. repeat split; try assumption.
           rewrite (Hrec _ att Hplan Hres), Hz. reflexivity.
        -- subst rv. destruct Hrest as [-> _]. discriminate.
      * subst rv. destruct Hrest as [-> _]. discriminate.
    + intros cmp Hc Hm. exact (Hno cmp Hc Hm Hpaid).
    + intros first rest sim Hr Hs Hlt.
      destruct (compareFaces_below_threshold config env _ _ _ _ _ Hr Hs Hlt)
        as (cmp & Hc & Hm).
      exact (Hno cmp Hc Hm Hpaid).
    + intros e Hc. rewrite Hpaid, Hc in Hplan. subst rv.
      destruct Hrest as [-> ->]. reflexivity.
Qed.

Lemma meera_reaches sim :
  reachesIdentityCheck demoConfig (oracleEnv 60000 sim) meeraRequest acmeStaffStore
    meera acme.
Proof.
  exists (mkClaims (LocationJson "tenant-1" "emp-3" (Some 1%float) (Some 1%float)) 0 300).
  repeat split.
Defined.

Lemma identity_verification_by_plan_witness :
  (forall att,
     fst (checkIn demoConfig 0 (oracleEnv 60000 92%R) meeraRequest acmeStaffStore) = Ok att ->
     exists first rest sim,
       rekognition (oracleEnv 60000 92%R) (Employee.photoUrl meera)
                   (ci_photoUrl meeraRequest)
         = Response (Some (first :: rest)) /\
       Similarity first = Some sim /\
       (similarityThreshold demoConfig <= sim)%R /\
       Attendance.matchConfidence att = Some sim) /\
  checkIn demoConfig 0 (oracleEnv 60000 40%R) meeraRequest acmeStaffStore
  = (Throw (AppError
       "Face verification failed. Please try again with a clear photo." 400),
     acmeStaffStore).
Proof.
  split.
  - exact (proj1 (proj2 (identity_verification_by_plan demoConfig 0
                           (oracleEnv 60000 92%R) meeraRequest acmeStaffStore meera acme
                           (meera_reaches 92%R)) eq_refl)).
  - apply (proj1 (proj2 (proj2 (proj2 (identity_verification_by_plan demoConfig 0
                           (oracleEnv 60000 40%R) meeraRequest acmeStaffStore meera acme
                           (meera_reaches 40%R)) eq_refl)))
             (mkFaceMatch (Some 40%R) (Some 99%R)) [] 40%R);
      [reflexivity | reflexivity | simpl; lra].
Defined.

Lemma truthy_nonzero (x : number) : x <> 0%R -> truthy x = true.
Proof. intros H. unfold truthy. destruct (Req_dec_T x 0); [contradiction | reflexivity]. Qed.

Lemma compareFaces_first_match config env src tgt first rest sim :
  rekognition env src tgt = Response (Some (first :: rest)) ->
  Similarity first = Some sim ->
  sim <> 0%R ->
  (similarityThreshold config <= sim)%R ->
  compareFaces config env src tgt
  = Ok {| isMatch := true;
          confidence := orZero (FaceConfidence first);
          similarity := Some sim |}.
Proof.
  intros Hr Hs Hnz Hle. unfold compareFaces.
  rewrite Hr, Hs, (truthy_nonzero _ Hnz), (proj2 (Rleb_true _ _) Hle). reflexivity.
Qed.

(** A PAID check-in with a similarity of 92 against a threshold of 85
    goes through and records 92. *)
Example paid_checkIn_succeeds :
  checkIn demoConfig 0 (oracleEnv 60000 92%R) meeraRequest acmeStaffStore
  = (Ok (Attendance.mk "row-new" "tenant-1" "emp-3" "https://photos/in-3.jpg"
           sampleEmbedding 60000 (Some 92%R) 60000),
     withAttendances acmeStaffStore
       [Attendance.mk "row-new" "tenant-1" "emp-3" "https://photos/in-3.jpg"
          sampleEmbedding 60000 (Some 92%R) 60000]).
Proof.
  rewrite (checkIn_after_resolution _ _ _ _ _ _ _ (meera_reaches 92%R)).
  unfold verifyAndRecord, verifyIdentity, tryCatch, bind, lift. simpl.
  rewrite (compareFaces_first_match demoConfig (oracleEnv 60000 92%R) _ _
             (mkFaceMatch (Some 92%R) (Some 99%R)) [] 92%R);
    [| reflexivity | reflexivity | lra | simpl; lra].
  simpl. unfold orZero. rewrite truthy_nonzero by lra. reflexivity.
Qed.

(** *** Once a day *)



Lemma find_Some_of_In {A} (f : A -> bool) (l : list A) (a : A) :
  In a l -> f a = true -> exists b, find f l = Some b.
Proof.
  intros Hin Hf. destruct (find f l) as [b |] eqn:E; [eauto |].
  rewrite (find_none f l E a Hin) in Hf. discriminate.
Qed.










(** ** Location check *)

(** A number travels through JSON as itself, [-0] as [0]. *)
Lemma jsonNumber_finite (x : double) :
  SFfinite (Prim2SF x) -> jsonNumber x = Some (x + 0)%float.
Proof.
  intros H. unfold jsonNumber, PrimFloat.is_finite, PrimFloat.is_nan, PrimFloat.is_infinity.
  rewrite !FloatAxioms.eqb_spec, FloatAxioms.abs_spec.
  change (Prim2SF infinity) with (S754_infinity false).
  unfold SFeqb, SFcompare, SFabs.
  destruct (Prim2SF x) as [sx | sx | | sx mx ex]; try contradiction.
  - reflexivity.
  - rewrite Z.compare_refl, Pcompare_refl. destruct sx; reflexivity.
Qed.

(** C2.  For valid coordinates and an employee whose tenant is found:
    inside the radius the answer is a denial without a token; outside the
    radius (the location signer being usable) the answer carries a token
    which, whenever it is verified before its expiry, yields the id of the
    owning tenant, the employee id of the request and the submitted
    coordinates (as JSON carries them: [-0] as [0]), beside the second of
    issue and the expiry.  The store is left as it was. *)
Theorem location_check_issues_proof_only_outside
  (config : Config) (env : Env) (input : LocationCheckInput) (s : Store)
  (employee : Employee.t) (t : Tenant.t)
  (Hvalid : isValid (validateCoordinates (lc_latitude input) (lc_longitude input)) = true)
  (Hdb1 : dbFails env EmployeeFindUnique = false)
  (Hfe : find (fun e => String.eqb (Employee.id e) (lc_employeeId input)) (employees s)
         = Some employee)
  (Hdb2 : dbFails env TenantFindUnique = false)
  (Hft : find (fun x => String.eqb (Tenant.id x) (Employee.tenantId employee)) (tenants s)
         = Some t) :
  let within :=
    isWithinRadius (math env) (lc_latitude input) (lc_longitude input)
                   (Tenant.latitude t) (Tenant.longitude t)
                   (allowedCheckInRadius config) in
  (within = true ->
   exists resp,
     checkEmployeeLocation config env input s = (Ok resp, s) /\
     LocationCheckResponse.success resp = false /\
     LocationCheckResponse.locationToken resp = None) /\
  (within = false ->
   forall span,
     isEmpty (locationSecret config) = false ->
     timespan (locationExpiry config) = Some span ->
     exists resp tok,
       checkEmployeeLocation config env input s = (Ok resp, s) /\
       LocationCheckResponse.success resp = true /\
       LocationCheckResponse.locationToken resp = Some tok /\
       Tenant.id t = Employee.tenantId employee /\
       forall later, later / 1000 < now env / 1000 + span ->
         verifyLocationToken config tok later
         = Ok (mkClaims
                 (LocationJson (Tenant.id t) (lc_employeeId input)
                               (Some (lc_latitude input + 0)%float)
                               (Some (lc_longitude input + 0)%float))
                 (now env / 1000) (now env / 1000 + span))).
Proof.
  intros within.
  assert (Hid : Employee.id employee = lc_employeeId input).
  { apply find_some in Hfe. destruct Hfe as [_ Heq]. apply String.eqb_eq. assumption. }
  assert (Htid : Tenant.id t = Employee.tenantId employee).
  { apply find_some in Hft. destruct Hft as [_ Heq]. apply String.eqb_eq. assumption. }
  pose proof (proj1 (validateCoordinates_isValid _ _) Hvalid) as [Hlat Hlon].
  unfold checkEmployeeLocation, tryCatch, bind, lift, getEmployeeById, tryCatch,
    employee_findUnique, tenant_findUnique_id, query.
  rewrite Hvalid. simpl. rewrite Hdb1, Hfe, Hdb2, Hft.
  fold within. split.
  - intros ->. eexists. split; [reflexivity |]. split; reflexivity.
  - intros -> span Hk Hs.
    unfold generateLocationToken. rewrite (jwt_sign_Ok _ _ _ _ _ span Hk Hs). simpl.
    eexists. eexists. split; [reflexivity |]. split; [reflexivity |].
    split; [reflexivity |]. split; [assumption |].
    intros later Hlt. unfold verifyLocationToken.
    rewrite (jwt_verify_same_key (mkClaims _ _ _) _ later Hk Hlt). simpl.
    rewrite Hid.
    rewrite (jsonNumber_finite _ (validLatitude_finite _ Hlat)).
    rewrite (jsonNumber_finite _ (validLongitude_finite _ Hlon)).
    reflexivity.
Qed.

Lemma location_check_issues_proof_only_outside_witness :
  (exists resp,
     checkEmployeeLocation demoConfig (quietEnv 0)
                           (mkLocationCheckInput "emp-1" 0%float 0%float)
                           globexStore = (Ok resp, globexStore) /\
     LocationCheckResponse.success resp = false /\
     LocationCheckResponse.locationToken resp = None) /\
  (exists resp tok,
     checkEmployeeLocation demoConfig (quietEnv 0)
                           (mkLocationCheckInput "emp-1" 0%float 180%float)
                           globexStore = (Ok resp, globexStore) /\
     LocationCheckResponse.success resp = true /\
     LocationCheckResponse.locationToken resp = Some tok /\
     Tenant.id globex = Employee.tenantId asha /\
     forall later, later / 1000 < now (quietEnv 0) / 1000 + 300 ->
       verifyLocationToken demoConfig tok later
       = Ok (mkClaims (LocationJson "tenant-2" "emp-1"
                                    (Some (0 + 0)%float) (Some (180 + 0)%float))
                      (now (quietEnv 0) / 1000) (now (quietEnv 0) / 1000 + 300))).
Proof.
  split.
  - apply (proj1 (location_check_issues_proof_only_outside demoConfig (quietEnv 0)
                    (mkLocationCheckInput "emp-1" 0%float 0%float) globexStore asha globex
                    eq_refl eq_refl eq_refl eq_refl eq_refl)).
    reflexivity.
  - apply (proj2 (location_check_issues_proof_only_outside demoConfig (quietEnv 0)
                    (mkLocationCheckInput "emp-1" 0%float 180%float) globexStore asha globex
                    eq_refl eq_refl eq_refl eq_refl eq_refl)
             eq_refl 300 eq_refl eq_refl).
Defined.

(** * Further properties *)

(** ** Expiry strings ([getTokenExpiry]) *)

Lemma isUnit_not_digit (u : ascii) : isUnit u = true -> isDigit u = false.
Proof.
  unfold isUnit. intros H.
  repeat (apply orb_prop in H; destruct H as [H | H]);
    apply Ascii.eqb_eq in H; subst u; reflexivity.
Qed.

Lemma matchExpiryFrom_complete digits unit :
  allDigits digits = true -> isUnit unit = true ->
  forall acc seen,
    (seen = true \/ digits <> EmptyString) ->
    matchExpiryFrom (String.append digits (String unit EmptyString)) acc seen
    = Some (decimalFrom digits acc, unit).
Proof.
  intros Hd Hu. induction digits as [| c rest IH]; intros acc seen Hseen; simpl.
  - rewrite (isUnit_not_digit _ Hu), Hu.
    destruct Hseen as [-> | Hne]; [reflexivity | contradiction].
  - simpl in Hd. apply andb_prop in Hd. destruct Hd as [Hc Hrest].
    rewrite Hc. apply IH; auto.
Qed.

Lemma matchExpiryFrom_sound s :
  forall acc seen value unit,
    matchExpiryFrom s acc seen = Some (value, unit) ->
    exists digits,
      s = String.append digits (String unit EmptyString) /\
      allDigits digits = true /\ isUnit unit = true /\
      value = decimalFrom digits acc /\
      (seen = true \/ digits <> EmptyString).
Proof.
  induction s as [| c rest IH]; intros acc seen value unit H; simpl in H.
  - discriminate.
  - destruct (isDigit c) eqn:Hc.
    + apply IH in H. destruct H as (digits & -> & Hd & Hu & -> & _).
      exists (String c digits). simpl. rewrite Hc, Hd.
      repeat split; auto. right. discriminate.
    + destruct rest; [| discriminate].
      destruct seen; simpl in H; [| discriminate].
      destruct (isUnit c) eqn:Hu; [| discriminate].
      injection H as <- <-. exists EmptyString. simpl. repeat split; auto.
Qed.

Lemma decimalFrom_nonneg digits :
  allDigits digits = true -> forall acc, 0 <= acc -> 0 <= decimalFrom digits acc.
Proof.
  induction digits as [| c rest IH]; intros Hd acc Hacc; cbn [decimalFrom].
  - assumption.
  - cbn [allDigits] in Hd. apply andb_prop in Hd. destruct Hd as [Hc Hrest].
    apply IH; [assumption |].
    unfold isDigit, asciiCode in *. apply andb_prop in Hc. destruct Hc as [Hlo _].
    apply Z.leb_le in Hlo. lia.
Qed.

Lemma unitMillis_pos unit : isUnit unit = true -> 0 < unitMillis unit.
Proof.
  unfold isUnit. intros H.
  repeat (apply orb_prop in H; destruct H as [H | H]);
    apply Ascii.eqb_eq in H; subst unit; reflexivity.
Qed.

Lemma timeClip_valid t d : timeClip t = ValidDate d -> d = t.
Proof.
  unfold timeClip. destruct (Z.abs t <=? maxTime); [| discriminate].
  intros H. injection H as <-. reflexivity.
Qed.

Lemma getTokenExpiry_inv zone s now d :
  getTokenExpiry zone s now = Ok d <->
  exists digits unit,
    isExpiryOf s digits unit /\
    d = timeClip (now + offsetAt zone now + decimalValue digits * unitMillis unit
                  - offsetOfLocal zone
                      (now + offsetAt zone now + decimalValue digits * unitMillis unit)).
Proof.
  unfold getTokenExpiry, matchExpiry, isExpiryOf, decimalValue. split.
  - destruct (matchExpiryFrom s 0 false) as [[value unit] |] eqn:Hm; [| discriminate].
    intros H. injection H as <-.
    apply matchExpiryFrom_sound in Hm.
    destruct Hm as (digits & -> & Hd & Hu & -> & [Hs | Hne]); [discriminate |].
    exists digits, unit. auto.
  - intros (digits & unit & (-> & Hne & Hd & Hu) & ->).
    rewrite (matchExpiryFrom_complete digits unit Hd Hu 0 false (or_intror Hne)).
    reflexivity.
Qed.

(** X1.  Called at a time from 1970 on, [getTokenExpiry] accepts
    exactly the strings made of one or more decimal digits followed by
    one unit letter; every other string, the empty one included, is
    refused with "Invalid expiry format".  For an accepted string it
    moves the wall clock of the server's zone
    forward by that many units and reads the result back as an instant,
    which is an invalid date when it is out of the range of [Date].  In a
    zone whose clocks are never changed the result is the current instant
    plus the span, and a valid result is never before the current
    instant. *)
Theorem getTokenExpiry_accepts_digits_and_unit
  (zone : TimeZone) (s : string) (now : Z) (Hnow : 0 <= now) :
  (forall d, getTokenExpiry zone s now = Ok d <->
     exists digits unit,
       isExpiryOf s digits unit /\
       d = timeClip (now + offsetAt zone now + decimalValue digits * unitMillis unit
                     - offsetOfLocal zone
                         (now + offsetAt zone now
                          + decimalValue digits * unitMillis unit))) /\
  (constantOffset zone ->
   forall d, getTokenExpiry zone s now = Ok d ->
     exists digits unit,
       isExpiryOf s digits unit /\
       d = timeClip (now + decimalValue digits * unitMillis unit) /\
       (now + decimalValue digits * unitMillis unit <= maxTime ->
        d = ValidDate (now + decimalValue digits * unitMillis unit)) /\
       (maxTime < now + decimalValue digits * unitMillis unit -> d = InvalidDate) /\
       forall t, d = ValidDate t -> now <= t) /\
  ((forall digits unit, ~ isExpiryOf s digits unit) ->
   getTokenExpiry zone s now = Throw (Error "Invalid expiry format")).
Proof.
  split; [intros d; apply getTokenExpiry_inv |]. split.
  - intros [offset Hoff] d Hd. apply getTokenExpiry_inv in Hd.
    destruct Hd as (digits & unit & Hexp & ->).
    exists digits, unit. split; [exact Hexp |].
    destruct (Hoff now) as [-> _].
    destruct (Hoff (now + offset + decimalValue digits * unitMillis unit)) as [_ ->].
    replace (now + offset + decimalValue digits * unitMillis unit - offset)
      with (now + decimalValue digits * unitMillis unit) by lia.
    destruct Hexp as (_ & _ & Hdig & Hu).
    pose proof (decimalFrom_nonneg digits Hdig 0 ltac:(lia)) as Hv.
    pose proof (unitMillis_pos unit Hu) as Hm. unfold decimalValue in *.
    assert (Hge : 0 <= decimalFrom digits 0 * unitMillis unit) by nia.
    split; [reflexivity |]. split; [| split].
    + intros Hle. unfold timeClip.
      destruct (Z.leb_spec (Z.abs (now + decimalFrom digits 0 * unitMillis unit)) maxTime);
        [reflexivity | lia].
    + intros Hgt. unfold timeClip.
      destruct (Z.leb_spec (Z.abs (now + decimalFrom digits 0 * unitMillis unit)) maxTime);
        [lia | reflexivity].
    + intros t Ht. apply timeClip_valid in Ht. lia.
  - intros Hnone. destruct (getTokenExpiry zone s now) as [d | e] eqn:Hg.
    + apply getTokenExpiry_inv in Hg. destruct Hg as (digits & unit & Hexp & _).
      exfalso. exact (Hnone digits unit Hexp).
    + unfold getTokenExpiry in Hg.
      destruct (matchExpiry s) as [[v u] |]; [discriminate |].
      injection Hg as <-. reflexivity.
Qed.

(** ** Session pairs ([registerTenant], [loginTenant], [refreshAccessToken]) *)

Lemma timespan_millis expiresIn span :
  timespan expiresIn = Some span ->
  exists value unit,
    matchExpiry expiresIn = Some (value, unit) /\ value * unitMillis unit = 1000 * span.
Proof.
  unfold timespan.
  destruct (matchExpiry expiresIn) as [[value unit] |] eqn:Hm; [| discriminate].
  destruct (_ && _); [| discriminate].
  intros H. injection H as <-. exists value, unit. split; [reflexivity |].
  unfold matchExpiry in Hm. apply matchExpiryFrom_sound in Hm.
  destruct Hm as (digits & _ & _ & Hu & _ & _).
  assert (Hdiv : exists k, unitMillis unit = 1000 * k).
  { unfold isUnit in Hu.
    repeat (apply orb_prop in Hu; destruct Hu as [Hu | Hu]);
      apply Ascii.eqb_eq in Hu; subst unit;
      [exists 1 | exists 60 | exists 3600 | exists 86400]; reflexivity. }
  destruct Hdiv as [k ->].
  replace (value * (1000 * k)) with (value * k * 1000) by lia.
  rewrite Z.div_mul by lia. lia.
Qed.

(** Where the clocks are never changed, the expiry of the row is the
    instant of issue plus the span of the token. *)
Lemma expiry_millis_of_timespan zone expiresIn span now :
  constantOffset zone ->
  timespan expiresIn = Some span ->
  getTokenExpiry zone expiresIn now = Ok (timeClip (now + 1000 * span)).
Proof.
  intros [offset Hoff] Hs. apply timespan_millis in Hs.
  destruct Hs as (value & unit & Hm & Hv).
  unfold getTokenExpiry. rewrite Hm. cbv zeta.
  destruct (Hoff now) as [-> _].
  destruct (Hoff (now + offset + value * unitMillis unit)) as [_ ->].
  do 2 f_equal. lia.
Qed.

Lemma expiresAt_of_timespan zone expiresIn span now expiresAt :
  constantOffset zone ->
  timespan expiresIn = Some span ->
  getTokenExpiry zone expiresIn now = Ok (ValidDate expiresAt) ->
  expiresAt = now + 1000 * span.
Proof.
  intros Hz Hs Hg. rewrite (expiry_millis_of_timespan zone _ _ now Hz Hs) in Hg.
  injection Hg as Hg. apply timeClip_valid in Hg. exact Hg.
Qed.

(** A token that has not expired in seconds has not in milliseconds. *)
Lemma seconds_before later issued span :
  later / 1000 < issued / 1000 + span -> later < issued + 1000 * span.
Proof.
  intros Hlt.
  pose proof (Z.mul_div_le issued 1000 ltac:(lia)).
  pose proof (Z.mod_pos_bound later 1000 ltac:(lia)).
  pose proof (Z.div_mod later 1000 ltac:(lia)). lia.
Qed.

(** A successful [openSession], spelled out. *)
Lemma openSession_Ok_inv config env t s resp s' :
  openSession config env t s = (Ok resp, s') ->
  exists expa expr expiresAt,
    isEmpty (accessSecret config) = false /\
    (forall span, timespan (accessExpiry config) = Some span ->
                  expa = now env / 1000 + span) /\
    isEmpty (refreshSecret config) = false /\
    (forall span, timespan (refreshExpiry config) = Some span ->
                  expr = now env / 1000 + span) /\
    getTokenExpiry (zone env) (refreshExpiry config) (now env)
      = Ok (ValidDate expiresAt) /\
    resp = LoginResponse.mk (withoutPassword t)
             (JwtText (mkClaims (AccessP (AccessTokenPayload.mk (Tenant.id t)
                                            (Tenant.username t)
                                            (planTypeName (Tenant.planType t))))
                                (now env / 1000) expa)
                      (accessSecret config))
             (JwtText (mkClaims (RefreshP (RefreshTokenPayload.mk (Tenant.id t)
                                             (randomUUID env)))
                                (now env / 1000) expr)
                      (refreshSecret config)) /\
    s' = withRefreshTokens s
           (refreshTokens s ++
            [RefreshToken.mk (newId env RefreshTokenCreate) (Tenant.id t)
               (hashToken (LoginResponse.refreshToken resp))
               expiresAt (now env) false])%list.
Proof.
  unfold openSession, bind, lift, ret, throw, generateAccessToken, generateRefreshToken.
  destruct (jwt_sign _ (AccessP _) _ _ _) as [accessToken | e] eqn:Ea; [| discriminate].
  destruct (jwt_sign _ (RefreshP _) _ _ _) as [refreshToken | e] eqn:Er; [| discriminate].
  apply jwt_sign_inv in Ea. destruct Ea as (expa & Hka & -> & Hsa).
  apply jwt_sign_inv in Er. destruct Er as (expr & Hkr & -> & Hsr).
  destruct (getTokenExpiry (zone env) (refreshExpiry config) (now env))
    as [[expiresAt |] | e] eqn:Ex; [| discriminate | discriminate].
  destruct (refreshToken_create env (Tenant.id t) _ _ s) as [r s1] eqn:Ec.
  apply refreshToken_create_inv in Ec.
  destruct Ec as [[-> ->] | (_ & -> & ->)]; intros Hq; [discriminate |].
  injection Hq as <- <-. exists expa, expr, expiresAt. repeat split; assumption.
Qed.

(** Every session pair comes out of [openSession], run for a tenant that
    the store holds afterwards. *)
Lemma runSessionOp_Ok_inv config env op s resp s' :
  runSessionOp config env op s = (Ok (Some resp), s') ->
  exists t s0,
    openSession config env t s0 = (Ok resp, s') /\
    In t (tenants s0) /\
    match op with
    | Register input =>
        Tenant.username t = in_username input /\
        Tenant.password t = hashPassword env (in_password input)
    | Login username password =>
        Tenant.username t = username /\
        comparePassword env password (Tenant.password t) = true /\
        s0 = s
    | Refresh _ => True
    | Logout _ _ => False
    end.
Proof.
  destruct op as [input | username password | tok | tid tok];
    unfold runSessionOp, bind, ret.
  - unfold registerTenant, tryCatch, bind, tenant_findUnique_username,
      tenant_findUnique_gst, query.
    destruct (dbFails env TenantFindUnique).
    { rewrite rethrowAs_run. discriminate. }
    destruct (find _ (tenants s)).
    { unfold throw. rewrite rethrowAs_run. discriminate. }
    destruct (find _ (tenants s)).
    { unfold throw. rewrite rethrowAs_run. discriminate. }
    unfold tenant_create.
    destruct (dbFails env TenantCreate).
    { rewrite rethrowAs_run. discriminate. }
    destruct (existsb _ (tenants s)).
    { rewrite rethrowAs_run. discriminate. }
    match goal with
    | |- context [openSession config env ?t ?s0] =>
        destruct (openSession config env t s0) as [[r | e] s2] eqn:Eo
    end.
    + intros Hq. injection Hq as <- <-. eexists. eexists.
      split; [exact Eo |]. simpl. split; [| split; reflexivity].
      apply in_or_app. right. left. reflexivity.
    + rewrite rethrowAs_run. discriminate.
  - unfold loginTenant, tryCatch, bind, tenant_findUnique_username, query.
    destruct (dbFails env TenantFindUnique).
    { rewrite rethrowAs_run. discriminate. }
    destruct (find _ (tenants s)) as [t |] eqn:Hf.
    2:{ unfold throw. rewrite rethrowAs_run. discriminate. }
    destruct (comparePassword env password (Tenant.password t)) eqn:Hp; simpl.
    2:{ discriminate. }
    destruct (openSession config env t s) as [[r | e] s2] eqn:Eo.
    + intros Hq. injection Hq as <- <-. exists t, s.
      apply find_some in Hf. destruct Hf as [Hin Hu]. apply String.eqb_eq in Hu.
      auto.
    + rewrite rethrowAs_run. discriminate.
  - unfold refreshAccessToken, tryCatch, bind, lift.
    destruct (verifyRefreshToken config tok (now env)) as [payload | e0].
    2:{ rewrite rethrowAs_run. discriminate. }
    destruct (validateStoredToken env tok payload s) as [rv s1] eqn:Ev.
    apply validateStoredToken_inv in Ev. destruct Ev as [-> Hst].
    destruct rv as [st | e1].
    2:{ rewrite rethrowAs_run. discriminate. }
    destruct (Hst st eq_refl) as (_ & _ & _ & _ & Hten).
    destruct (refreshToken_update_revoke env (RefreshToken.id (row st)) s)
      as [ru s2] eqn:Eu.
    apply refreshToken_update_revoke_inv in Eu.
    destruct Eu as [[-> ->] | (_ & -> & ->)].
    { rewrite rethrowAs_run. discriminate. }
    destruct (tenant st) as [t |].
    2:{ unfold throw. rewrite rethrowAs_run. discriminate. }
    destruct (openSession config env t _) as [[r | e] s3] eqn:Eo.
    + intros Hq. injection Hq as <- <-. eexists. eexists.
      split; [exact Eo |]. split; [| exact I].
      simpl. symmetry in Hten. apply find_some in Hten. apply Hten.
    + rewrite rethrowAs_run. discriminate.
  - destruct (logoutTenant env tid tok s) as [[[] | e] s1]; discriminate.
Qed.


(** What the refresh verifier hands back for a token under its key. *)
Lemma minted_refresh_token_verifies config c later payload :
  verifyRefreshToken config (JwtText c (refreshSecret config)) later = Ok payload ->
  payload = c /\ later / 1000 < exp c.
Proof.
  unfold verifyRefreshToken, jwt_verify.
  destruct (isEmpty (refreshSecret config)); [discriminate |].
  rewrite String.eqb_refl. cbn [negb].
  destruct (Z.leb_spec (exp c) (later / 1000)) as [| Hlt]; [discriminate |].
  cbn [orThrow]. intros Hq. injection Hq as <-. split; [reflexivity | assumption].
Qed.

(** X2.  Where the clocks of the server's zone are never changed (and
    read a time from 1970 on) and the refresh expiry is a span that the
    token library and [getTokenExpiry] read alike, the row stored for a
    session pair expires at the instant of issue plus the span and
    outlives the token:
    whenever the refresh token handed out by registration, login or
    refresh still verifies, its row is in the store, unrevoked at
    creation, not yet expired, and owned by the tenant named in the
    token. *)
Theorem session_row_outlives_token
  (config : Config) (env : Env) (op : SessionOp) (s : Store)
  (resp : LoginResponse.t) (s' : Store) (sr : Z)
  (Hzone : constantOffset (zone env))
  (Hnow : 0 <= now env)
  (Hsr : timespan (refreshExpiry config) = Some sr)
  (Hrun : runSessionOp config env op s = (Ok (Some resp), s')) :
  exists created,
    In created (refreshTokens s') /\
    RefreshToken.tokenHash created = hashToken (LoginResponse.refreshToken resp) /\
    RefreshToken.isRevoked created = false /\
    RefreshToken.expiresAt created = now env + 1000 * sr /\
    forall later payload,
      verifyRefreshToken config (LoginResponse.refreshToken resp) later = Ok payload ->
      later < RefreshToken.expiresAt created /\
      RefreshToken.tenantId created = Payload.tenantId payload.
Proof.
  apply runSessionOp_Ok_inv in Hrun. destruct Hrun as (t & s0 & Hopen & _ & _).
  apply openSession_Ok_inv in Hopen.
  destruct Hopen as (expa & expr & expiresAt & _ & _ & Hkr & Hexpr & Hdate & -> & ->).
  rewrite (Hexpr sr Hsr).
  rewrite (expiresAt_of_timespan _ _ _ _ _ Hzone Hsr Hdate).
  eexists. split; [simpl; apply in_or_app; right; left; reflexivity |].
  split; [reflexivity |]. split; [reflexivity |]. split; [reflexivity |].
  intros later payload Hv. cbn [LoginResponse.refreshToken] in Hv.
  apply minted_refresh_token_verifies in Hv. destruct Hv as [-> Hlt].
  cbn [exp] in Hlt. split; [| reflexivity].
  cbn [RefreshToken.expiresAt]. apply seconds_before. exact Hlt.
Qed.

(** X3.  The session pair handed out for a tenant identifies that tenant:
    the answer carries the tenant without its password, the access token
    verifies to an object with the tenant's id, username and plan, and
    the refresh token to one with the tenant's id and the fresh token id,
    each stamped with the second of issue and each until its own expiry
    (the second of issue plus the span, for an expiry setting of the form
    digits and unit). *)
Theorem session_pair_identifies_tenant
  (config : Config) (env : Env) (op : SessionOp) (s : Store)
  (resp : LoginResponse.t) (s' : Store)
  (Hrun : runSessionOp config env op s = (Ok (Some resp), s')) :
  exists t expa expr,
    In t (tenants s') /\
    LoginResponse.tenant resp = withoutPassword t /\
    (forall sa, timespan (accessExpiry config) = Some sa -> expa = now env / 1000 + sa) /\
    (forall sr, timespan (refreshExpiry config) = Some sr -> expr = now env / 1000 + sr) /\
    (forall later, later / 1000 < expa ->
       verifyAccessToken config (LoginResponse.accessToken resp) later
       = Ok (mkClaims
               (AccessP (AccessTokenPayload.mk (Tenant.id t) (Tenant.username t)
                           (planTypeName (Tenant.planType t))))
               (now env / 1000) expa)) /\
    (forall later, later / 1000 < expr ->
       verifyRefreshToken config (LoginResponse.refreshToken resp) later
       = Ok (mkClaims (RefreshP (RefreshTokenPayload.mk (Tenant.id t) (randomUUID env)))
                      (now env / 1000) expr)) /\
    match op with
    | Register input => Tenant.username t = in_username input
    | Login username _ => Tenant.username t = username
    | _ => True
    end.
Proof.
  apply runSessionOp_Ok_inv in Hrun. destruct Hrun as (t & s0 & Hopen & Hin & Hop).
  apply openSession_Ok_inv in Hopen.
  destruct Hopen as (expa & expr & expiresAt & Hka & Hsa & Hkr & Hsr & _ & -> & ->).
  exists t, expa, expr. simpl.
  split; [assumption |]. split; [reflexivity |].
  split; [assumption |]. split; [assumption |]. split; [| split].
  - intros later Hlt. unfold verifyAccessToken.
    rewrite (jwt_verify_same_key (mkClaims _ _ _) _ later Hka Hlt). reflexivity.
  - intros later Hlt. unfold verifyRefreshToken.
    rewrite (jwt_verify_same_key (mkClaims _ _ _) _ later Hkr Hlt). reflexivity.
  - destruct op; try exact I; destruct Hop as [Hu _]; exact Hu.
Qed.

(** ** Revocation ([refreshAccessToken], [logoutTenant]) *)

Lemma find_app_Some {A} (f : A -> bool) (l l' : list A) (x : A) :
  find f l = Some x -> find f (l ++ l') = Some x.
Proof.
  induction l as [| a l IH]; [discriminate |].
  simpl. destruct (f a); [auto | exact IH].
Qed.

Lemma evolves_refl rows : evolves rows rows.
Proof.
  exists (fun r => r), []. rewrite map_id, app_nil_r. auto.
Qed.

Lemma evolves_trans a b c : evolves a b -> evolves b c -> evolves a c.
Proof.
  intros (g1 & e1 & -> & H1) (g2 & e2 & -> & H2).
  exists (fun r => g2 (g1 r)), (map g2 e1 ++ e2)%list.
  rewrite map_app, map_map, app_assoc. split; [reflexivity |].
  intros r. destruct (H1 r) as [Ha Hb]. destruct (H2 (g1 r)) as [Hc Hd].
  split; [congruence | auto].
Qed.

Lemma evolves_snoc rows r : evolves rows (rows ++ [r]).
Proof. exists (fun x => x), [r]. rewrite map_id. auto. Qed.

Lemma evolves_revokeIf (p : RefreshToken.t -> bool) rows :
  evolves rows (map (fun r => if p r then RefreshToken.revoke r else r) rows).
Proof.
  exists (fun r => if p r then RefreshToken.revoke r else r), [].
  rewrite app_nil_r. split; [reflexivity |].
  intros r. destruct (p r); auto.
Qed.

Lemma find_hash_evolves (h : Text) rows rows' r :
  evolves rows rows' ->
  find (fun x => Text_eqb (RefreshToken.tokenHash x) h) rows = Some r ->
  exists r',
    find (fun x => Text_eqb (RefreshToken.tokenHash x) h) rows' = Some r' /\
    (RefreshToken.isRevoked r = true -> RefreshToken.isRevoked r' = true).
Proof.
  intros (g & extra & -> & Hg) Hfind.
  exists (g r). split; [| apply Hg].
  induction rows as [| x rows IH]; [discriminate |].
  simpl in *. destruct (Hg x) as [Hh _]. rewrite Hh.
  destruct (Text_eqb (RefreshToken.tokenHash x) h).
  - injection Hfind as ->. reflexivity.
  - apply IH. assumption.
Qed.

Lemma presentedRevoked_evolves tok s s' :
  evolves (refreshTokens s) (refreshTokens s') ->
  presentedRevoked tok s -> presentedRevoked tok s'.
Proof.
  intros Hev (r & Hfind & Hrev). unfold sessionOf in Hfind.
  destruct (find_hash_evolves _ _ _ _ Hev Hfind) as (r' & Hf' & Hr').
  exists r'. split; [exact Hf' | auto].
Qed.

Lemma openSession_evolves config env t s :
  evolves (refreshTokens s) (refreshTokens (snd (openSession config env t s))).
Proof.
  destruct (openSession config env t s) as [res s'] eqn:Ho.
  apply openSession_inv in Ho.
  destruct Ho as [[-> _] | (resp & created & _ & -> & _)]; simpl.
  - apply evolves_refl.
  - apply evolves_snoc.
Qed.

Lemma runSessionOp_evolves config env op s :
  evolves (refreshTokens s) (refreshTokens (snd (runSessionOp config env op s))).
Proof.
  destruct op as [input | username password | tok | tid tok];
    unfold runSessionOp, bind, ret.
  - unfold registerTenant, tryCatch, bind, tenant_findUnique_username,
      tenant_findUnique_gst, query.
    destruct (dbFails env TenantFindUnique).
    { rewrite rethrowAs_run. apply evolves_refl. }
    destruct (find _ (tenants s)).
    { unfold throw. rewrite rethrowAs_run. apply evolves_refl. }
    destruct (find _ (tenants s)).
    { unfold throw. rewrite rethrowAs_run. apply evolves_refl. }
    unfold tenant_create.
    destruct (dbFails env TenantCreate).
    { rewrite rethrowAs_run. apply evolves_refl. }
    destruct (existsb _ (tenants s)).
    { rewrite rethrowAs_run. apply evolves_refl. }
    match goal with
    | |- context [openSession config env ?t ?s0] =>
        pose proof (openSession_evolves config env t s0) as Hev;
        destruct (openSession config env t s0) as [[r | e] s2]
    end.
    + exact Hev.
    + rewrite rethrowAs_run. exact Hev.
  - unfold loginTenant, tryCatch, bind, tenant_findUnique_username, query.
    destruct (dbFails env TenantFindUnique).
    { rewrite rethrowAs_run. apply evolves_refl. }
    destruct (find _ (tenants s)) as [t |].
    2:{ unfold throw. rewrite rethrowAs_run. apply evolves_refl. }
    destruct (comparePassword env password (Tenant.password t)); simpl.
    2:{ apply evolves_refl. }
    pose proof (openSession_evolves config env t s) as Hev.
    destruct (openSession config env t s) as [[r | e] s2].
    + exact Hev.
    + rewrite rethrowAs_run. exact Hev.
  - unfold refreshAccessToken, tryCatch, bind, lift.
    destruct (verifyRefreshToken config tok (now env)) as [payload | e0].
    2:{ rewrite rethrowAs_run. apply evolves_refl. }
    destruct (validateStoredToken env tok payload s) as [rv s1] eqn:Ev.
    apply validateStoredToken_inv in Ev. destruct Ev as [-> _].
    destruct rv as [st | e1].
    2:{ rewrite rethrowAs_run. apply evolves_refl. }
    destruct (refreshToken_update_revoke env (RefreshToken.id (row st)) s)
      as [ru s2] eqn:Eu.
    apply refreshToken_update_revoke_inv in Eu.
    destruct Eu as [[-> ->] | (_ & -> & ->)].
    { rewrite rethrowAs_run. apply evolves_refl. }
    assert (Hrev : evolves (refreshTokens s)
                     (revokeById (RefreshToken.id (row st)) (refreshTokens s))).
    { apply (evolves_revokeIf
               (fun r => String.eqb (RefreshToken.id r) (RefreshToken.id (row st)))). }
    destruct (tenant st) as [t |].
    2:{ unfold throw. rewrite rethrowAs_run. exact Hrev. }
    match goal with
    | |- context [openSession config env ?t ?s0] =>
        pose proof (openSession_evolves config env t s0) as Hev;
        destruct (openSession config env t s0) as [[r | e] s3]
    end.
    + exact (evolves_trans _ _ _ Hrev Hev).
    + rewrite rethrowAs_run. exact (evolves_trans _ _ _ Hrev Hev).
  - unfold logoutTenant, tryCatch, refreshToken_updateMany_revoke.
    destruct (dbFails env RefreshTokenUpdateMany); simpl.
    + apply evolves_refl.
    + apply (evolves_revokeIf
               (fun r => String.eqb (RefreshToken.tenantId r) tid
                         && Text_eqb (RefreshToken.tokenHash r) (hashToken tok))).
Qed.

Lemma runSessionOps_evolves config calls :
  forall s, evolves (refreshTokens s) (refreshTokens (runSessionOps config calls s)).
Proof.
  induction calls as [| [env op] rest IH]; intros s; simpl.
  - apply evolves_refl.
  - eapply evolves_trans; [apply runSessionOp_evolves | apply IH].
Qed.

(** A token whose row is revoked is refused, and the refusal writes nothing. *)
Lemma revoked_token_refused config env tok s :
  presentedRevoked tok s ->
  isOk (fst (refreshAccessToken config env tok s)) = false /\
  snd (refreshAccessToken config env tok s) = s /\
  (isOk (verifyRefreshToken config tok (now env)) = true ->
   dbFails env RefreshTokenFindUnique = false ->
   fst (refreshAccessToken config env tok s)
   = Throw (AppError "Invalid or revoked refresh token" 401)).
Proof.
  intros (r & Hfind & Hrev).
  unfold refreshAccessToken, tryCatch, bind, lift.
  destruct (verifyRefreshToken config tok (now env)) as [payload | e0].
  2:{ rewrite rethrowAs_run. simpl. repeat split. discriminate. }
  unfold validateStoredToken, refreshToken_findUnique, query, bind, lift.
  destruct (dbFails env RefreshTokenFindUnique).
  { rewrite rethrowAs_run. simpl. repeat split. discriminate. }
  unfold sessionOf in Hfind. rewrite Hfind. simpl. rewrite Hrev. simpl.
  repeat split.
Qed.

(** X4.  Rotation is one-way: once a refresh token has been exchanged,
    every later exchange of the same token fails and writes nothing,
    whatever registrations, logins, refreshes and logouts happened in
    between; while the token still verifies and the lookup does not fail,
    the answer is "Invalid or revoked refresh token" (401). *)
Theorem exchanged_token_is_refused_afterwards
  (config : Config) (env1 : Env) (refreshToken : Text) (s : Store)
  (resp : LoginResponse.t)
  (Hok : fst (refreshAccessToken config env1 refreshToken s) = Ok resp) :
  forall calls env2,
    let s2 := runSessionOps config calls
                (snd (refreshAccessToken config env1 refreshToken s)) in
    isOk (fst (refreshAccessToken config env2 refreshToken s2)) = false /\
    snd (refreshAccessToken config env2 refreshToken s2) = s2 /\
    (isOk (verifyRefreshToken config refreshToken (now env2)) = true ->
     dbFails env2 RefreshTokenFindUnique = false ->
     fst (refreshAccessToken config env2 refreshToken s2)
     = Throw (AppError "Invalid or revoked refresh token" 401)).
Proof.
  intros calls env2 s2. apply revoked_token_refused.
  apply (presentedRevoked_evolves refreshToken
           (snd (refreshAccessToken config env1 refreshToken s)));
    [apply runSessionOps_evolves |].
  destruct (proj1 (refresh_rotation_cases config env1 refreshToken s) resp Hok)
    as (presented & created & Hfind & _ & Hs' & _).
  rewrite Hs'. unfold presentedRevoked, sessionOf in *. simpl.
  exists (RefreshToken.revoke presented). split; [| reflexivity].
  apply find_app_Some. clear Hs'. unfold revokeById.
  induction (refreshTokens s) as [| x rows IH]; [discriminate |].
  simpl in *.
  destruct (String.eqb_spec (RefreshToken.id x) (RefreshToken.id presented)) as [He | Hne].
  - simpl. destruct (Text_eqb (RefreshToken.tokenHash x) (hashToken refreshToken)).
    + injection Hfind as ->. reflexivity.
    + apply IH. assumption.
  - destruct (Text_eqb (RefreshToken.tokenHash x) (hashToken refreshToken)).
    + injection Hfind as ->. contradiction.
    + apply IH. assumption.
Qed.

Lemma logoutTenant_run env tenantId refreshToken s :
  logoutTenant env tenantId refreshToken s =
  if dbFails env RefreshTokenUpdateMany
  then (Throw (AppError "Failed to logout" 500), s)
  else (Ok tt,
        withRefreshTokens s
          (map (fun r => if String.eqb (RefreshToken.tenantId r) tenantId
                            && Text_eqb (RefreshToken.tokenHash r) (hashToken refreshToken)
                         then RefreshToken.revoke r else r)
               (refreshTokens s))).
Proof.
  unfold logoutTenant, tryCatch, refreshToken_updateMany_revoke.
  destruct (dbFails env RefreshTokenUpdateMany); reflexivity.
Qed.

Lemma Text_eqb_eq a b : Text_eqb a b = true <-> a = b.
Proof.
  unfold Text_eqb. destruct (Text_eq_dec a b); split; intros; auto; discriminate.
Qed.

(** X5.  Logout ends the session: when the tenant that owns the row of a
    refresh token logs out with it and the update goes through, logout
    answers normally, and from then on every exchange of that token fails
    and writes nothing, whatever session operations happen in between. *)
Theorem logout_ends_session
  (config : Config) (env1 : Env) (tenantId : string) (refreshToken : Text)
  (s : Store) (r : RefreshToken.t)
  (Hfound : sessionOf refreshToken s = Some r)
  (Hown : RefreshToken.tenantId r = tenantId)
  (Hdb : dbFails env1 RefreshTokenUpdateMany = false) :
  fst (logoutTenant env1 tenantId refreshToken s) = Ok tt /\
  forall calls env2,
    let s2 := runSessionOps config calls
                (snd (logoutTenant env1 tenantId refreshToken s)) in
    isOk (fst (refreshAccessToken config env2 refreshToken s2)) = false /\
    snd (refreshAccessToken config env2 refreshToken s2) = s2 /\
    (isOk (verifyRefreshToken config refreshToken (now env2)) = true ->
     dbFails env2 RefreshTokenFindUnique = false ->
     fst (refreshAccessToken config env2 refreshToken s2)
     = Throw (AppError "Invalid or revoked refresh token" 401)).
Proof.
  rewrite logoutTenant_run, Hdb. split; [reflexivity |].
  intros calls env2 s2. apply revoked_token_refused.
  apply (presentedRevoked_evolves refreshToken
           (snd (Ok tt,
                 withRefreshTokens s
                   (map (fun x => if String.eqb (RefreshToken.tenantId x) tenantId
                                     && Text_eqb (RefreshToken.tokenHash x)
                                                 (hashToken refreshToken)
                                  then RefreshToken.revoke x else x)
                        (refreshTokens s)))));
    [apply runSessionOps_evolves |].
  exists (RefreshToken.revoke r). split; [| reflexivity].
  unfold sessionOf in *. simpl.
  induction (refreshTokens s) as [| x rows IH]; [discriminate |].
  simpl in *.
  destruct (Text_eqb (RefreshToken.tokenHash x) (hashToken refreshToken)) eqn:Eh.
  - injection Hfound as ->. rewrite Hown, String.eqb_refl. simpl. rewrite Eh.
    reflexivity.
  - rewrite andb_false_r. rewrite Eh. apply IH. assumption.
Qed.

(** X6.  Logout touches only rows of the named tenant that hold the hash
    of the given token: when no row is both, the store is left exactly as
    it was, and logout still answers normally unless the round trip fails,
    in which case it throws "Failed to logout" (500). *)
Theorem logout_without_matching_session_changes_nothing
  (env : Env) (tenantId : string) (refreshToken : Text) (s : Store)
  (Hnone : forall r, In r (refreshTokens s) ->
                     RefreshToken.tenantId r = tenantId ->
                     RefreshToken.tokenHash r <> hashToken refreshToken) :
  snd (logoutTenant env tenantId refreshToken s) = s /\
  fst (logoutTenant env tenantId refreshToken s)
  = if dbFails env RefreshTokenUpdateMany
    then Throw (AppError "Failed to logout" 500) else Ok tt.
Proof.
  rewrite logoutTenant_run.
  destruct (dbFails env RefreshTokenUpdateMany); [auto |].
  simpl. split; [| reflexivity].
  replace (map _ (refreshTokens s)) with (refreshTokens s);
    [destruct s; reflexivity |].
  rewrite <- (map_id (refreshTokens s)) at 1.
  apply map_ext_in. intros r Hin.
  destruct (String.eqb_spec (RefreshToken.tenantId r) tenantId) as [Ht | _];
    [| reflexivity].
  destruct (Text_eqb (RefreshToken.tokenHash r) (hashToken refreshToken)) eqn:Eh;
    [| reflexivity].
  apply Text_eqb_eq in Eh. exfalso. exact (Hnone r Hin Ht Eh).
Qed.

(** ** Registration and login ([registerTenant], [loginTenant]) *)

Lemma registerTenant_taken_username config env input s t :
  dbFails env TenantFindUnique = false ->
  In t (tenants s) -> Tenant.username t = in_username input ->
  registerTenant config env input s
  = (Throw (AppError "Username already exists" 409), s).
Proof.
  intros Hdb Hin Hu.
  destruct (find_Some_of_In
              (fun x => String.eqb (Tenant.username x) (in_username input))
              (tenants s) t Hin) as [b Hb].
  { apply String.eqb_eq. assumption. }
  unfold registerTenant, tryCatch, bind, tenant_findUnique_username, query.
  rewrite Hdb, Hb. reflexivity.
Qed.

(** X7.  Registration refuses a taken username with "Username already
    exists" (409) and, for a free username, a taken GST number with "GST
    number already registered" (409); in both cases nothing is written. *)
Theorem registration_refuses_duplicates
  (config : Config) (env : Env) (input : RegisterTenantInput) (s : Store)
  (Hdb : dbFails env TenantFindUnique = false) :
  (forall t, In t (tenants s) -> Tenant.username t = in_username input ->
     registerTenant config env input s
     = (Throw (AppError "Username already exists" 409), s)) /\
  ((forall t, In t (tenants s) -> Tenant.username t <> in_username input) ->
   forall t, In t (tenants s) -> Tenant.gst t = in_gst input ->
     registerTenant config env input s
     = (Throw (AppError "GST number already registered" 409), s)).
Proof.
  split.
  - intros t Hin Hu. exact (registerTenant_taken_username _ _ _ _ t Hdb Hin Hu).
  - intros Hfree t Hin Hg.
    assert (Hnone : find (fun x => String.eqb (Tenant.username x) (in_username input))
                         (tenants s) = None).
    { destruct (find _ (tenants s)) as [b |] eqn:Hb; [| reflexivity].
      apply find_some in Hb. destruct Hb as [Hbin Hbu]. apply String.eqb_eq in Hbu.
      exfalso. exact (Hfree b Hbin Hbu). }
    destruct (find_Some_of_In
                (fun x => String.eqb (Tenant.gst x) (in_gst input))
                (tenants s) t Hin) as [b Hb].
    { apply String.eqb_eq. assumption. }
    unfold registerTenant, tryCatch, bind, tenant_findUnique_username,
      tenant_findUnique_gst, query.
    rewrite Hdb, Hnone, Hb. reflexivity.
Qed.

(** X8.  Registration is not undone when it fails late: a failed
    registration has either written nothing, or it has inserted the tenant
    row and then failed to open the session; it then reports "Failed to
    register tenant" (500), no session row exists, and a retry with the
    same input is refused with "Username already exists". *)
Theorem failed_registration_may_leave_tenant
  (config : Config) (env : Env) (input : RegisterTenantInput) (s : Store) (e : Exn)
  (Hfail : fst (registerTenant config env input s) = Throw e) :
  let s' := snd (registerTenant config env input s) in
  s' = s \/
  (e = AppError "Failed to register tenant" 500 /\
   exists t,
     s' = withTenants s (tenants s ++ [t])%list /\
     Tenant.username t = in_username input /\
     Tenant.gst t = in_gst input /\
     Tenant.password t = hashPassword env (in_password input) /\
     forall env2, dbFails env2 TenantFindUnique = false ->
       registerTenant config env2 input s'
       = (Throw (AppError "Username already exists" 409), s')).
Proof.
  intros s'. subst s'.
  destruct (registerTenant config env input s) as [res s1] eqn:Hrun.
  simpl in Hfail |- *. subst res. revert Hrun.
  unfold registerTenant at 1.
  unfold tryCatch, bind, tenant_findUnique_username, tenant_findUnique_gst, query.
  destruct (dbFails env TenantFindUnique).
  { rewrite rethrowAs_run. intros Hq. injection Hq as _ <-. auto. }
  destruct (find _ (tenants s)).
  { unfold throw. rewrite rethrowAs_run. intros Hq. injection Hq as _ <-. auto. }
  destruct (find _ (tenants s)).
  { unfold throw. rewrite rethrowAs_run. intros Hq. injection Hq as _ <-. auto. }
  unfold tenant_create.
  destruct (dbFails env TenantCreate).
  { rewrite rethrowAs_run. intros Hq. injection Hq as _ <-. auto. }
  destruct (existsb _ (tenants s)).
  { rewrite rethrowAs_run. intros Hq. injection Hq as _ <-. auto. }
  match goal with
  | |- context [openSession config env ?t ?s0] =>
      destruct (openSession config env t s0) as [ro s2] eqn:Eo
  end.
  apply openSession_inv in Eo.
  destruct Eo as [[-> [msg ->]] | (resp & created & -> & _)].
  - rewrite rethrowAs_run. simpl. intros Hq. injection Hq as <- <-. right.
    split; [reflexivity |]. eexists. split; [reflexivity |].
    simpl. repeat split.
    intros env2 Hdb2.
    refine (registerTenant_taken_username config env2 input _ _ Hdb2 _ _).
    + simpl. apply in_or_app. right. left. reflexivity.
    + reflexivity.
  - intros Hq. discriminate.
Qed.

(** X9.  Login does not tell an unknown username from a wrong password:
    both are refused with the same "Invalid username or password" (401),
    and nothing is written. *)
Theorem login_refusal_is_uniform
  (config : Config) (env : Env) (username password : string) (s : Store)
  (Hdb : dbFails env TenantFindUnique = false)
  (Hbad : find (fun t => String.eqb (Tenant.username t) username) (tenants s) = None \/
          exists t,
            find (fun t => String.eqb (Tenant.username t) username) (tenants s) = Some t /\
            comparePassword env password (Tenant.password t) = false) :
  loginTenant config env username password s
  = (Throw (AppError "Invalid username or password" 401), s).
Proof.
  unfold loginTenant, tryCatch, bind, tenant_findUnique_username, query.
  rewrite Hdb. destruct Hbad as [-> | (t & -> & Hp)].
  - reflexivity.
  - rewrite Hp. reflexivity.
Qed.

(** ** A fresh session can be exchanged *)

Lemma openSession_Ok_unique config env t s resp s' :
  openSession config env t s = (Ok resp, s') ->
  existsb (fun r => String.eqb (RefreshToken.id r) (newId env RefreshTokenCreate)
                    || Text_eqb (RefreshToken.tokenHash r)
                                (hashToken (LoginResponse.refreshToken resp)))
          (refreshTokens s) = false.
Proof.
  unfold openSession, bind, lift, ret, throw.
  destruct (generateAccessToken config _ (now env)) as [accessToken | e]; [| discriminate].
  destruct (generateRefreshToken config _ (now env)) as [refreshToken | e];
    [| discriminate].
  destruct (getTokenExpiry (zone env) (refreshExpiry config) (now env))
    as [[expiresAt |] | e]; [| discriminate | discriminate].
  unfold refreshToken_create.
  destruct (dbFails env RefreshTokenCreate); [discriminate |].
  cbn [RefreshToken.id].
  destruct (existsb _ (refreshTokens s)) eqn:Ex; [discriminate |].
  intros Hq. injection Hq as <- _. exact Ex.
Qed.

Lemma openSession_succeeds config env t s sa sr expiresAt :
  isEmpty (accessSecret config) = false ->
  timespan (accessExpiry config) = Some sa ->
  isEmpty (refreshSecret config) = false ->
  timespan (refreshExpiry config) = Some sr ->
  getTokenExpiry (zone env) (refreshExpiry config) (now env) = Ok (ValidDate expiresAt) ->
  dbFails env RefreshTokenCreate = false ->
  (forall r, In r (refreshTokens s) ->
     RefreshToken.id r <> newId env RefreshTokenCreate /\
     RefreshToken.tokenHash r <>
       hashToken (JwtText (mkClaims (RefreshP (RefreshTokenPayload.mk (Tenant.id t)
                                                 (randomUUID env)))
                                    (now env / 1000) (now env / 1000 + sr))
                          (refreshSecret config))) ->
  exists resp created,
    openSession config env t s
    = (Ok resp, withRefreshTokens s (refreshTokens s ++ [created])%list) /\
    LoginResponse.tenant resp = withoutPassword t /\
    RefreshToken.tokenHash created = hashToken (LoginResponse.refreshToken resp).
Proof.
  intros Hka Hsa Hkr Hsr Hdate Hdb Hfresh.
  unfold openSession, bind, lift, ret, generateAccessToken, generateRefreshToken.
  rewrite (jwt_sign_Ok _ _ _ _ _ sa Hka Hsa), (jwt_sign_Ok _ _ _ _ _ sr Hkr Hsr).
  rewrite Hdate.
  unfold refreshToken_create. rewrite Hdb. cbn [RefreshToken.id Payload.toJson].
  match goal with
  | |- context [existsb ?f (refreshTokens s)] =>
      assert (Hex : existsb f (refreshTokens s) = false)
  end.
  { destruct (existsb _ (refreshTokens s)) eqn:Ex; [| reflexivity].
    apply existsb_exists in Ex. destruct Ex as (r & Hin & Hr).
    destruct (Hfresh r Hin) as [Hid Hh].
    apply orb_prop in Hr. destruct Hr as [Hr | Hr].
    - apply String.eqb_eq in Hr. contradiction.
    - apply Text_eqb_eq in Hr. contradiction. }
  rewrite Hex. eexists. eexists. split; [reflexivity |]. split; reflexivity.
Qed.

Lemma revokeById_In id rows r :
  In r (revokeById id rows) ->
  exists r0, In r0 rows /\ RefreshToken.id r = RefreshToken.id r0 /\
             RefreshToken.tokenHash r = RefreshToken.tokenHash r0.
Proof.
  unfold revokeById. intros Hin. apply in_map_iff in Hin.
  destruct Hin as (r0 & <- & Hin0). exists r0.
  destruct (String.eqb (RefreshToken.id r0) id); auto.
Qed.

(** X10.  A session pair can be exchanged.  Let the expiry settings be
    spans of the form digits and unit that the token library reads, and
    let the clocks of the zone not have changed when the pair was handed
    out, at a time from 1970 on.  Then, while the refresh token handed out by registration, login
    or refresh still verifies, and provided no round trip fails, the
    expiry of the new row is a valid date and the new row's id and the
    new token's hash are not in the table yet, [refreshAccessToken]
    succeeds for the same tenant and stores the hash of the token it
    returns. *)
Theorem fresh_session_can_be_exchanged
  (config : Config) (env1 : Env) (op : SessionOp) (s : Store)
  (resp : LoginResponse.t) (s1 : Store) (env2 : Env) (sa sr expiresAt2 : Z)
  (Hzone : constantOffset (zone env1))
  (Hnow : 0 <= now env1)
  (Hsa : timespan (accessExpiry config) = Some sa)
  (Hsr : timespan (refreshExpiry config) = Some sr)
  (Hrun : runSessionOp config env1 op s = (Ok (Some resp), s1))
  (Hlive : isOk (verifyRefreshToken config (LoginResponse.refreshToken resp) (now env2))
           = true)
  (Hdb : forall o, dbFails env2 o = false)
  (Hdate : getTokenExpiry (zone env2) (refreshExpiry config) (now env2)
           = Ok (ValidDate expiresAt2))
  (Hid : forall r, In r (refreshTokens s1) ->
                   RefreshToken.id r <> newId env2 RefreshTokenCreate)
  (Hnew : forall tok',
      generateRefreshToken config
        (RefreshTokenPayload.mk (TenantWithoutPassword.id (LoginResponse.tenant resp))
                                (randomUUID env2)) (now env2) = Ok tok' ->
      ~ In (hashToken tok') (hashColumn s1)) :
  exists resp2 s2,
    refreshAccessToken config env2 (LoginResponse.refreshToken resp) s1 = (Ok resp2, s2) /\
    TenantWithoutPassword.id (LoginResponse.tenant resp2)
    = TenantWithoutPassword.id (LoginResponse.tenant resp) /\
    hashColumn s2 = (hashColumn s1 ++ [hashToken (LoginResponse.refreshToken resp2)])%list.
Proof.
  apply runSessionOp_Ok_inv in Hrun. destruct Hrun as (t & s0 & Hopen & Hin & _).
  pose proof (openSession_Ok_unique _ _ _ _ _ _ Hopen) as Huniq.
  apply openSession_Ok_inv in Hopen.
  destruct Hopen as (expa & expr & expiresAt & Hka & _ & Hkr & Hexpr & Hdate1 & -> & ->).
  rewrite (Hexpr sr Hsr) in *.
  rewrite (expiresAt_of_timespan _ _ _ _ _ Hzone Hsr Hdate1) in *.
  cbn [LoginResponse.refreshToken LoginResponse.tenant] in *.
  set (tok := JwtText (mkClaims (RefreshP (RefreshTokenPayload.mk (Tenant.id t)
                                              (randomUUID env1)))
                                 (now env1 / 1000) (now env1 / 1000 + sr))
                       (refreshSecret config)) in *.
  set (created := RefreshToken.mk (newId env1 RefreshTokenCreate) (Tenant.id t)
                    (hashToken tok) (now env1 + 1000 * sr) (now env1) false) in *.
  destruct (verifyRefreshToken config tok (now env2)) as [payload | e] eqn:Hv;
    [| discriminate].
  destruct (minted_refresh_token_verifies _ _ _ _ Hv) as [-> Hlt].
  cbn [exp] in Hlt. apply seconds_before in Hlt.
  (* the row found for the token is the one just created *)
  assert (Hnone : find (fun r => Text_eqb (RefreshToken.tokenHash r) (hashToken tok))
                       (refreshTokens s0) = None).
  { destruct (find _ (refreshTokens s0)) as [r |] eqn:Hf; [| reflexivity].
    apply find_some in Hf. destruct Hf as [Hrin Hr].
    assert (Hex : existsb (fun r => String.eqb (RefreshToken.id r)
                                               (newId env1 RefreshTokenCreate)
                                    || Text_eqb (RefreshToken.tokenHash r) (hashToken tok))
                          (refreshTokens s0) = true).
    { apply existsb_exists. exists r. split; [assumption |].
      rewrite Hr. apply orb_true_r. }
    rewrite Hex in Huniq. discriminate. }
  assert (Hself : Text_eqb (hashToken tok) (hashToken tok) = true)
    by (apply Text_eqb_eq; reflexivity).
  destruct (find_Some_of_In (fun x => String.eqb (Tenant.id x) (Tenant.id t))
              (tenants s0) t Hin (String.eqb_refl _)) as [t' Ht'].
  assert (Hid' : Tenant.id t' = Tenant.id t).
  { apply find_some in Ht'. destruct Ht' as [_ Hq]. apply String.eqb_eq. assumption. }
  set (s1 := withRefreshTokens s0 (refreshTokens s0 ++ [created])) in *.
  assert (Hin1 : In created (refreshTokens s1)).
  { simpl. apply in_or_app. right. left. reflexivity. }
  destruct (openSession_succeeds config env2 t'
              (withRefreshTokens s1 (revokeById (RefreshToken.id created) (refreshTokens s1)))
              sa sr expiresAt2 Hka Hsa Hkr Hsr Hdate (Hdb RefreshTokenCreate))
    as (resp2 & created2 & Hopen2 & Hten2 & Hhash2).
  { intros r Hr. cbn [refreshTokens withRefreshTokens] in Hr.
    apply revokeById_In in Hr. destruct Hr as (r0 & Hr0 & Hi & Hh).
    split.
    - rewrite Hi. apply Hid. assumption.
    - rewrite Hh. intros Heq.
      apply (Hnew (JwtText (mkClaims (RefreshP (RefreshTokenPayload.mk (Tenant.id t')
                                                  (randomUUID env2)))
                                     (now env2 / 1000) (now env2 / 1000 + sr))
                           (refreshSecret config))).
      + rewrite Hid'. unfold generateRefreshToken.
        cbn [withoutPassword TenantWithoutPassword.id].
        apply (jwt_sign_Ok _ (RefreshP _)); assumption.
      + rewrite <- Heq. unfold hashColumn. apply in_map. assumption. }
  exists resp2. eexists.
  split; [| split].
  - unfold refreshAccessToken, tryCatch, bind, lift. rewrite Hv.
    unfold validateStoredToken, refreshToken_findUnique, query, bind, lift.
    rewrite (Hdb RefreshTokenFindUnique).
    assert (Hfind : find (fun r => Text_eqb (RefreshToken.tokenHash r) (hashToken tok))
                         (refreshTokens s1) = Some created).
    { simpl. clear - Hnone Hself.
      induction (refreshTokens s0) as [| x rows IH]; simpl in *.
      - rewrite Hself. reflexivity.
      - destruct (Text_eqb (RefreshToken.tokenHash x) (hashToken tok));
          [discriminate | auto]. }
    rewrite Hfind. cbn [checkStoredToken row RefreshToken.isRevoked created
                        RefreshToken.expiresAt RefreshToken.tenantId RefreshToken.id
                        Payload.tenantId RefreshTokenPayload.tenantId tenants
                        withRefreshTokens s1 body].
    destruct (Z.ltb_spec (now env1 + 1000 * sr) (now env2)) as [Hbad | _]; [lia |].
    rewrite String.eqb_refl. cbn [negb tenant orThrow row].
    rewrite (refreshToken_update_revoke_present env2 created s1
               (Hdb RefreshTokenUpdate) Hin1).
    rewrite Ht'. rewrite Hopen2. reflexivity.
  - rewrite Hten2. simpl. assumption.
  - unfold hashColumn at 1. cbn [refreshTokens withRefreshTokens].
    rewrite map_app. cbn [map]. rewrite Hhash2.
    f_equal. apply (hashColumn_revokeById s1).
Qed.

(** ** Location check and redemption ([checkEmployeeLocation], [checkIn]) *)

Lemma checkEmployeeLocation_outside config env input s employee t span :
  isValid (validateCoordinates (lc_latitude input) (lc_longitude input)) = true ->
  dbFails env EmployeeFindUnique = false ->
  find (fun e => String.eqb (Employee.id e) (lc_employeeId input)) (employees s)
  = Some employee ->
  dbFails env TenantFindUnique = false ->
  find (fun x => String.eqb (Tenant.id x) (Employee.tenantId employee)) (tenants s)
  = Some t ->
  isWithinRadius (math env) (lc_latitude input) (lc_longitude input)
                 (Tenant.latitude t) (Tenant.longitude t)
                 (allowedCheckInRadius config) = false ->
  isEmpty (locationSecret config) = false ->
  timespan (locationExpiry config) = Some span ->
  checkEmployeeLocation config env input s
  = (Ok (LocationCheckResponse.mk true (Some (Tenant.id t)) (Some (Tenant.tenantName t))
           (Some (Tenant.address t))
           (Some (JwtText
                    (mkClaims (LocationJson (Tenant.id t) (Employee.id employee)
                                            (jsonNumber (lc_latitude input))
                                            (jsonNumber (lc_longitude input)))
                              (now env / 1000) (now env / 1000 + span))
                    (locationSecret config)))
           "Location verified. You are outside office premises."),
     s).
Proof.
  intros Hvalid Hdb1 Hfe Hdb2 Hft Hout Hk Hs.
  unfold checkEmployeeLocation, tryCatch, bind, lift, getEmployeeById, tryCatch,
    employee_findUnique, tenant_findUnique_id, query.
  rewrite Hvalid. cbn [negb]. rewrite Hdb1, Hfe, Hdb2, Hft, Hout.
  unfold generateLocationToken. rewrite (jwt_sign_Ok _ _ _ _ _ span Hk Hs). reflexivity.
Qed.

Lemma isValidLatitude_false lat :
  PrimFloat.ltb lat (-90)%float = true \/ PrimFloat.ltb 90%float lat = true \/
  PrimFloat.is_nan lat = true ->
  isValidLatitude lat = false.
Proof.
  unfold isValidLatitude. intros [H | [H | H]].
  - rewrite (fltb_leb_false _ _ H). reflexivity.
  - rewrite (fltb_leb_false _ _ H). apply andb_false_r.
  - rewrite (leb_nan_r _ _ H). reflexivity.
Qed.

Lemma isValidLongitude_false lon :
  PrimFloat.ltb lon (-180)%float = true \/ PrimFloat.ltb 180%float lon = true \/
  PrimFloat.is_nan lon = true ->
  isValidLongitude lon = false.
Proof.
  unfold isValidLongitude. intros [H | [H | H]].
  - rewrite (fltb_leb_false _ _ H). reflexivity.
  - rewrite (fltb_leb_false _ _ H). apply andb_false_r.
  - rewrite (leb_nan_r _ _ H). reflexivity.
Qed.

(** X11.  The location check never writes, and it refuses coordinates out
    of range (below, above, or not a number) with the message of
    [validateCoordinates] (400) before it looks anything up, so also when
    the database is down; latitude is reported before longitude.  With
    valid coordinates and working lookups, an unknown employee is answered
    "Employee not found" (404). *)
Theorem location_check_reads_only_and_validates_first
  (config : Config) (env : Env) (input : LocationCheckInput) (s : Store) :
  snd (checkEmployeeLocation config env input s) = s /\
  (PrimFloat.ltb (lc_latitude input) (-90)%float = true \/
   PrimFloat.ltb 90%float (lc_latitude input) = true \/
   PrimFloat.is_nan (lc_latitude input) = true ->
   fst (checkEmployeeLocation config env input s)
   = Throw (AppError "Invalid latitude. Must be between -90 and 90" 400)) /\
  (PrimFloat.leb (-90)%float (lc_latitude input) = true /\
   PrimFloat.leb (lc_latitude input) 90%float = true ->
   PrimFloat.ltb (lc_longitude input) (-180)%float = true \/
   PrimFloat.ltb 180%float (lc_longitude input) = true \/
   PrimFloat.is_nan (lc_longitude input) = true ->
   fst (checkEmployeeLocation config env input s)
   = Throw (AppError "Invalid longitude. Must be between -180 and 180" 400)) /\
  (isValid (validateCoordinates (lc_latitude input) (lc_longitude input)) = true ->
   dbFails env EmployeeFindUnique = false ->
   find (fun e => String.eqb (Employee.id e) (lc_employeeId input)) (employees s) = None ->
   fst (checkEmployeeLocation config env input s)
   = Throw (AppError "Employee not found" 404)).
Proof.
  split; [| split; [| split]].
  - unfold checkEmployeeLocation, tryCatch, bind, lift, getEmployeeById, tryCatch,
      employee_findUnique, tenant_findUnique_id, query.
    destruct (isValid _); cbn [negb].
    2:{ unfold throw. rewrite rethrowAs_run. reflexivity. }
    destruct (dbFails env EmployeeFindUnique).
    { unfold throw. rewrite rethrowAs_run. reflexivity. }
    destruct (find _ (employees s)) as [employee |].
    2:{ unfold throw. rewrite rethrowAs_run. reflexivity. }
    destruct (dbFails env TenantFindUnique).
    { rewrite rethrowAs_run. reflexivity. }
    destruct (find _ (tenants s)) as [t |].
    2:{ unfold throw. rewrite rethrowAs_run. reflexivity. }
    destruct (isWithinRadius _ _ _ _ _ _); [reflexivity |].
    destruct (generateLocationToken config _ (now env)); [reflexivity |].
    rewrite rethrowAs_run. reflexivity.
  - intros Hlat.
    unfold checkEmployeeLocation, tryCatch, bind, validateCoordinates.
    rewrite (isValidLatitude_false _ Hlat). reflexivity.
  - intros [H1 H2] Hlon.
    unfold checkEmployeeLocation, tryCatch, bind, validateCoordinates.
    rewrite (isValidLongitude_false _ Hlon).
    unfold isValidLatitude. rewrite H1, H2. reflexivity.
  - intros Hvalid Hdb Hnone.
    unfold checkEmployeeLocation, tryCatch, bind, lift, getEmployeeById, tryCatch,
      employee_findUnique, query.
    rewrite Hvalid. cbn [negb]. rewrite Hdb, Hnone. reflexivity.
Qed.



Lemma checkIn_refuses_unverified config tzOffset env input s :
  isOk (verifyLocationToken config (ci_locationToken input) (now env)) = false ->
  checkIn config tzOffset env input s
  = (Throw (AppError "Invalid or expired location token" 401), s).
Proof.
  intros Hv. unfold checkIn, tryCatch, bind, lift.
  destruct (verifyLocationToken config (ci_locationToken input) (now env));
    [discriminate | reflexivity].
Qed.

(** X13.  Only a location proof opens [checkIn]: with a location secret
    that differs from the access and the refresh secret, an access token or
    a refresh token presented as location token is refused with "Invalid
    or expired location token" (401), at any time and for any request, and
    nothing is written. *)
Theorem checkIn_refuses_session_tokens
  (config : Config) (tzOffset : Z) (env : Env) (input : CheckInInput) (s : Store)
  (issued : Z)
  (Ha : accessSecret config <> locationSecret config)
  (Hr : refreshSecret config <> locationSecret config)
  (Hkind : (exists p, generateAccessToken config p issued = Ok (ci_locationToken input)) \/
           (exists p, generateRefreshToken config p issued = Ok (ci_locationToken input))) :
  checkIn config tzOffset env input s
  = (Throw (AppError "Invalid or expired location token" 401), s).
Proof.
  apply checkIn_refuses_unverified.
  destruct Hkind as [[p Hp] | [p Hp]];
    [unfold generateAccessToken in Hp | unfold generateRefreshToken in Hp];
    apply jwt_sign_inv in Hp; destruct Hp as (expiry & _ & -> & _);
    unfold verifyLocationToken;
    (rewrite orThrow_Throw; [reflexivity |]);
    apply jwt_verify_other_key; assumption.
Qed.

(** X14.  A location proof is good for its validity window only: a token
    minted by [generateLocationToken] at [issued] is refused by [checkIn]
    with "Invalid or expired location token" (401) from the second in
    which it expires on, whoever presents it. *)
Theorem checkIn_refuses_expired_proof
  (config : Config) (tzOffset : Z) (env : Env) (input : CheckInInput) (s : Store)
  (issued span : Z) (payload : LocationTokenPayload.t)
  (Hmint : generateLocationToken config payload issued = Ok (ci_locationToken input))
  (Hspan : timespan (locationExpiry config) = Some span)
  (Hlate : issued / 1000 + span <= now env / 1000) :
  checkIn config tzOffset env input s
  = (Throw (AppError "Invalid or expired location token" 401), s).
Proof.
  apply checkIn_refuses_unverified.
  unfold generateLocationToken in Hmint. apply jwt_sign_inv in Hmint.
  destruct Hmint as (expiry & Hk & -> & Hs).
  rewrite (Hs span Hspan).
  unfold verifyLocationToken. rewrite orThrow_Throw; [reflexivity |].
  apply jwt_verify_expired. exact Hlate.
Qed.

(** X15.  A proof is bound to the tenant it was issued for: if the
    employee named in a verifying proof belongs to another tenant than the
    proof says, [checkIn] answers "Tenant mismatch" (403) and writes
    nothing. *)
Theorem checkIn_refuses_proof_of_other_tenant
  (config : Config) (tzOffset : Z) (env : Env) (input : CheckInInput) (s : Store)
  (payload : Claims) (employee : Employee.t)
  (Hvalid : verifyLocationToken config (ci_locationToken input) (now env) = Ok payload)
  (Hsame : Payload.employeeId payload = Some (ci_employeeId input))
  (Hemb : isValidEmbedding (ci_embedding input) = true)
  (Hdb : dbFails env EmployeeFindUnique = false)
  (Hfe : find (fun e => String.eqb (Employee.id e) (ci_employeeId input)) (employees s)
         = Some employee)
  (Hother : Employee.tenantId employee <> Payload.tenantId payload) :
  checkIn config tzOffset env input s = (Throw (AppError "Tenant mismatch" 403), s).
Proof.
  unfold checkIn, tryCatch, bind, lift, getEmployeeById, tryCatch, employee_findUnique,
    query.
  rewrite Hvalid. cbn [orThrow].
  rewrite (proj2 (optString_eqb_true _ _) Hsame), Hemb. cbn [negb].
  rewrite Hdb, Hfe.
  destruct (String.eqb_spec (Employee.tenantId employee) (Payload.tenantId payload));
    [contradiction | reflexivity].
Qed.

(** ** Face comparison ([compareFaces]) *)

(** X16.  [compareFaces] reports a match exactly when the first face match
    of the answer carries a non-zero similarity at or above the threshold
    (later entries of the answer are not looked at), and it throws exactly
    when a download or the call to the service failed. *)
Theorem compareFaces_matches_on_first_face
  (config : Config) (env : Env) (src tgt : string) :
  ((exists cmp, compareFaces config env src tgt = Ok cmp /\ isMatch cmp = true) <->
   (exists first rest sim,
      rekognition env src tgt = Response (Some (first :: rest)) /\
      Similarity first = Some sim /\
      sim <> 0%R /\
      (similarityThreshold config <= sim)%R)) /\
  (isOk (compareFaces config env src tgt) = false <->
   rekognition env src tgt = DownloadFailed \/ rekognition env src tgt = SendFailed).
Proof.
  split; split.
  - intros (cmp & Hc & Hm). unfold compareFaces in Hc.
    destruct (rekognition env src tgt) as [| | [[| first rest] |]]; try discriminate;
      try (injection Hc as <-; discriminate).
    destruct (Similarity first) as [sim |] eqn:Es;
      [| injection Hc as <-; discriminate].
    unfold truthy in Hc. destruct (Req_dec_T sim 0) as [| Hnz];
      [injection Hc as <-; discriminate |].
    injection Hc as <-. cbn [isMatch] in Hm. apply Rleb_true in Hm.
    exists first, rest, sim. auto.
  - intros (first & rest & sim & Hr & Hs & Hnz & Hle).
    eexists. split; [apply (compareFaces_first_match _ _ _ _ _ _ _ Hr Hs Hnz Hle) |].
    reflexivity.
  - unfold compareFaces.
    destruct (rekognition env src tgt) as [| | [[| first rest] |]]; auto;
      try discriminate.
    destruct (Similarity first) as [sim |]; [| discriminate].
    destruct (truthy sim); discriminate.
  - unfold compareFaces. intros [-> | ->]; reflexivity.
Qed.

(** ** Geo-fence ([calculateDistance], [isWithinRadius]) *)

(** X17.  A distance that is not a number counts as outside: for valid
    coordinates, an employee and a tenant that are found and a usable
    location signer, if the distance between the submitted point and the
    office is [NaN] (as it is for some nearly opposite points of the
    globe), the location check answers that the employee is outside the
    premises and hands out a location proof, whatever the radius. *)
Theorem distance_that_is_no_number_counts_as_outside
  (config : Config) (env : Env) (input : LocationCheckInput) (s : Store)
  (employee : Employee.t) (t : Tenant.t) (span : Z)
  (Hvalid : isValid (validateCoordinates (lc_latitude input) (lc_longitude input)) = true)
  (Hdb1 : dbFails env EmployeeFindUnique = false)
  (Hfe : find (fun e => String.eqb (Employee.id e) (lc_employeeId input)) (employees s)
         = Some employee)
  (Hdb2 : dbFails env TenantFindUnique = false)
  (Hft : find (fun x => String.eqb (Tenant.id x) (Employee.tenantId employee)) (tenants s)
         = Some t)
  (Hnan : PrimFloat.is_nan
            (calculateDistance (math env) (lc_latitude input) (lc_longitude input)
                               (Tenant.latitude t) (Tenant.longitude t)) = true)
  (Hk : isEmpty (locationSecret config) = false)
  (Hs : timespan (locationExpiry config) = Some span) :
  (forall radius,
     isWithinRadius (math env) (lc_latitude input) (lc_longitude input)
                    (Tenant.latitude t) (Tenant.longitude t) radius = false) /\
  exists resp tok,
    checkEmployeeLocation config env input s = (Ok resp, s) /\
    LocationCheckResponse.success resp = true /\
    LocationCheckResponse.locationToken resp = Some tok /\
    LocationCheckResponse.message resp
    = "Location verified. You are outside office premises.".
Proof.
  split; [intros radius; apply isWithinRadius_nan; exact Hnan |].
  eexists. eexists. split.
  - apply (checkEmployeeLocation_outside config env input s employee t span);
      try assumption.
    apply isWithinRadius_nan. exact Hnan.
  - split; [reflexivity |]. split; reflexivity.
Qed.

(** X18.  With an engine whose [Math.sin] is odd, the radius test does
    not depend on which point is the centre; it grows with the radius; and
    a distance that is not a number is within no radius. *)
Theorem radius_test_is_symmetric_and_monotone
  (math : MathLib) (latA lonA latB lonB : double)
  (sin_odd : forall x, (Math_sin math (- x) = - Math_sin math x)%float) :
  (forall radius,
     isWithinRadius math latA lonA latB lonB radius
     = isWithinRadius math latB lonB latA lonA radius) /\
  (forall r1 r2, PrimFloat.leb r1 r2 = true ->
     isWithinRadius math latA lonA latB lonB r1 = true ->
     isWithinRadius math latA lonA latB lonB r2 = true) /\
  (PrimFloat.is_nan (calculateDistance math latA lonA latB lonB) = true ->
   forall radius, isWithinRadius math latA lonA latB lonB radius = false).
Proof.
  split; [| split].
  - intros radius. apply isWithinRadius_sym. exact sin_odd.
  - intros r1 r2 Hle H1. unfold isWithinRadius in *.
    exact (fleb_trans _ _ _ H1 Hle).
  - intros Hnan radius. apply isWithinRadius_nan. exact Hnan.
Qed.

(** ** What the services throw *)

Ltac in_catalogue :=
  cbn; repeat (first [left; reflexivity | right]).

Lemma verifyIdentity_errors config env employee t input s e s' :
  verifyIdentity config env employee t input s = (Throw e, s') ->
  e = AppError "Face verification failed. Please try again with a clear photo." 400 \/
  e = AppError "Face verification failed. Please try again." 500.
Proof.
  intros H. apply verifyIdentity_inv in H. destruct H as [_ H].
  destruct (Tenant.planType t); [discriminate |].
  destruct (compareFaces config env _ _) as [cmp | e0].
  - destruct (isMatch cmp); [discriminate |]. injection H as ->. auto.
  - injection H as ->. auto.
Qed.

Lemma verifyAndRecord_errors config tzOffset env input employee t s e :
  fst (verifyAndRecord config tzOffset env input employee t s) = Throw e ->
  In e checkInErrors.
Proof.
  intros Hq.
  destruct (verifyAndRecord config tzOffset env input employee t s) as [res s'] eqn:Hr.
  cbn [fst] in Hq. rewrite Hq in Hr. clear Hq.
  apply verifyAndRecord_inv in Hr. destruct Hr as (rv & Hv & Hrest).
  destruct rv as [mc | e1].
  - destruct Hrest as (rr & Hrec & Hres).
    unfold recordAttendance, bind, attendance_findFirst, query, attendance_create
      in Hrec.
    destruct (dbFails env AttendanceFindFirst).
    { injection Hrec as <- _. injection Hres as ->. in_catalogue. }
    destruct (find _ (attendances s)).
    { injection Hrec as <- _. injection Hres as ->. in_catalogue. }
    destruct (dbFails env AttendanceCreate).
    { injection Hrec as <- _. injection Hres as ->. in_catalogue. }
    destruct (existsb _ (attendances s)).
    { injection Hrec as <- _. injection Hres as ->. in_catalogue. }
    injection Hrec as <- _. discriminate.
  - destruct Hrest as [Hres _]. injection Hres as ->.
    destruct (verifyIdentity_errors _ _ _ _ _ _ _ _ Hv) as [-> | ->]; in_catalogue.
Qed.

Ltac checkIn_stops :=
  unfold checkIn, tryCatch, bind, lift, getEmployeeById, tryCatch,
    employee_findUnique, tenant_findUnique_id, query;
  repeat (match goal with H : _ = _ |- _ => rewrite H end;
          cbn [orThrow negb fst]);
  cbn; intros Hq; injection Hq as <-; in_catalogue.

(** X19.  [checkIn] and [checkEmployeeLocation] fail only with the
    application errors of their catalogue, never with a bare exception:
    the statuses of a check-in are 400, 401, 403, 404, 409 and 500, those
    of a location check 400, 404 and 500. *)
Theorem attendance_service_throws_catalogued_errors
  (config : Config) (tzOffset : Z) (env : Env) :
  (forall input s e,
     fst (checkIn config tzOffset env input s) = Throw e -> In e checkInErrors) /\
  (forall input s e,
     fst (checkEmployeeLocation config env input s) = Throw e ->
     In e locationCheckErrors).
Proof.
  split.
  - intros input s e.
    destruct (verifyLocationToken config (ci_locationToken input) (now env))
      as [payload | e0] eqn:Hv; [| checkIn_stops].
    destruct (optString_eqb (Payload.employeeId payload) (ci_employeeId input)) eqn:He;
      [| checkIn_stops].
    destruct (isValidEmbedding (ci_embedding input)) eqn:Hemb; [| checkIn_stops].
    destruct (dbFails env EmployeeFindUnique) eqn:Hdb1; [checkIn_stops |].
    destruct (find (fun x => String.eqb (Employee.id x) (ci_employeeId input))
                   (employees s)) as [employee |] eqn:Hfe; [| checkIn_stops].
    destruct (String.eqb (Employee.tenantId employee) (Payload.tenantId payload)) eqn:Ht;
      [| checkIn_stops].
    destruct (dbFails env TenantFindUnique) eqn:Hdb2; [checkIn_stops |].
    destruct (find (fun x => String.eqb (Tenant.id x) (Employee.tenantId employee))
                   (tenants s)) as [t |] eqn:Hft; [| checkIn_stops].
    assert (Hreach : reachesIdentityCheck config env input s employee t).
    { exists payload. repeat split; try assumption.
      - now apply optString_eqb_true.
      - now apply String.eqb_eq. }
    rewrite (checkIn_after_resolution _ _ _ _ _ _ _ Hreach).
    apply verifyAndRecord_errors.
  - intros input s e.
    unfold checkEmployeeLocation, tryCatch, bind, lift, getEmployeeById, tryCatch,
      employee_findUnique, tenant_findUnique_id, query, validateCoordinates.
    destruct (isValidLatitude (lc_latitude input)); cbn [negb isValid error].
    2:{ cbn. intros Hq. injection Hq as <-. in_catalogue. }
    destruct (isValidLongitude (lc_longitude input)); cbn [negb isValid error].
    2:{ cbn. intros Hq. injection Hq as <-. in_catalogue. }
    destruct (dbFails env EmployeeFindUnique).
    { cbn. intros Hq. injection Hq as <-. in_catalogue. }
    destruct (find _ (employees s)) as [employee |].
    2:{ cbn. intros Hq. injection Hq as <-. in_catalogue. }
    destruct (dbFails env TenantFindUnique).
    { cbn. intros Hq. injection Hq as <-. in_catalogue. }
    destruct (find _ (tenants s)) as [t |].
    2:{ cbn. intros Hq. injection Hq as <-. in_catalogue. }
    destruct (isWithinRadius _ _ _ _ _ _); [cbn; discriminate |].
    destruct (generateLocationToken config _ (now env)) as [tok | e0] eqn:Hg.
    + cbn. discriminate.
    + apply jwt_sign_Throw in Hg. destruct Hg as [msg ->].
      cbn. intros Hq. injection Hq as <-. in_catalogue.
Qed.

Lemma openSession_rethrown config env t s e msg :
  fst (openSession config env t s) = Throw e ->
  rethrown msg e = AppError msg 500.
Proof.
  destruct (openSession config env t s) as [res s'] eqn:Ho. cbn [fst]. intros ->.
  apply openSession_inv in Ho.
  destruct Ho as [(_ & m & Hm) | (resp & created & Hm & _)]; [| discriminate].
  injection Hm as ->. reflexivity.
Qed.

(** X20.  The tenant service fails only with the application errors of
    its catalogue: registration with 409 or 500, login with 401 or 500,
    refresh with 401 or 500, logout with 500. *)
Theorem session_service_throws_catalogued_errors
  (config : Config) (env : Env) (op : SessionOp) (s : Store) (e : Exn)
  (Hthrow : fst (runSessionOp config env op s) = Throw e) :
  In e (sessionErrors op).
Proof.
  revert Hthrow.
  destruct op as [input | username password | tok | tid tok];
    unfold runSessionOp, bind, ret.
  - unfold registerTenant, tryCatch, bind, tenant_findUnique_username,
      tenant_findUnique_gst, query.
    destruct (dbFails env TenantFindUnique).
    { rewrite rethrowAs_run. cbn. intros Hq. injection Hq as <-. in_catalogue. }
    destruct (find _ (tenants s)).
    { unfold throw. rewrite rethrowAs_run. cbn. intros Hq. injection Hq as <-.
      in_catalogue. }
    destruct (find _ (tenants s)).
    { unfold throw. rewrite rethrowAs_run. cbn. intros Hq. injection Hq as <-.
      in_catalogue. }
    unfold tenant_create.
    destruct (dbFails env TenantCreate).
    { rewrite rethrowAs_run. cbn. intros Hq. injection Hq as <-. in_catalogue. }
    destruct (existsb _ (tenants s)).
    { rewrite rethrowAs_run. cbn. intros Hq. injection Hq as <-. in_catalogue. }
    match goal with
    | |- context [openSession config env ?t ?s0] =>
        pose proof (openSession_rethrown config env t s0) as Hb;
        destruct (openSession config env t s0) as [[r | e1] s2]
    end.
    + cbn. discriminate.
    + rewrite rethrowAs_run. cbn [fst] in *. intros Hq. injection Hq as <-.
      rewrite (Hb e1 _ eq_refl). in_catalogue.
  - unfold loginTenant, tryCatch, bind, tenant_findUnique_username, query.
    destruct (dbFails env TenantFindUnique).
    { rewrite rethrowAs_run. cbn. intros Hq. injection Hq as <-. in_catalogue. }
    destruct (find _ (tenants s)) as [t |].
    2:{ unfold throw. rewrite rethrowAs_run. cbn. intros Hq. injection Hq as <-.
        in_catalogue. }
    destruct (comparePassword env password (Tenant.password t)); cbn [negb].
    2:{ cbn. intros Hq. injection Hq as <-. in_catalogue. }
    pose proof (openSession_rethrown config env t s) as Hb.
    destruct (openSession config env t s) as [[r | e1] s2].
    + cbn. discriminate.
    + rewrite rethrowAs_run. cbn [fst] in *. intros Hq. injection Hq as <-.
      rewrite (Hb e1 _ eq_refl). in_catalogue.
  - unfold refreshAccessToken, tryCatch, bind, lift.
    destruct (verifyRefreshToken config tok (now env)) as [payload | e0] eqn:Hv.
    2:{ unfold verifyRefreshToken in Hv.
        destruct (jwt_verify tok _ _); [discriminate |]. injection Hv as <-.
        cbn. intros Hq. injection Hq as <-. in_catalogue. }
    unfold validateStoredToken, refreshToken_findUnique, query, bind, lift.
    destruct (dbFails env RefreshTokenFindUnique).
    { cbn. intros Hq. injection Hq as <-. in_catalogue. }
    unfold checkStoredToken.
    destruct (find _ (refreshTokens s)) as [r |].
    2:{ cbn. intros Hq. injection Hq as <-. in_catalogue. }
    cbn [row].
    destruct (RefreshToken.isRevoked r).
    { cbn. intros Hq. injection Hq as <-. in_catalogue. }
    destruct (RefreshToken.expiresAt r <? now env).
    { cbn. intros Hq. injection Hq as <-. in_catalogue. }
    destruct (String.eqb (RefreshToken.tenantId r) (Payload.tenantId payload));
      cbn [negb].
    2:{ cbn. intros Hq. injection Hq as <-. in_catalogue. }
    cbn [row tenant].
    destruct (refreshToken_update_revoke env (RefreshToken.id r) s) as [ru s2] eqn:Eu.
    apply refreshToken_update_revoke_inv in Eu.
    destruct Eu as [[-> ->] | (_ & -> & ->)].
    { cbn. intros Hq. injection Hq as <-. in_catalogue. }
    destruct (find _ (tenants s)) as [t |].
    2:{ cbn. intros Hq. injection Hq as <-. in_catalogue. }
    match goal with
    | |- context [openSession config env ?t ?s0] =>
        pose proof (openSession_rethrown config env t s0) as Hb;
        destruct (openSession config env t s0) as [[r1 | e1] s3]
    end.
    + cbn. discriminate.
    + rewrite rethrowAs_run. cbn [fst] in *. intros Hq. injection Hq as <-.
      rewrite (Hb e1 _ eq_refl). in_catalogue.
  - unfold logoutTenant, tryCatch, refreshToken_updateMany_revoke.
    destruct (dbFails env RefreshTokenUpdateMany).
    + cbn. intros Hq. injection Hq as <-. in_catalogue.
    + cbn. discriminate.
Qed.

Lemma find_snoc_None {A} (f : A -> bool) (l : list A) (x : A) :
  find f l = None -> f x = true -> find f (l ++ [x]) = Some x.
Proof.
  intros Hnone Hx. induction l as [| a l IH]; cbn in *.
  - rewrite Hx. reflexivity.
  - destruct (f a); [discriminate | auto].
Qed.

(** X21.  Where the clocks of the server's zone are never changed (and
    read a time from 1970 on) and the refresh expiry is a span that the
    token library and [getTokenExpiry] read alike, an expired session is
    answered as a server error: once the clock has reached the [expiresAt] of the row
    stored for a session pair, the refresh token of the pair no longer
    verifies, and [refreshAccessToken] answers "Failed to refresh token"
    (500), in every store and without writing - the guard "Refresh token
    expired" (401) is not what such a token meets. *)
Theorem expired_session_is_answered_as_server_error
  (config : Config) (env : Env) (op : SessionOp) (s : Store)
  (resp : LoginResponse.t) (s' : Store) (sr : Z)
  (Hzone : constantOffset (zone env))
  (Hnow : 0 <= now env)
  (Hsr : timespan (refreshExpiry config) = Some sr)
  (Hrun : runSessionOp config env op s = (Ok (Some resp), s')) :
  exists created,
    sessionOf (LoginResponse.refreshToken resp) s' = Some created /\
    RefreshToken.expiresAt created = now env + 1000 * sr /\
    getTokenExpiry (zone env) (refreshExpiry config) (now env)
      = Ok (ValidDate (RefreshToken.expiresAt created)) /\
    forall env2 s2,
      RefreshToken.expiresAt created <= now env2 ->
      refreshAccessToken config env2 (LoginResponse.refreshToken resp) s2
      = (Throw (AppError "Failed to refresh token" 500), s2).
Proof.
  apply runSessionOp_Ok_inv in Hrun. destruct Hrun as (t & s0 & Hopen & _ & _).
  pose proof (openSession_Ok_unique _ _ _ _ _ _ Hopen) as Huniq.
  apply openSession_Ok_inv in Hopen.
  destruct Hopen as (expa & expr & expiresAt & _ & _ & Hkr & Hexpr & Hdate & Hresp & ->).
  rewrite (Hexpr sr Hsr) in Hresp.
  pose proof (expiresAt_of_timespan _ _ _ _ _ Hzone Hsr Hdate) as Hat.
  eexists. split; [| split; [| split]].
  - unfold sessionOf, withRefreshTokens. cbn [refreshTokens].
    assert (Hnone : find (fun r => Text_eqb (RefreshToken.tokenHash r)
                                     (hashToken (LoginResponse.refreshToken resp)))
                         (refreshTokens s0) = None).
    { destruct (find _ (refreshTokens s0)) as [r |] eqn:Hf; [| reflexivity].
      apply find_some in Hf. destruct Hf as [Hin Hh].
      assert (Hex : existsb
                (fun r => String.eqb (RefreshToken.id r) (newId env RefreshTokenCreate)
                          || Text_eqb (RefreshToken.tokenHash r)
                               (hashToken (LoginResponse.refreshToken resp)))
                (refreshTokens s0) = true).
      { apply existsb_exists. exists r. split; [exact Hin |].
        rewrite Hh. apply orb_true_r. }
      congruence. }
    apply find_snoc_None; [exact Hnone |].
    cbn [RefreshToken.tokenHash]. apply Text_eqb_eq. reflexivity.
  - cbn [RefreshToken.expiresAt]. exact Hat.
  - cbn [RefreshToken.expiresAt]. exact Hdate.
  - cbn [RefreshToken.expiresAt]. intros env2 s2 Hlate.
    unfold refreshAccessToken, tryCatch, bind, lift.
    rewrite Hresp. cbn [LoginResponse.refreshToken].
    destruct (verifyRefreshToken config _ (now env2)) as [payload | e0] eqn:Hv.
    + apply minted_refresh_token_verifies in Hv. destruct Hv as [_ Hlt].
      cbn [exp] in Hlt. apply seconds_before in Hlt. lia.
    + rewrite rethrowAs_run. unfold verifyRefreshToken in Hv.
      destruct (jwt_verify _ _ _); [discriminate |]. injection Hv as <-. reflexivity.
Qed.

(** Where the clocks go forward the row does not live as long as the
    token.  A login a day before the change: the token is good for seven
    days, the row for an hour less, and in that last hour the token still
    verifies while the guard on the row answers "Refresh token expired"
    (401). *)
Example session_row_expires_early_at_clock_change :
  let issued := springForward - 86400000 in
  exists resp s',
    runSessionOp demoConfig (springEnv issued) (Login "acme" "secret") (acmeStore 0)
    = (Ok (Some resp), s') /\
    getTokenExpiry springZone (refreshExpiry demoConfig) issued
    = Ok (ValidDate (issued + 604800000 - 3600000)) /\
    isOk (verifyRefreshToken demoConfig (LoginResponse.refreshToken resp)
            (issued + 604800000 - 1000)) = true /\
    refreshAccessToken demoConfig (springEnv (issued + 604800000 - 1000))
                       (LoginResponse.refreshToken resp) s'
    = (Throw (AppError "Refresh token expired" 401), s').
Proof.
  eexists. eexists. split; [reflexivity |].
  split; [reflexivity |]. split; reflexivity.
Qed.

(** ** Employees, attendance queries and the profile *)

Lemma employee_findFirst_run qenv id tenantId s :
  queryFails qenv EmployeeFindFirst = false ->
  employee_findFirst qenv id tenantId s
  = (Ok (find (fun e => String.eqb (Employee.id e) id
                        && String.eqb (Employee.tenantId e) tenantId)
              (employees s)), s).
Proof. intros H. unfold employee_findFirst. rewrite H. reflexivity. Qed.

(** X22.  An employee is reached only through the tenant that owns it:
    when no employee has both the id and the tenant id of the call - the
    id is unknown, or it is another tenant's - the five methods that take
    the pair answer "Employee not found" (404) and leave the store as it
    was ([updateEmployee] after its embedding guard, [getAttendanceReport]
    when it is given an employee id). *)
Theorem employee_methods_refuse_other_tenants
  (qenv : QueryEnv) (employeeId tenantId : string) (s : Store)
  (Hdb : queryFails qenv EmployeeFindFirst = false)
  (Hnone : find (fun e => String.eqb (Employee.id e) employeeId
                          && String.eqb (Employee.tenantId e) tenantId)
                (employees s) = None) :
  let notFound := AppError "Employee not found" 404 in
  getEmployeeDetails qenv employeeId tenantId s = (Throw notFound, s) /\
  deleteEmployee qenv employeeId tenantId s = (Throw notFound, s) /\
  (forall updates,
     updateEmployee qenv employeeId tenantId updates s
     = (Throw (if embeddingRefused updates
               then AppError "Invalid embedding format" 400 else notFound), s)) /\
  (forall startDate endDate page limit,
     getEmployeeAttendance qenv employeeId tenantId startDate endDate page limit s
     = (Throw notFound, s)) /\
  (forall startDate endDate,
     isEmpty employeeId = false ->
     getAttendanceReport qenv tenantId startDate endDate (Some employeeId) s
     = (Throw notFound, s)).
Proof.
  intros notFound. repeat split.
  - unfold getEmployeeDetails, employee_findFirst_withAttendances, tryCatch, bind.
    rewrite (employee_findFirst_run _ _ _ _ Hdb), Hnone. reflexivity.
  - unfold deleteEmployee, tryCatch, bind.
    rewrite (employee_findFirst_run _ _ _ _ Hdb), Hnone. reflexivity.
  - intros updates. unfold updateEmployee, tryCatch, bind.
    destruct (embeddingRefused updates); [reflexivity |].
    rewrite (employee_findFirst_run _ _ _ _ Hdb), Hnone. reflexivity.
  - intros startDate endDate page limit.
    unfold getEmployeeAttendance, tryCatch, bind.
    rewrite (employee_findFirst_run _ _ _ _ Hdb), Hnone. reflexivity.
  - intros startDate endDate Hid.
    unfold getAttendanceReport, tryCatch, bind. rewrite Hid.
    rewrite (employee_findFirst_run _ _ _ _ Hdb), Hnone. reflexivity.
Qed.

Lemma deleteEmployee_Ok_inv qenv employeeId tenantId s s' :
  deleteEmployee qenv employeeId tenantId s = (Ok tt, s') ->
  (exists e, find (fun e => String.eqb (Employee.id e) employeeId
                            && String.eqb (Employee.tenantId e) tenantId)
                  (employees s) = Some e) /\
  s' = mkStore (tenants s)
         (filter (fun e => negb (String.eqb (Employee.id e) employeeId)) (employees s))
         (filter (fun a => negb (String.eqb (Attendance.employeeId a) employeeId))
                 (attendances s))
         (refreshTokens s).
Proof.
  unfold deleteEmployee, tryCatch, bind, employee_findFirst, employee_delete.
  destruct (queryFails qenv EmployeeFindFirst).
  { rewrite rethrowAs_run. discriminate. }
  destruct (find _ (employees s)) as [e |].
  2:{ unfold throw. rewrite rethrowAs_run. discriminate. }
  destruct (queryFails qenv EmployeeDelete).
  { rewrite rethrowAs_run. discriminate. }
  destruct (existsb _ (employees s)).
  2:{ rewrite rethrowAs_run. discriminate. }
  intros Hq. injection Hq as <-. split; [exists e |]; reflexivity.
Qed.

(** X23.  Deleting an employee takes the employee and its attendance
    with it and nothing else: after a successful [deleteEmployee] no
    employee has the id and no attendance refers to it, every other
    employee and attendance is still there, tenants and sessions are
    untouched; and no check-in and no location check succeeds for the
    id any more, whatever proof is presented. *)
Theorem deleteEmployee_removes_employee_and_attendance
  (qenv : QueryEnv) (employeeId tenantId : string) (s s' : Store)
  (Hok : deleteEmployee qenv employeeId tenantId s = (Ok tt, s')) :
  (forall e, In e (employees s') <->
             In e (employees s) /\ Employee.id e <> employeeId) /\
  (forall a, In a (attendances s') <->
             In a (attendances s) /\ Attendance.employeeId a <> employeeId) /\
  tenants s' = tenants s /\
  refreshTokens s' = refreshTokens s /\
  (forall config tzOffset env input,
     ci_employeeId input = employeeId ->
     isOk (fst (checkIn config tzOffset env input s')) = false /\
     snd (checkIn config tzOffset env input s') = s') /\
  (forall config env input,
     lc_employeeId input = employeeId ->
     isOk (fst (checkEmployeeLocation config env input s')) = false).
Proof.
  apply deleteEmployee_Ok_inv in Hok. destruct Hok as [_ ->].
  cbn [employees attendances tenants refreshTokens].
  assert (Hgone : forall id, id = employeeId ->
            find (fun e => String.eqb (Employee.id e) id)
                 (filter (fun e => negb (String.eqb (Employee.id e) employeeId))
                         (employees s)) = None).
  { intros id ->.
    destruct (find _ (filter _ (employees s))) as [e |] eqn:Hf; [| reflexivity].
    apply find_some in Hf. destruct Hf as [Hin He].
    apply filter_In in Hin. destruct Hin as [_ Hne].
    rewrite He in Hne. discriminate. }
  split; [| split; [| split; [| split; [| split]]]]; try reflexivity.
  - intros e. rewrite filter_In. rewrite negb_true_iff.
    destruct (String.eqb_spec (Employee.id e) employeeId); intuition congruence.
  - intros a. rewrite filter_In. rewrite negb_true_iff.
    destruct (String.eqb_spec (Attendance.employeeId a) employeeId);
      intuition congruence.
  - intros config tzOffset env input Hid.
    match goal with |- context [checkIn _ _ _ _ ?st] => set (s1 := st) end.
    destruct (checkIn_before_resolution config tzOffset env input s1)
      as [(employee & t & payload & _ & _ & _ & _ & Hfe & _) | (e & -> & _)].
    + subst s1. cbn [employees] in Hfe. rewrite (Hgone _ Hid) in Hfe. discriminate.
    + split; reflexivity.
  - intros config env input Hid.
    unfold checkEmployeeLocation, tryCatch, bind, getEmployeeById, tryCatch,
      employee_findUnique, query.
    destruct (negb (isValid _)); [reflexivity |].
    destruct (dbFails env EmployeeFindUnique); [reflexivity |].
    cbn [employees]. rewrite (Hgone _ Hid). reflexivity.
Qed.

Lemma find_snoc_fresh {A} (f : A -> bool) (l : list A) (x : A) :
  existsb f l = false -> f x = true -> find f (l ++ [x]) = Some x.
Proof.
  intros Hex Hx. apply find_snoc_None; [| exact Hx].
  destruct (find f l) as [a |] eqn:Hf; [| reflexivity].
  apply find_some in Hf. destruct Hf as [Hin Ha].
  assert (existsb f l = true) by (apply existsb_exists; eauto). congruence.
Qed.

(** X24.  Registration of an employee: an embedding that is not a
    non-empty array of numbers is refused with 400 before anything is
    read.  A successful registration has appended exactly one employee,
    under the tenant named in the input, which is a tenant of the store,
    with the name, photo, contact numbers and embedding given and an id
    no employee had; the employee is then found by its id, shown to its
    tenant and refused to every other tenant. *)
Theorem registerEmployee_adds_employee_of_tenant
  (qenv : QueryEnv) (input : RegisterEmployeeInput) (s : Store) :
  (isValidEmbedding (re_embedding input) = false ->
   registerEmployee qenv input s = (Throw (AppError "Invalid embedding format" 400), s)) /\
  (forall e s',
     registerEmployee qenv input s = (Ok e, s') ->
     s' = withEmployees s (employees s ++ [e])%list /\
     (exists t, In t (tenants s) /\ Tenant.id t = re_tenantId input) /\
     (forall x, In x (employees s) -> Employee.id x <> Employee.id e) /\
     Employee.tenantId e = re_tenantId input /\
     Employee.name e = re_name input /\
     Employee.photoUrl e = re_photoUrl input /\
     Employee.embedding e = re_embedding input /\
     Employee.emergencyContactNumber e = re_emergencyContactNumber input /\
     Employee.contactNumber e = re_contactNumber input /\
     (forall env,
        dbFails env EmployeeFindUnique = false ->
        getEmployeeById env (Employee.id e) s' = (Ok (Some e), s')) /\
     (forall qenv2 tenantId,
        queryFails qenv2 EmployeeFindFirst = false ->
        fst (getEmployeeDetails qenv2 (Employee.id e) tenantId s')
        = if String.eqb tenantId (re_tenantId input)
          then Ok (mkEmployeeWithAttendance e
                     (attendancesSince (oneMonthAgo qenv2) (Employee.id e)
                                       (attendances s))
                     (attendancesSince (oneMonthAgo qenv2) (Employee.id e)
                                       (attendances s)))
          else Throw (AppError "Employee not found" 404))).
Proof.
  split.
  - intros Hbad. unfold registerEmployee, tryCatch. rewrite Hbad. reflexivity.
  - intros e s'.
    unfold registerEmployee, tryCatch, bind, tenant_findUnique_id, query,
      employee_create.
    destruct (isValidEmbedding (re_embedding input)); cbn [negb].
    2:{ cbn. discriminate. }
    destruct (dbFails (base qenv) TenantFindUnique).
    { rewrite rethrowAs_run. discriminate. }
    destruct (find _ (tenants s)) as [t |] eqn:Hft.
    2:{ unfold throw. rewrite rethrowAs_run. discriminate. }
    destruct (queryFails qenv EmployeeCreate).
    { rewrite rethrowAs_run. discriminate. }
    destruct (toDecimal qenv (re_salary input)) as [kept |].
    2:{ rewrite rethrowAs_run. discriminate. }
    cbn [Employee.id].
    destruct (existsb _ (employees s)) eqn:Hex; cbn [orb].
    { rewrite rethrowAs_run. discriminate. }
    destruct (negb (existsb _ (tenants s))).
    { rewrite rethrowAs_run. discriminate. }
    intros Hq. injection Hq as <- <-.
    cbn [Employee.id Employee.tenantId Employee.name Employee.photoUrl
         Employee.embedding Employee.emergencyContactNumber Employee.contactNumber].
    apply find_some in Hft. destruct Hft as [Hin Ht]. apply String.eqb_eq in Ht.
    assert (Hfresh : forall x, In x (employees s) ->
                       Employee.id x <> newEmployeeId qenv).
    { intros x Hx Heq.
      assert (existsb (fun e => String.eqb (Employee.id e) (newEmployeeId qenv))
                      (employees s) = true).
      { apply existsb_exists. exists x. split; [exact Hx |].
        now apply String.eqb_eq. }
      congruence. }
    repeat match goal with |- _ /\ _ => split end; try reflexivity.
    + exists t. auto.
    + exact Hfresh.
    + intros env Hdb. unfold getEmployeeById, tryCatch, employee_findUnique, query.
      rewrite Hdb. unfold withEmployees. cbn [employees].
      rewrite (find_snoc_fresh _ _ _ Hex); [reflexivity |].
      cbn [Employee.id]. apply String.eqb_refl.
    + intros qenv2 tenantId Hdb.
      unfold getEmployeeDetails, employee_findFirst_withAttendances, tryCatch, bind,
        employee_findFirst.
      rewrite Hdb. unfold withEmployees. cbn [employees attendances].
      destruct (String.eqb_spec tenantId (re_tenantId input)) as [-> | Hne].
      * rewrite find_snoc_fresh.
        -- reflexivity.
        -- match goal with
           | |- existsb ?f ?l = false =>
               destruct (existsb f l) eqn:Hex2; [| reflexivity]
           end.
           apply existsb_exists in Hex2. destruct Hex2 as (x & Hx & Hc).
           apply andb_prop in Hc. destruct Hc as [Hc _].
           apply String.eqb_eq in Hc. destruct (Hfresh x Hx Hc).
        -- cbn [Employee.id Employee.tenantId]. now rewrite !String.eqb_refl.
      * match goal with
        | |- context [find ?f ?l] => assert (Hnone : find f l = None)
        end.
        { match goal with
          | |- find ?f ?l = None => destruct (find f l) as [x |] eqn:Hf; [| reflexivity]
          end.
          apply find_some in Hf. destruct Hf as [Hx Hc].
          apply andb_prop in Hc. destruct Hc as [Hc1 Hc2].
          apply String.eqb_eq in Hc1. apply String.eqb_eq in Hc2.
          apply in_app_or in Hx. destruct Hx as [Hx | [<- | []]].
          - destruct (Hfresh x Hx Hc1).
          - cbn [Employee.tenantId] in Hc2. congruence. }
        rewrite Hnone. reflexivity.
Qed.

(** *** Ordering *)

Lemma insertDesc_perm {A} (key : A -> Z) (x : A) (l : list A) :
  Permutation (insertDesc key x l) (x :: l).
Proof.
  induction l as [| y l IH]; cbn.
  - reflexivity.
  - destruct (key y <=? key x); [reflexivity |].
    rewrite IH. apply perm_swap.
Qed.

Lemma orderByDesc_perm {A} (key : A -> Z) (l : list A) :
  Permutation (orderByDesc key l) l.
Proof.
  induction l as [| x l IH]; cbn.
  - reflexivity.
  - rewrite insertDesc_perm. now constructor.
Qed.

Lemma orderByDesc_In {A} (key : A -> Z) (l : list A) (x : A) :
  In x (orderByDesc key l) <-> In x l.
Proof.
  split; apply Permutation_in;
    [apply orderByDesc_perm | symmetry; apply orderByDesc_perm].
Qed.

Lemma orderByDesc_length {A} (key : A -> Z) (l : list A) :
  List.length (orderByDesc key l) = List.length l.
Proof. apply Permutation_length, orderByDesc_perm. Qed.

Lemma insertDesc_descending {A} (key : A -> Z) (x : A) (l : list A) :
  descending key l -> descending key (insertDesc key x l).
Proof.
  unfold descending. induction l as [| y l IH]; intros Hs; cbn.
  - constructor; constructor.
  - apply StronglySorted_inv in Hs. destruct Hs as [Hl Hy].
    destruct (Z.leb_spec (key y) (key x)) as [Hle | Hgt].
    + constructor.
      * constructor; assumption.
      * constructor; [exact Hle |].
        rewrite Forall_forall in *. intros z Hz. specialize (Hy z Hz). lia.
    + constructor; [apply IH; exact Hl |].
      rewrite Forall_forall in *. intros z Hz.
      apply (Permutation_in _ (insertDesc_perm key x l)) in Hz.
      destruct Hz as [<- | Hz]; [lia | auto].
Qed.

Lemma orderByDesc_descending {A} (key : A -> Z) (l : list A) :
  descending key (orderByDesc key l).
Proof.
  induction l as [| x l IH]; cbn.
  - constructor.
  - apply insertDesc_descending. exact IH.
Qed.

Lemma withEmployee_inv staff rows joined :
  withEmployee staff rows = Some joined ->
  map report_attendance joined = rows /\
  forall r, In r joined ->
    exists e, In e staff /\
      Employee.id e = Attendance.employeeId (report_attendance r) /\
      report_employee r
      = mkEmployeeSummary (Employee.id e) (Employee.name e) (Employee.contactNumber e).
Proof.
  revert joined. induction rows as [| a rows IH]; intros joined; cbn.
  - intros Hq. injection Hq as <-. split; [reflexivity | intros r []].
  - destruct (find _ staff) as [e |] eqn:Hf; [| discriminate].
    destruct (withEmployee staff rows) as [rest |]; [| discriminate].
    intros Hq. injection Hq as <-. destruct (IH rest eq_refl) as [Hmap Hrows].
    split; [cbn; now rewrite Hmap |].
    intros r [<- | Hr]; [| auto].
    apply find_some in Hf. destruct Hf as [Hin He]. apply String.eqb_eq in He.
    exists e. cbn. auto.
Qed.

Lemma attendance_findMany_withEmployee_inv qenv where_ s rows s' :
  attendance_findMany_withEmployee qenv where_ s = (Ok rows, s') ->
  s' = s /\
  withEmployee (employees s)
    (orderByDesc Attendance.checkInTime (filter where_ (attendances s))) = Some rows.
Proof.
  unfold attendance_findMany_withEmployee.
  destruct (queryFails qenv AttendanceFindMany); [discriminate |].
  destruct (withEmployee _ _) as [joined |]; [| discriminate].
  intros Hq. injection Hq as <- <-. auto.
Qed.

(** X25.  The attendance report of a tenant is exact: a report that is
    answered lists, newest first and each once, the attendances of the
    store that belong to the tenant and lie between the two dates (both
    included) - of the one employee when an employee id is given, who
    then is an employee of the tenant.  Each row carries the id, name and
    contact number of the employee it refers to, and nothing is written. *)
Theorem attendance_report_is_exact
  (qenv : QueryEnv) (tenantId : string) (startDate endDate : Z)
  (employeeId : option string) (s : Store) (rows : list ReportRow) (s' : Store)
  (Hok : getAttendanceReport qenv tenantId startDate endDate employeeId s
         = (Ok rows, s')) :
  s' = s /\
  Permutation (map report_attendance rows)
              (filter (reportedFor tenantId startDate endDate employeeId)
                      (attendances s)) /\
  descending Attendance.checkInTime (map report_attendance rows) /\
  (forall r, In r rows ->
     let a := report_attendance r in
     In a (attendances s) /\
     Attendance.tenantId a = tenantId /\
     startDate <= Attendance.checkInTime a <= endDate /\
     exists e, In e (employees s) /\
       Employee.id e = Attendance.employeeId a /\
       report_employee r
       = mkEmployeeSummary (Employee.id e) (Employee.name e)
                           (Employee.contactNumber e)) /\
  (forall id, employeeId = Some id -> isEmpty id = false ->
     (forall r, In r rows -> Attendance.employeeId (report_attendance r) = id) /\
     exists e, In e (employees s) /\ Employee.id e = id /\
               Employee.tenantId e = tenantId).
Proof.
  assert (Hjoin : attendance_findMany_withEmployee qenv
                    (reportedFor tenantId startDate endDate employeeId) s
                  = (Ok rows, s') /\
                  (forall id, employeeId = Some id -> isEmpty id = false ->
                     exists e, In e (employees s) /\ Employee.id e = id /\
                               Employee.tenantId e = tenantId)).
  { revert Hok. unfold getAttendanceReport, tryCatch, bind.
    set (run := attendance_findMany_withEmployee qenv _).
    assert (Hrun : forall res st,
              match run s with
              | (Ok a, s1) => (Ok a, s1)
              | (Throw e, s1) => rethrowAs "Failed to generate attendance report" e s1
              end = (Ok res, st) -> run s = (Ok res, st)).
    { intros res st. destruct (run s) as [[a | e] s1]; [auto |].
      rewrite rethrowAs_run. discriminate. }
    destruct employeeId as [id |].
    - destruct (isEmpty id) eqn:Hid.
      + intros Hq. split; [apply Hrun; exact Hq |]. intros id0 Hq0. congruence.
      + unfold employee_findFirst.
        destruct (queryFails qenv EmployeeFindFirst).
        { rewrite rethrowAs_run. discriminate. }
        destruct (find _ (employees s)) as [e |] eqn:Hf.
        2:{ unfold throw. rewrite rethrowAs_run. discriminate. }
        intros Hq. split; [apply Hrun; exact Hq |].
        intros id0 Hq0 _. injection Hq0 as <-.
        apply find_some in Hf. destruct Hf as [Hin Hc].
        apply andb_prop in Hc. destruct Hc as [Hc1 Hc2].
        apply String.eqb_eq in Hc1. apply String.eqb_eq in Hc2. eauto.
    - intros Hq. split; [apply Hrun; exact Hq | discriminate]. }
  destruct Hjoin as [Hrun Hemp].
  apply attendance_findMany_withEmployee_inv in Hrun. destruct Hrun as [-> Hw].
  apply withEmployee_inv in Hw. destruct Hw as [Hmap Hrows].
  assert (Hin : forall r, In r rows ->
            In (report_attendance r) (attendances s) /\
            reportedFor tenantId startDate endDate employeeId (report_attendance r)
            = true).
  { intros r Hr. apply (in_map report_attendance) in Hr. rewrite Hmap in Hr.
    apply orderByDesc_In in Hr. apply filter_In in Hr. exact Hr. }
  split; [reflexivity |]. split; [rewrite Hmap; apply orderByDesc_perm |].
  split; [rewrite Hmap; apply orderByDesc_descending |]. split.
  - intros r Hr a. destruct (Hin r Hr) as [Ha Hc]. unfold reportedFor in Hc.
    apply andb_prop in Hc. destruct Hc as [Hc _].
    apply andb_prop in Hc. destruct Hc as [Hc Hhi].
    apply andb_prop in Hc. destruct Hc as [Hten Hlo].
    apply String.eqb_eq in Hten. apply Z.leb_le in Hlo. apply Z.leb_le in Hhi.
    subst a. repeat split; auto.
  - intros id Hid Hne. split; [| exact (Hemp id Hid Hne)].
    intros r Hr. destruct (Hin r Hr) as [_ Hc]. unfold reportedFor in Hc.
    apply andb_prop in Hc. destruct Hc as [_ Hc]. rewrite Hid, Hne in Hc.
    now apply String.eqb_eq.
Qed.

(** *** Pages *)

Lemma descending_skipn {A} (key : A -> Z) (n : nat) (l : list A) :
  descending key l -> descending key (skipn n l).
Proof.
  unfold descending. revert l. induction n as [| n IH]; intros l Hs; [exact Hs |].
  destruct l as [| x l]; [exact Hs |].
  cbn. apply IH. now apply StronglySorted_inv in Hs.
Qed.

Lemma descending_firstn {A} (key : A -> Z) (n : nat) (l : list A) :
  descending key l -> descending key (firstn n l).
Proof.
  unfold descending. revert l. induction n as [| n IH]; intros l Hs; [constructor |].
  destruct l as [| x l]; [constructor |].
  cbn. apply StronglySorted_inv in Hs. destruct Hs as [Hl Hx].
  constructor; [apply IH; exact Hl |].
  rewrite Forall_forall in *. intros y Hy. apply Hx.
  rewrite <- (firstn_skipn n l). apply in_or_app. now left.
Qed.

(** The block of [limit] rows that page [page] shows. *)
Lemma paginate_page {A} (rows : list A) (page limit : Z) :
  1 <= page -> 1 <= limit ->
  paginate ((page - 1) * limit) limit rows
  = Some (firstn (Z.to_nat limit) (skipn (Z.to_nat ((page - 1) * limit)) rows)).
Proof.
  intros Hp Hl. unfold paginate.
  destruct (Z.ltb_spec ((page - 1) * limit) 0); [nia |].
  destruct (Z.leb_spec 0 limit); [reflexivity | lia].
Qed.

Lemma totalPagesOf_spec (total limit : Z) :
  0 <= total -> 1 <= limit ->
  exists n, totalPagesOf total limit = Pages n /\
            (n - 1) * limit < total <= n * limit.
Proof.
  intros Ht Hl. unfold totalPagesOf.
  destruct (Z.eqb_spec limit 0); [lia |].
  eexists. split; [reflexivity |].
  pose proof (Z.div_mod (- total) limit ltac:(lia)) as Hdm.
  pose proof (Z.mod_pos_bound (- total) limit ltac:(lia)) as Hmod.
  nia.
Qed.

Lemma page_empty_iff {A} (rows : list A) (page limit n : Z) :
  1 <= page -> 1 <= limit ->
  (n - 1) * limit < Z.of_nat (List.length rows) <= n * limit ->
  firstn (Z.to_nat limit) (skipn (Z.to_nat ((page - 1) * limit)) rows) = [] <->
  n < page.
Proof.
  intros Hp Hl Hn.
  assert (Hlen : List.length
                   (firstn (Z.to_nat limit) (skipn (Z.to_nat ((page - 1) * limit)) rows))
                 = Nat.min (Z.to_nat limit)
                           (List.length rows - Z.to_nat ((page - 1) * limit))).
  { rewrite length_firstn, length_skipn. reflexivity. }
  split.
  - intros Hnil. rewrite Hnil in Hlen. cbn in Hlen.
    assert (List.length rows <= Z.to_nat ((page - 1) * limit))%nat by lia.
    assert (Z.of_nat (List.length rows) <= (page - 1) * limit) by nia.
    nia.
  - intros Hgt.
    assert (Z.of_nat (List.length rows) <= (page - 1) * limit) by nia.
    assert (List.length rows <= Z.to_nat ((page - 1) * limit))%nat by lia.
    destruct (firstn _ _); [reflexivity |]. cbn in Hlen. lia.
Qed.

Lemma page_cover {A} (rows : list A) (limit n : Z) (a : A) :
  1 <= limit ->
  (n - 1) * limit < Z.of_nat (List.length rows) <= n * limit ->
  In a rows ->
  exists page,
    1 <= page <= n /\
    In a (firstn (Z.to_nat limit) (skipn (Z.to_nat ((page - 1) * limit)) rows)).
Proof.
  intros Hl Hn Hin. apply In_nth_error in Hin. destruct Hin as [i Hi].
  assert (Hlt : (i < List.length rows)%nat).
  { apply nth_error_Some. congruence. }
  set (q := Z.of_nat i / limit).
  pose proof (Z.div_mod (Z.of_nat i) limit ltac:(lia)) as Hdm.
  pose proof (Z.mod_pos_bound (Z.of_nat i) limit ltac:(lia)) as Hmod.
  fold q in Hdm.
  assert (Hq : 0 <= q) by (apply Z.div_pos; lia).
  exists (q + 1). split; [nia |].
  apply (nth_error_In _ (Z.to_nat (Z.of_nat i mod limit))).
  rewrite nth_error_firstn.
  destruct (Nat.ltb_spec (Z.to_nat (Z.of_nat i mod limit)) (Z.to_nat limit)); [| lia].
  rewrite nth_error_skipn.
  replace (Z.to_nat ((q + 1 - 1) * limit) + Z.to_nat (Z.of_nat i mod limit))%nat
    with i by nia.
  exact Hi.
Qed.

Lemma getEmployeeAttendance_run qenv employeeId tenantId startDate endDate page limit s e :
  queryFails qenv EmployeeFindFirst = false ->
  queryFails qenv AttendanceFindMany = false ->
  queryFails qenv AttendanceCount = false ->
  find (fun e => String.eqb (Employee.id e) employeeId
                 && String.eqb (Employee.tenantId e) tenantId) (employees s) = Some e ->
  1 <= page -> 1 <= limit ->
  let matching := filter (attendedBy employeeId tenantId startDate endDate)
                         (attendances s) in
  getEmployeeAttendance qenv employeeId tenantId startDate endDate page limit s
  = (Ok (mkAttendancePage
           (firstn (Z.to_nat limit)
              (skipn (Z.to_nat ((page - 1) * limit))
                     (orderByDesc Attendance.checkInTime matching)))
           (Z.of_nat (List.length matching)) page
           (totalPagesOf (Z.of_nat (List.length matching)) limit)), s).
Proof.
  intros Hdb1 Hdb2 Hdb3 Hfound Hp Hl matching.
  unfold getEmployeeAttendance, tryCatch, bind.
  rewrite (employee_findFirst_run _ _ _ _ Hdb1), Hfound.
  unfold attendance_findMany, attendance_count. rewrite Hdb2, Hdb3.
  rewrite (paginate_page _ _ _ Hp Hl). reflexivity.
Qed.

(** X26.  The pages of an employee's attendance record cover it: for an
    employee of the tenant and a limit of at least one, every page from
    the first on is answered with at most [limit] attendances of that
    employee and tenant inside the dates given, newest first, and with
    the same [total] and [totalPages]; [total] counts the matching
    attendances, [totalPages] is the least number of pages that holds
    them, the pages up to [totalPages] are not empty and the later ones
    are, and each matching attendance is on one of the pages. *)
Theorem attendance_pages_cover_the_record
  (qenv : QueryEnv) (employeeId tenantId : string) (startDate endDate : option Z)
  (limit : Z) (s : Store) (e : Employee.t)
  (Hdb1 : queryFails qenv EmployeeFindFirst = false)
  (Hdb2 : queryFails qenv AttendanceFindMany = false)
  (Hdb3 : queryFails qenv AttendanceCount = false)
  (Hfound : find (fun e => String.eqb (Employee.id e) employeeId
                           && String.eqb (Employee.tenantId e) tenantId)
                 (employees s) = Some e)
  (Hlimit : 1 <= limit) :
  exists total n,
    total = Z.of_nat (List.length (filter (attendedBy employeeId tenantId
                                                      startDate endDate)
                                          (attendances s))) /\
    (n - 1) * limit < total <= n * limit /\
    (forall page, 1 <= page ->
       exists rows,
         getEmployeeAttendance qenv employeeId tenantId startDate endDate page limit s
         = (Ok (mkAttendancePage rows total page (Pages n)), s) /\
         Z.of_nat (List.length rows) <= limit /\
         (rows = [] <-> n < page) /\
         descending Attendance.checkInTime rows /\
         forall a, In a rows ->
           In a (attendances s) /\
           Attendance.employeeId a = employeeId /\
           Attendance.tenantId a = tenantId /\
           (forall d, startDate = Some d -> d <= Attendance.checkInTime a) /\
           (forall d, endDate = Some d -> Attendance.checkInTime a <= d)) /\
    (forall a, In a (attendances s) ->
       attendedBy employeeId tenantId startDate endDate a = true ->
       exists page pg,
         1 <= page <= n /\
         getEmployeeAttendance qenv employeeId tenantId startDate endDate page limit s
         = (Ok pg, s) /\
         In a (ap_attendances pg)).
Proof.
  set (matching := filter (attendedBy employeeId tenantId startDate endDate)
                          (attendances s)).
  destruct (totalPagesOf_spec (Z.of_nat (List.length matching)) limit
              ltac:(lia) Hlimit) as (n & Hn & Hbounds).
  assert (Hlen : List.length (orderByDesc Attendance.checkInTime matching)
                 = List.length matching) by apply orderByDesc_length.
  exists (Z.of_nat (List.length matching)), n.
  split; [reflexivity |]. split; [exact Hbounds |]. split.
  - intros page Hp. eexists. split; [| split; [| split; [| split]]].
    + rewrite (getEmployeeAttendance_run _ _ _ _ _ _ _ _ _ Hdb1 Hdb2 Hdb3 Hfound
                 Hp Hlimit).
      fold matching. rewrite Hn. reflexivity.
    + pose proof (firstn_le_length (Z.to_nat limit)
                    (skipn (Z.to_nat ((page - 1) * limit))
                           (orderByDesc Attendance.checkInTime matching))). lia.
    + apply page_empty_iff; [exact Hp | exact Hlimit |]. rewrite Hlen. exact Hbounds.
    + apply descending_firstn, descending_skipn, orderByDesc_descending.
    + intros a Ha.
      assert (Hm : In a matching).
      { apply (orderByDesc_In Attendance.checkInTime).
        rewrite <- (firstn_skipn (Z.to_nat ((page - 1) * limit))
                      (orderByDesc Attendance.checkInTime matching)).
        apply in_or_app. right.
        rewrite <- (firstn_skipn (Z.to_nat limit) (skipn _ _)).
        apply in_or_app. left. exact Ha. }
      unfold matching in Hm. apply filter_In in Hm. destruct Hm as [Hin Hc].
      unfold attendedBy in Hc.
      apply andb_prop in Hc. destruct Hc as [Hc Hhi].
      apply andb_prop in Hc. destruct Hc as [Hc Hlo].
      apply andb_prop in Hc. destruct Hc as [Hemp Hten].
      apply String.eqb_eq in Hemp. apply String.eqb_eq in Hten.
      repeat split; auto.
      * intros d ->. cbn in Hlo. lia.
      * intros d ->. cbn in Hhi. lia.
  - intros a Hin Hc.
    assert (Hm : In a (orderByDesc Attendance.checkInTime matching)).
    { apply orderByDesc_In. unfold matching. apply filter_In. auto. }
    destruct (page_cover _ limit n a Hlimit ltac:(rewrite Hlen; exact Hbounds) Hm)
      as (page & Hp & Hpage).
    exists page. eexists. split; [exact Hp |]. split.
    + apply (getEmployeeAttendance_run _ _ _ _ _ _ _ _ _ Hdb1 Hdb2 Hdb3 Hfound);
        [lia | exact Hlimit].
    + exact Hpage.
Qed.

Lemma orElse_Some {A} (o : option A) (d v : A) : o = Some v -> orElse o d = v.
Proof. intros ->. reflexivity. Qed.

Lemma orElse_None {A} (o : option A) (d : A) : o = None -> orElse o d = d.
Proof. intros ->. reflexivity. Qed.

Lemma patchEmployee_inv qenv updates e e' :
  patchEmployee qenv updates e = Some e' ->
  Employee.id e' = Employee.id e /\
  Employee.createdAt e' = Employee.createdAt e /\
  Employee.tenantId e' = orElse (ue_tenantId updates) (Employee.tenantId e) /\
  Employee.name e' = orElse (ue_name updates) (Employee.name e) /\
  Employee.photoUrl e' = orElse (ue_photoUrl updates) (Employee.photoUrl e) /\
  Employee.emergencyContactNumber e'
  = orElse (ue_emergencyContactNumber updates) (Employee.emergencyContactNumber e) /\
  Employee.contactNumber e'
  = orElse (ue_contactNumber updates) (Employee.contactNumber e) /\
  (ue_salary updates = None -> Employee.salary e' = Employee.salary e) /\
  (givenEmbedding updates = None -> Employee.embedding e' = Employee.embedding e) /\
  (forall v, givenEmbedding updates = Some v -> isValidEmbedding v = true ->
             Employee.embedding e' = v).
Proof.
  unfold patchEmployee. destruct (noUpdates updates) eqn:Hno.
  - intros Hq. injection Hq as <-. unfold noUpdates in Hno.
    destruct (ue_tenantId updates); [discriminate |].
    destruct (ue_name updates); [discriminate |].
    destruct (ue_photoUrl updates); [discriminate |].
    destruct (givenEmbedding updates); [discriminate |].
    destruct (ue_salary updates); [discriminate |].
    destruct (ue_emergencyContactNumber updates); [discriminate |].
    destruct (ue_contactNumber updates); [discriminate |].
    cbn. repeat split; auto. discriminate.
  - destruct (ue_salary updates) as [x |] eqn:Hs.
    + destruct (toDecimal qenv x); [| discriminate].
      destruct (givenEmbedding updates) as [v |] eqn:Hg.
      * destruct (isValidEmbedding v) eqn:Hv.
        -- intros Hq. injection Hq as <-. cbn. repeat split; try discriminate.
           intros v0 Hq. now injection Hq as <-.
        -- destruct (toJsonb qenv v); [| discriminate].
           intros Hq. injection Hq as <-. cbn. repeat split; try discriminate.
           intros v0 Hq. injection Hq as <-. congruence.
      * intros Hq. injection Hq as <-. cbn. repeat split; try discriminate.
    + destruct (givenEmbedding updates) as [v |] eqn:Hg.
      * destruct (isValidEmbedding v) eqn:Hv.
        -- intros Hq. injection Hq as <-. cbn. repeat split; try discriminate.
           intros v0 Hq. now injection Hq as <-.
        -- destruct (toJsonb qenv v); [| discriminate].
           intros Hq. injection Hq as <-. cbn. repeat split; try discriminate.
           intros v0 Hq. injection Hq as <-. congruence.
      * intros Hq. injection Hq as <-. cbn. repeat split; try discriminate.
Qed.

(** X27.  An update changes one employee and nothing else: a successful
    [updateEmployee] found an employee with the id under the tenant of
    the call, and leaves a store in which the rows with that id are the
    answered row and every other employee, every attendance, tenant and
    session is as before.  The answered row keeps the id and the creation
    time, takes each text given and keeps each one not given, and stays
    with its tenant unless the updates name another one, which then is a
    tenant of the store. *)
Theorem updateEmployee_changes_one_employee
  (qenv : QueryEnv) (employeeId tenantId : string) (updates : EmployeeUpdates)
  (s : Store) (e' : Employee.t) (s' : Store)
  (Hok : updateEmployee qenv employeeId tenantId updates s = (Ok e', s')) :
  embeddingRefused updates = false /\
  (exists owned, In owned (employees s) /\ Employee.id owned = employeeId /\
                 Employee.tenantId owned = tenantId) /\
  s' = withEmployees s
         (map (fun x => if String.eqb (Employee.id x) employeeId then e' else x)
              (employees s)) /\
  (exists e,
     find (fun x => String.eqb (Employee.id x) employeeId) (employees s) = Some e /\
     Employee.id e' = employeeId /\
     Employee.createdAt e' = Employee.createdAt e /\
     Employee.name e' = orElse (ue_name updates) (Employee.name e) /\
     Employee.photoUrl e' = orElse (ue_photoUrl updates) (Employee.photoUrl e) /\
     Employee.emergencyContactNumber e'
     = orElse (ue_emergencyContactNumber updates) (Employee.emergencyContactNumber e) /\
     Employee.contactNumber e'
     = orElse (ue_contactNumber updates) (Employee.contactNumber e) /\
     (forall v, givenEmbedding updates = Some v -> isValidEmbedding v = true ->
                Employee.embedding e' = v) /\
     (givenEmbedding updates = None -> Employee.embedding e' = Employee.embedding e) /\
     (ue_salary updates = None -> Employee.salary e' = Employee.salary e) /\
     match ue_tenantId updates with
     | None => Employee.tenantId e' = Employee.tenantId e
     | Some other =>
         Employee.tenantId e' = other /\
         (other = Employee.tenantId e \/
          exists t, In t (tenants s) /\ Tenant.id t = other)
     end).
Proof.
  revert Hok. unfold updateEmployee, tryCatch, bind, employee_findFirst, employee_update.
  destruct (embeddingRefused updates); [cbn; discriminate |].
  destruct (queryFails qenv EmployeeFindFirst).
  { rewrite rethrowAs_run. discriminate. }
  destruct (find _ (employees s)) as [owned |] eqn:Hfo.
  2:{ unfold throw. rewrite rethrowAs_run. discriminate. }
  destruct (queryFails qenv EmployeeUpdate).
  { rewrite rethrowAs_run. discriminate. }
  destruct (find (fun e => String.eqb (Employee.id e) employeeId) (employees s))
    as [e |] eqn:Hfe.
  2:{ rewrite rethrowAs_run. discriminate. }
  destruct (patchEmployee qenv updates e) as [patched |] eqn:Hp.
  2:{ rewrite rethrowAs_run. discriminate. }
  destruct (existsb _ (tenants s) || _)%bool eqn:Hfk.
  2:{ rewrite rethrowAs_run. discriminate. }
  intros Hq. injection Hq as <- <-.
  apply patchEmployee_inv in Hp.
  destruct Hp as (Hid & Hca & Hten & Hname & Hphoto & Hem & Hcn & Hsal & Hemb0 & Hemb1).
  apply find_some in Hfo. destruct Hfo as [Hino Hco].
  apply andb_prop in Hco. destruct Hco as [Hco1 Hco2].
  apply String.eqb_eq in Hco1. apply String.eqb_eq in Hco2.
  pose proof (find_some _ _ Hfe) as [Hine Hce]. apply String.eqb_eq in Hce.
  split; [reflexivity |]. split; [eauto |]. split; [reflexivity |].
  exists e. split; [reflexivity |].
  repeat match goal with |- _ /\ _ => split end; try assumption; try congruence.
  destruct (ue_tenantId updates) as [other |]; cbn in Hten; [| exact Hten].
  split; [exact Hten |].
  apply orb_prop in Hfk. destruct Hfk as [Hfk | Hfk].
  - right. apply existsb_exists in Hfk. destruct Hfk as (t & Hin & Ht).
    apply String.eqb_eq in Ht. exists t. split; [exact Hin | congruence].
  - left. apply String.eqb_eq in Hfk. congruence.
Qed.

Lemma find_map_replace {A} (f : A -> bool) (l : list A) (x y : A) :
  find f l = Some x -> f y = true ->
  find f (map (fun a => if f a then y else a) l) = Some y.
Proof.
  intros Hf Hy. induction l as [| a l IH]; [discriminate |].
  cbn in *. destruct (f a) eqn:Ha.
  - rewrite Hy. reflexivity.
  - rewrite Ha. apply IH. exact Hf.
Qed.

(** X28.  A profile update is read back and touches the tenant row only:
    after a successful [updateTenant], [getTenantProfile] answers what
    the update answered; the row keeps its id, takes each value given and
    keeps each one not given; employees, attendances and sessions are as
    before.  A password among the updates is stored as it is given. *)
Theorem updateTenant_is_read_back
  (qenv : QueryEnv) (tenantId : string) (updates : TenantUpdates)
  (s : Store) (p : TenantWithoutPassword.t) (s' : Store)
  (Hok : updateTenant qenv tenantId updates s = (Ok p, s')) :
  (forall env, dbFails env TenantFindUnique = false ->
     getTenantProfile env tenantId s' = (Ok p, s')) /\
  employees s' = employees s /\
  attendances s' = attendances s /\
  refreshTokens s' = refreshTokens s /\
  exists t t',
    find (fun x => String.eqb (Tenant.id x) tenantId) (tenants s) = Some t /\
    find (fun x => String.eqb (Tenant.id x) tenantId) (tenants s') = Some t' /\
    p = withoutPassword t' /\
    Tenant.id t' = tenantId /\
    Tenant.tenantName t' = orElse (ut_tenantName updates) (Tenant.tenantName t) /\
    Tenant.gst t' = orElse (ut_gst updates) (Tenant.gst t) /\
    Tenant.address t' = orElse (ut_address updates) (Tenant.address t) /\
    Tenant.longitude t' = orElse (ut_longitude updates) (Tenant.longitude t) /\
    Tenant.latitude t' = orElse (ut_latitude updates) (Tenant.latitude t) /\
    Tenant.username t' = orElse (ut_username updates) (Tenant.username t) /\
    Tenant.planType t' = orElse (ut_planType updates) (Tenant.planType t) /\
    Tenant.password t' = orElse (ut_password updates) (Tenant.password t).
Proof.
  revert Hok. unfold updateTenant, tryCatch, bind, tenant_update.
  destruct (queryFails qenv TenantUpdate); [cbn; discriminate |].
  destruct (find _ (tenants s)) as [t |] eqn:Hf; [| cbn; discriminate].
  destruct (existsb _ (tenants s)); [cbn; discriminate |].
  cbn. intros Hq. injection Hq as <- <-.
  pose proof (find_some _ _ Hf) as [Hin Hid]. apply String.eqb_eq in Hid.
  assert (Hid' : Tenant.id (patchTenant qenv updates t) = tenantId).
  { unfold patchTenant. destruct (noTenantUpdates updates); exact Hid. }
  assert (Hf' : find (fun x => String.eqb (Tenant.id x) tenantId)
                  (map (fun x => if String.eqb (Tenant.id x) tenantId
                                 then patchTenant qenv updates t else x) (tenants s))
                = Some (patchTenant qenv updates t)).
  { apply (find_map_replace (fun x => String.eqb (Tenant.id x) tenantId) _ t);
      [exact Hf | now apply String.eqb_eq]. }
  split; [| split; [reflexivity | split; [reflexivity | split; [reflexivity |]]]].
  - intros env Hdb. unfold getTenantProfile, tryCatch, bind, tenant_findUnique_id, query.
    rewrite Hdb. unfold withTenantRows. cbn [tenants]. rewrite Hf'. reflexivity.
  - exists t, (patchTenant qenv updates t).
    split; [reflexivity |]. split; [exact Hf' |]. split; [reflexivity |].
    split; [exact Hid' |].
    unfold patchTenant. destruct (noTenantUpdates updates) eqn:Hno.
    + unfold noTenantUpdates in Hno.
      destruct (ut_tenantName updates); [discriminate |].
      destruct (ut_gst updates); [discriminate |].
      destruct (ut_address updates); [discriminate |].
      destruct (ut_longitude updates); [discriminate |].
      destruct (ut_latitude updates); [discriminate |].
      destruct (ut_username updates); [discriminate |].
      destruct (ut_password updates); [discriminate |].
      destruct (ut_planType updates); [discriminate |].
      cbn. repeat split.
    + cbn. repeat split.
Qed.

(** *** Failures *)

Ltac call_fails :=
  cbn; split;
  [ let x := fresh "e" in intros x Hq; injection Hq as <-; split; [in_catalogue | reflexivity]
  | intros _; reflexivity ].

Ltac call_answers :=
  cbn; split; [ let x := fresh "e" in intros x Hq; discriminate | intros Hw; first [reflexivity | discriminate] ].

(** X29.  The methods behind the authenticated routes fail cleanly: a
    call of [getTenantProfile], [updateTenant], [registerEmployee],
    [getEmployeeDetails], [listEmployees], [updateEmployee],
    [deleteEmployee], [getEmployeeAttendance] or [getAttendanceReport]
    that fails does so with an application error of its catalogue and
    leaves the store as it was, and a call of one of the five methods
    that read leaves it as it was in any case. *)
Theorem service_calls_fail_cleanly (qenv : QueryEnv) (c : ServiceCall) (s : Store) :
  (forall e, fst (runServiceCall qenv c s) = Throw e ->
     In e (serviceErrors c) /\ snd (runServiceCall qenv c s) = s) /\
  (writes c = false -> snd (runServiceCall qenv c s) = s).
Proof.
  destruct c as [tid | tid updates | input | id tid | tid page limit search
                 | id tid updates | id tid | id tid startDate endDate page limit
                 | tid startDate endDate emp];
    unfold runServiceCall, outcome, bind, ret.
  - unfold getTenantProfile, tryCatch, bind, tenant_findUnique_id, query.
    destruct (dbFails (base qenv) TenantFindUnique); [call_fails |].
    destruct (find _ (tenants s)); [call_answers | call_fails].
  - unfold updateTenant, tryCatch, bind, tenant_update.
    destruct (queryFails qenv TenantUpdate); [call_fails |].
    destruct (find _ (tenants s)); [| call_fails].
    destruct (existsb _ (tenants s)); [call_fails | call_answers].
  - unfold registerEmployee, tryCatch, bind, tenant_findUnique_id, query,
      employee_create.
    destruct (isValidEmbedding (re_embedding input)); cbn [negb]; [| call_fails].
    destruct (dbFails (base qenv) TenantFindUnique); [call_fails |].
    destruct (find _ (tenants s)); [| call_fails].
    destruct (queryFails qenv EmployeeCreate); [call_fails |].
    destruct (toDecimal qenv (re_salary input)); [| call_fails].
    destruct (existsb _ (employees s) || _)%bool; [call_fails | call_answers].
  - unfold getEmployeeDetails, employee_findFirst_withAttendances, tryCatch, bind,
      employee_findFirst.
    destruct (queryFails qenv EmployeeFindFirst); [call_fails |].
    destruct (find _ (employees s)); [call_answers | call_fails].
  - unfold listEmployees, tryCatch, bind, employee_findMany, employee_count.
    destruct (queryFails qenv EmployeeFindMany); [call_fails |].
    destruct (paginate _ _ _); [| call_fails].
    destruct (queryFails qenv EmployeeCount); [call_fails | call_answers].
  - unfold updateEmployee, tryCatch, bind, employee_findFirst, employee_update.
    destruct (embeddingRefused updates); [call_fails |].
    destruct (queryFails qenv EmployeeFindFirst); [call_fails |].
    destruct (find _ (employees s)); [| call_fails].
    destruct (queryFails qenv EmployeeUpdate); [call_fails |].
    destruct (find _ (employees s)) as [e |]; [| call_fails].
    destruct (patchEmployee qenv updates e); [| call_fails].
    destruct (existsb _ (tenants s) || _)%bool; [call_answers | call_fails].
  - unfold deleteEmployee, tryCatch, bind, employee_findFirst, employee_delete.
    destruct (queryFails qenv EmployeeFindFirst); [call_fails |].
    destruct (find _ (employees s)); [| call_fails].
    destruct (queryFails qenv EmployeeDelete); [call_fails |].
    destruct (existsb _ (employees s)); [call_answers | call_fails].
  - unfold getEmployeeAttendance, tryCatch, bind, employee_findFirst,
      attendance_findMany, attendance_count.
    destruct (queryFails qenv EmployeeFindFirst); [call_fails |].
    destruct (find _ (employees s)); [| call_fails].
    destruct (queryFails qenv AttendanceFindMany); [call_fails |].
    destruct (paginate _ _ _); [| call_fails].
    destruct (queryFails qenv AttendanceCount); [call_fails | call_answers].
  - assert (Hjoin : forall where_,
              let r := attendance_findMany_withEmployee qenv where_ s in
              snd r = s /\ forall e, fst r = Throw e -> e = dbError).
    { intros where_. unfold attendance_findMany_withEmployee. cbn zeta.
      destruct (queryFails qenv AttendanceFindMany).
      { split; [reflexivity |]. intros e Hq. now injection Hq as <-. }
      destruct (withEmployee _ _); (split; [reflexivity |]); intros e Hq;
        [discriminate | now injection Hq as <-]. }
    unfold getAttendanceReport, tryCatch, bind, employee_findFirst.
    set (where_ := reportedFor tid startDate endDate emp).
    specialize (Hjoin where_). cbn zeta in Hjoin.
    assert (Hrun :
      (forall e,
         fst (let (r, s1) :=
                match attendance_findMany_withEmployee qenv where_ s with
                | (Ok a, s1) => (Ok a, s1)
                | (Throw e0, s1) =>
                    rethrowAs "Failed to generate attendance report" e0 s1
                end in
              match r with Ok _ => (Ok tt, s1) | Throw e0 => (Throw e0, s1) end)
         = Throw e ->
         In e (serviceErrors (GetAttendanceReport tid startDate endDate emp)) /\
         snd (let (r, s1) :=
                match attendance_findMany_withEmployee qenv where_ s with
                | (Ok a, s1) => (Ok a, s1)
                | (Throw e0, s1) =>
                    rethrowAs "Failed to generate attendance report" e0 s1
                end in
              match r with Ok _ => (Ok tt, s1) | Throw e0 => (Throw e0, s1) end)
         = s) /\
      (writes (GetAttendanceReport tid startDate endDate emp) = false ->
       snd (let (r, s1) :=
              match attendance_findMany_withEmployee qenv where_ s with
              | (Ok a, s1) => (Ok a, s1)
              | (Throw e0, s1) =>
                  rethrowAs "Failed to generate attendance report" e0 s1
              end in
            match r with Ok _ => (Ok tt, s1) | Throw e0 => (Throw e0, s1) end)
       = s)).
    { destruct (attendance_findMany_withEmployee qenv where_ s) as [[rows | e0] s1].
      - cbn in *. destruct Hjoin as [-> _]. split; [discriminate | reflexivity].
      - cbn [fst snd] in Hjoin. destruct Hjoin as [-> He]. rewrite (He e0 eq_refl).
        call_fails. }
    destruct emp as [id |]; [| exact Hrun].
    destruct (isEmpty id); [exact Hrun |].
    destruct (queryFails qenv EmployeeFindFirst); [call_fails |].
    destruct (find _ (employees s)); [exact Hrun | call_fails].
Qed.

(** *** Authentication *)

Lemma authenticateTenant_Next config now authHeader payload :
  authenticateTenant config now authHeader = Next payload <->
  exists c,
    authHeader = Some (BearerToken (JwtText c (accessSecret config))) /\
    isEmpty (accessSecret config) = false /\
    now / 1000 < exp c /\
    payload = c.
Proof.
  unfold authenticateTenant, bearerOf, verifyAccessToken. split.
  - destruct authHeader as [[h | token] |]; [| | discriminate].
    + destruct (String.prefix "Bearer " h); cbn; discriminate.
    + destruct token as [lit | c key | t]; cbn; try discriminate.
      destruct (isEmpty (accessSecret config)) eqn:Hk; [cbn; discriminate |].
      destruct (String.eqb_spec key (accessSecret config)) as [-> | Hne];
        [| cbn; discriminate].
      cbn [negb].
      destruct (Z.leb_spec (exp c) (now / 1000)); cbn; [discriminate |].
      intros Hq. injection Hq as <-. exists c. auto.
  - intros (c & -> & Hk & Hexp & ->). cbn. rewrite Hk, String.eqb_refl. cbn.
    destruct (Z.leb_spec (exp c) (now / 1000)); [lia | reflexivity].
Qed.

(** X30.  [authenticateTenant] hands a request on exactly when its
    [Authorization] header is [Bearer ] followed by a token that was
    signed with the access secret and has not expired, and then attaches
    the decoded token (the payload with [iat] and [exp]); every other
    request is answered 401.  [optionalAuthentication] answers nothing
    and attaches the same object in the same case.  In particular the access token of a
    session pair admits its holder as the tenant of the pair until the
    token expires, and the refresh token of the pair admits nobody when
    the two secrets differ. *)
Theorem authentication_admits_valid_access_tokens (config : Config) :
  (forall now authHeader payload,
     authenticateTenant config now authHeader = Next payload <->
     exists c,
       authHeader = Some (BearerToken (JwtText c (accessSecret config))) /\
       isEmpty (accessSecret config) = false /\
       now / 1000 < exp c /\
       payload = c) /\
  (forall now authHeader status message,
     authenticateTenant config now authHeader = Respond status message ->
     status = 401) /\
  (forall now authHeader,
     optionalAuthentication config now authHeader
     = Next (match authenticateTenant config now authHeader with
             | Next payload => Some payload
             | Respond _ _ => None
             end)) /\
  (forall env op s resp s',
     runSessionOp config env op s = (Ok (Some resp), s') ->
     exists expa,
       (forall sa, timespan (accessExpiry config) = Some sa ->
                   expa = now env / 1000 + sa) /\
       (forall later,
          later / 1000 < expa ->
          exists payload,
            authenticateTenant config later
              (Some (BearerToken (LoginResponse.accessToken resp))) = Next payload /\
            Payload.tenantId payload
            = TenantWithoutPassword.id (LoginResponse.tenant resp)) /\
       (forall later,
          expa <= later / 1000 ->
          authenticateTenant config later
            (Some (BearerToken (LoginResponse.accessToken resp)))
          = Respond 401 "Invalid or expired token") /\
       (refreshSecret config <> accessSecret config ->
        forall later,
          authenticateTenant config later
            (Some (BearerToken (LoginResponse.refreshToken resp)))
          = Respond 401 "Invalid or expired token")).
Proof.
  split; [intros; apply authenticateTenant_Next |]. split; [| split].
  - intros now authHeader status message. unfold authenticateTenant.
    destruct (bearerOf authHeader) as [token |].
    + destruct (verifyAccessToken config token now); [discriminate |].
      intros Hq. now injection Hq as <-.
    + intros Hq. now injection Hq as <-.
  - intros now authHeader. unfold optionalAuthentication, authenticateTenant.
    destruct (bearerOf authHeader) as [token |]; [| reflexivity].
    destruct (verifyAccessToken config token now); reflexivity.
  - intros env op s resp s' Hrun.
    apply runSessionOp_Ok_inv in Hrun. destruct Hrun as (t & s0 & Hopen & _ & _).
    apply openSession_Ok_inv in Hopen.
    destruct Hopen as (expa & expr & expiresAt & Hka & Hsa & Hkr & Hsr & _ & -> & _).
    exists expa. split; [exact Hsa |].
    cbn [LoginResponse.accessToken LoginResponse.refreshToken LoginResponse.tenant].
    split; [| split].
    + intros later Hlive. eexists. split.
      * apply authenticateTenant_Next. eexists. split; [reflexivity |].
        split; [exact Hka |]. split; [exact Hlive | reflexivity].
      * reflexivity.
    + intros later Hlate. unfold authenticateTenant, bearerOf, verifyAccessToken,
        jwt_verify. rewrite Hka, String.eqb_refl. cbn [negb exp].
      destruct (Z.leb_spec expa (later / 1000)); [reflexivity | lia].
    + intros Hne later. unfold authenticateTenant, bearerOf, verifyAccessToken,
        jwt_verify. rewrite Hka.
      destruct (String.eqb_spec (refreshSecret config) (accessSecret config));
        [contradiction | reflexivity].
Qed.

(** * Worked examples of the further properties *)

Lemma fixedZone_constant offset : constantOffset (fixedZone offset).
Proof. exists offset. intros t. split; reflexivity. Qed.

Lemma getTokenExpiry_accepts_digits_and_unit_witness :
  0 <= 1000 /\
  forall d, getTokenExpiry (fixedZone 19800000) "7d" 1000 = Ok d ->
    exists digits unit,
      isExpiryOf "7d" digits unit /\
      d = timeClip (1000 + decimalValue digits * unitMillis unit) /\
      forall t, d = ValidDate t -> 1000 <= t.
Proof.
  split; [lia |]. intros d Hd.
  destruct (proj1 (proj2 (getTokenExpiry_accepts_digits_and_unit
                            (fixedZone 19800000) "7d" 1000 ltac:(lia)))
              (fixedZone_constant 19800000) d Hd)
    as (digits & unit & Hexp & Hclip & _ & _ & Hlater).
  exists digits, unit. split; [exact Hexp |]. split; [exact Hclip | exact Hlater].
Defined.

Lemma session_row_outlives_token_witness :
  exists resp s',
    runSessionOp demoConfig (quietEnv 1000) (Login "acme" "secret") (acmeStore 0)
    = (Ok (Some resp), s') /\
    exists created,
      In created (refreshTokens s') /\
      RefreshToken.tokenHash created = hashToken (LoginResponse.refreshToken resp) /\
      RefreshToken.isRevoked created = false /\
      RefreshToken.expiresAt created = now (quietEnv 1000) + 1000 * 604800 /\
      forall later payload,
        verifyRefreshToken demoConfig (LoginResponse.refreshToken resp) later
        = Ok payload ->
        later < RefreshToken.expiresAt created /\
        RefreshToken.tenantId created = Payload.tenantId payload.
Proof.
  eexists. eexists. split; [reflexivity |].
  apply (session_row_outlives_token demoConfig (quietEnv 1000) (Login "acme" "secret")
           (acmeStore 0) _ _ 604800 (fixedZone_constant 0)).
  - simpl. lia.
  - reflexivity.
  - reflexivity.
Defined.

Lemma session_pair_identifies_tenant_witness :
  exists resp s',
    runSessionOp demoConfig (quietEnv 1000) (Login "acme" "secret") (acmeStore 0)
    = (Ok (Some resp), s') /\
    exists t expa expr,
      In t (tenants s') /\
      LoginResponse.tenant resp = withoutPassword t /\
      (forall sa, timespan (accessExpiry demoConfig) = Some sa ->
                  expa = now (quietEnv 1000) / 1000 + sa) /\
      (forall sr, timespan (refreshExpiry demoConfig) = Some sr ->
                  expr = now (quietEnv 1000) / 1000 + sr) /\
      (forall later, later / 1000 < expa ->
         verifyAccessToken demoConfig (LoginResponse.accessToken resp) later
         = Ok (mkClaims
                 (AccessP (AccessTokenPayload.mk (Tenant.id t) (Tenant.username t)
                             (planTypeName (Tenant.planType t))))
                 (now (quietEnv 1000) / 1000) expa)) /\
      (forall later, later / 1000 < expr ->
         verifyRefreshToken demoConfig (LoginResponse.refreshToken resp) later
         = Ok (mkClaims (RefreshP (RefreshTokenPayload.mk (Tenant.id t)
                                     (randomUUID (quietEnv 1000))))
                        (now (quietEnv 1000) / 1000) expr)) /\
      Tenant.username t = "acme".
Proof.
  eexists. eexists. split; [reflexivity |].
  apply (session_pair_identifies_tenant demoConfig (quietEnv 1000)
           (Login "acme" "secret") (acmeStore 0)).
  reflexivity.
Defined.

Lemma exchanged_token_is_refused_afterwards_witness :
  exists resp,
    fst (refreshAccessToken demoConfig (quietEnv 1000) acmeToken (acmeStore 604800000))
    = Ok resp /\
    forall calls env2,
      let s2 := runSessionOps demoConfig calls
                  (snd (refreshAccessToken demoConfig (quietEnv 1000) acmeToken
                          (acmeStore 604800000))) in
      isOk (fst (refreshAccessToken demoConfig env2 acmeToken s2)) = false /\
      snd (refreshAccessToken demoConfig env2 acmeToken s2) = s2 /\
      (isOk (verifyRefreshToken demoConfig acmeToken (now env2)) = true ->
       dbFails env2 RefreshTokenFindUnique = false ->
       fst (refreshAccessToken demoConfig env2 acmeToken s2)
       = Throw (AppError "Invalid or revoked refresh token" 401)).
Proof.
  eexists. split; [reflexivity |].
  eapply (exchanged_token_is_refused_afterwards demoConfig (quietEnv 1000) acmeToken
           (acmeStore 604800000)).
  reflexivity.
Defined.

Lemma logout_ends_session_witness :
  fst (logoutTenant (quietEnv 1000) "tenant-1" acmeToken (acmeStore 604800000)) = Ok tt /\
  forall calls env2,
    let s2 := runSessionOps demoConfig calls
                (snd (logoutTenant (quietEnv 1000) "tenant-1" acmeToken
                        (acmeStore 604800000))) in
    isOk (fst (refreshAccessToken demoConfig env2 acmeToken s2)) = false /\
    snd (refreshAccessToken demoConfig env2 acmeToken s2) = s2 /\
    (isOk (verifyRefreshToken demoConfig acmeToken (now env2)) = true ->
     dbFails env2 RefreshTokenFindUnique = false ->
     fst (refreshAccessToken demoConfig env2 acmeToken s2)
     = Throw (AppError "Invalid or revoked refresh token" 401)).
Proof.
  apply (logout_ends_session demoConfig (quietEnv 1000) "tenant-1" acmeToken
           (acmeStore 604800000) (acmeSession 604800000));
    reflexivity.
Defined.

Lemma logout_without_matching_session_changes_nothing_witness :
  snd (logoutTenant (quietEnv 1000) "tenant-2" acmeToken (acmeStore 604800000))
  = acmeStore 604800000 /\
  fst (logoutTenant (quietEnv 1000) "tenant-2" acmeToken (acmeStore 604800000))
  = Ok tt.
Proof.
  apply (logout_without_matching_session_changes_nothing (quietEnv 1000) "tenant-2"
           acmeToken (acmeStore 604800000)).
  intros r [<- | []] Hten. discriminate Hten.
Defined.

Lemma registration_refuses_duplicates_witness :
  registerTenant demoConfig (quietEnv 1000) acmeAgain (acmeStore 0)
  = (Throw (AppError "Username already exists" 409), acmeStore 0).
Proof.
  apply (proj1 (registration_refuses_duplicates demoConfig (quietEnv 1000) acmeAgain
                  (acmeStore 0) eq_refl) acme).
  - left. reflexivity.
  - reflexivity.
Defined.

Lemma failed_registration_may_leave_tenant_witness :
  let s' := snd (registerTenant demoConfig (createFailsEnv 1000) initech (acmeStore 0)) in
  s' = acmeStore 0 \/
  (AppError "Failed to register tenant" 500 = AppError "Failed to register tenant" 500 /\
   exists t,
     s' = withTenants (acmeStore 0) (tenants (acmeStore 0) ++ [t])%list /\
     Tenant.username t = in_username initech /\
     Tenant.gst t = in_gst initech /\
     Tenant.password t = hashPassword (createFailsEnv 1000) (in_password initech) /\
     forall env2, dbFails env2 TenantFindUnique = false ->
       registerTenant demoConfig env2 initech s'
       = (Throw (AppError "Username already exists" 409), s')).
Proof.
  apply (failed_registration_may_leave_tenant demoConfig (createFailsEnv 1000) initech
           (acmeStore 0) (AppError "Failed to register tenant" 500)).
  reflexivity.
Defined.

Lemma login_refusal_is_uniform_witness :
  loginTenant demoConfig (quietEnv 1000) "acme" "guess" (acmeStore 0)
  = (Throw (AppError "Invalid username or password" 401), acmeStore 0) /\
  loginTenant demoConfig (quietEnv 1000) "nobody" "secret" (acmeStore 0)
  = (Throw (AppError "Invalid username or password" 401), acmeStore 0).
Proof.
  split.
  - apply (login_refusal_is_uniform demoConfig (quietEnv 1000) "acme" "guess"
             (acmeStore 0) eq_refl).
    right. exists acme. split; reflexivity.
  - apply (login_refusal_is_uniform demoConfig (quietEnv 1000) "nobody" "secret"
             (acmeStore 0) eq_refl).
    left. reflexivity.
Defined.

Lemma fresh_session_can_be_exchanged_witness :
  exists resp s1,
    runSessionOp demoConfig (quietEnv 1000) (Login "acme" "secret") (acmeStore 0)
    = (Ok (Some resp), s1) /\
    exists resp2 s2,
      refreshAccessToken demoConfig (laterEnv 60000) (LoginResponse.refreshToken resp) s1
      = (Ok resp2, s2) /\
      TenantWithoutPassword.id (LoginResponse.tenant resp2)
      = TenantWithoutPassword.id (LoginResponse.tenant resp) /\
      hashColumn s2
      = (hashColumn s1 ++ [hashToken (LoginResponse.refreshToken resp2)])%list.
Proof.
  eexists. eexists. split; [reflexivity |].
  apply (fresh_session_can_be_exchanged demoConfig (quietEnv 1000)
           (Login "acme" "secret") (acmeStore 0) _ _ (laterEnv 60000)
           900 604800 604860000 (fixedZone_constant 0)).
  - simpl. lia.
  - reflexivity.
  - reflexivity.
  - reflexivity.
  - reflexivity.
  - reflexivity.
  - reflexivity.
  - intros r [<- | [<- | []]]; discriminate.
  - intros tok' Hmint. injection Hmint as <-.
    intros [Hin | [Hin | []]]; discriminate Hin.
Defined.



Lemma checkIn_refuses_session_tokens_witness :
  checkIn demoConfig 0 (quietEnv 1000)
          (mkCheckInInput "emp-1" "https://photos/in-1.jpg" sampleEmbedding acmeToken)
          globexStore
  = (Throw (AppError "Invalid or expired location token" 401), globexStore).
Proof.
  apply (checkIn_refuses_session_tokens demoConfig 0 (quietEnv 1000)
           (mkCheckInInput "emp-1" "https://photos/in-1.jpg" sampleEmbedding acmeToken)
           globexStore 0).
  - discriminate.
  - discriminate.
  - right. exists (RefreshTokenPayload.mk "tenant-1" "uuid-1"). reflexivity.
Defined.

Lemma checkIn_refuses_expired_proof_witness :
  checkIn demoConfig 0 (quietEnv 300000) ashaRequest globexStore
  = (Throw (AppError "Invalid or expired location token" 401), globexStore).
Proof.
  apply (checkIn_refuses_expired_proof demoConfig 0 (quietEnv 300000) ashaRequest
           globexStore 0 300
           (LocationTokenPayload.mk "tenant-2" "emp-1" 1%float 1%float)).
  - reflexivity.
  - reflexivity.
  - vm_compute. discriminate.
Defined.

Lemma checkIn_refuses_proof_of_other_tenant_witness :
  checkIn demoConfig 0 (quietEnv 60000)
          (mkCheckInInput "emp-1" "https://photos/in-1.jpg" sampleEmbedding strayProof)
          globexStore
  = (Throw (AppError "Tenant mismatch" 403), globexStore).
Proof.
  apply (checkIn_refuses_proof_of_other_tenant demoConfig 0 (quietEnv 60000)
           (mkCheckInInput "emp-1" "https://photos/in-1.jpg" sampleEmbedding strayProof)
           globexStore
           (mkClaims (LocationJson "tenant-1" "emp-1" (Some 1%float) (Some 1%float))
                     0 300)
           asha).
  - reflexivity.
  - reflexivity.
  - reflexivity.
  - reflexivity.
  - reflexivity.
  - discriminate.
Defined.

Lemma distance_that_is_no_number_counts_as_outside_witness :
  (forall radius,
     isWithinRadius sampleMath 8%float 0%float (-8)%float 180%float radius = false) /\
  exists resp tok,
    checkEmployeeLocation demoConfig (quietEnv 0) oppositeCheck meridianStore
    = (Ok resp, meridianStore) /\
    LocationCheckResponse.success resp = true /\
    LocationCheckResponse.locationToken resp = Some tok /\
    LocationCheckResponse.message resp
    = "Location verified. You are outside office premises.".
Proof.
  apply (distance_that_is_no_number_counts_as_outside demoConfig (quietEnv 0)
           oppositeCheck meridianStore tavita meridian 300);
    reflexivity.
Defined.

Lemma radius_test_is_symmetric_and_monotone_witness :
  (forall radius,
     isWithinRadius sampleMath 12.5%float 77.5%float 13%float 77.75%float radius
     = isWithinRadius sampleMath 13%float 77.75%float 12.5%float 77.5%float radius) /\
  (forall r1 r2, PrimFloat.leb r1 r2 = true ->
     isWithinRadius sampleMath 12.5%float 77.5%float 13%float 77.75%float r1 = true ->
     isWithinRadius sampleMath 12.5%float 77.5%float 13%float 77.75%float r2 = true) /\
  (PrimFloat.is_nan
     (calculateDistance sampleMath 12.5%float 77.5%float 13%float 77.75%float) = true ->
   forall radius,
     isWithinRadius sampleMath 12.5%float 77.5%float 13%float 77.75%float radius = false).
Proof.
  apply (radius_test_is_symmetric_and_monotone sampleMath
           12.5%float 77.5%float 13%float 77.75%float).
  exact sampleMath_sin_odd.
Defined.

Lemma session_service_throws_catalogued_errors_witness :
  In (AppError "Invalid username or password" 401) (sessionErrors (Login "acme" "guess")).
Proof.
  apply (session_service_throws_catalogued_errors demoConfig (quietEnv 1000)
           (Login "acme" "guess") (acmeStore 0)).
  reflexivity.
Defined.

Lemma expired_session_is_answered_as_server_error_witness :
  exists resp s',
    runSessionOp demoConfig (quietEnv 1000) (Login "acme" "secret") (acmeStore 0)
    = (Ok (Some resp), s') /\
    exists created,
      sessionOf (LoginResponse.refreshToken resp) s' = Some created /\
      RefreshToken.expiresAt created = now (quietEnv 1000) + 1000 * 604800 /\
      getTokenExpiry (zone (quietEnv 1000)) (refreshExpiry demoConfig)
                     (now (quietEnv 1000))
        = Ok (ValidDate (RefreshToken.expiresAt created)) /\
      forall env2 s2,
        RefreshToken.expiresAt created <= now env2 ->
        refreshAccessToken demoConfig env2 (LoginResponse.refreshToken resp) s2
        = (Throw (AppError "Failed to refresh token" 500), s2).
Proof.
  eexists. eexists. split; [reflexivity |].
  apply (expired_session_is_answered_as_server_error demoConfig (quietEnv 1000)
           (Login "acme" "secret") (acmeStore 0) _ _ 604800 (fixedZone_constant 0)).
  - simpl. lia.
  - reflexivity.
  - reflexivity.
Defined.

Lemma employee_methods_refuse_other_tenants_witness :
  let notFound := AppError "Employee not found" 404 in
  getEmployeeDetails (quietQueryEnv 1000) "emp-1" "tenant-1" attendedStore
  = (Throw notFound, attendedStore) /\
  deleteEmployee (quietQueryEnv 1000) "emp-1" "tenant-1" attendedStore
  = (Throw notFound, attendedStore) /\
  (forall updates,
     updateEmployee (quietQueryEnv 1000) "emp-1" "tenant-1" updates attendedStore
     = (Throw (if embeddingRefused updates
               then AppError "Invalid embedding format" 400 else notFound),
        attendedStore)) /\
  (forall startDate endDate page limit,
     getEmployeeAttendance (quietQueryEnv 1000) "emp-1" "tenant-1" startDate endDate
                           page limit attendedStore
     = (Throw notFound, attendedStore)) /\
  (forall startDate endDate,
     isEmpty "emp-1" = false ->
     getAttendanceReport (quietQueryEnv 1000) "tenant-1" startDate endDate
                         (Some "emp-1") attendedStore
     = (Throw notFound, attendedStore)).
Proof.
  apply (employee_methods_refuse_other_tenants (quietQueryEnv 1000) "emp-1" "tenant-1"
           attendedStore); reflexivity.
Defined.

Lemma deleteEmployee_removes_employee_and_attendance_witness :
  exists s',
    deleteEmployee (quietQueryEnv 1000) "emp-1" "tenant-2" attendedStore = (Ok tt, s') /\
    (forall e, In e (employees s') <->
               In e (employees attendedStore) /\ Employee.id e <> "emp-1") /\
    (forall a, In a (attendances s') <->
               In a (attendances attendedStore) /\ Attendance.employeeId a <> "emp-1") /\
    tenants s' = tenants attendedStore /\
    refreshTokens s' = refreshTokens attendedStore /\
    (forall config tzOffset env input,
       ci_employeeId input = "emp-1" ->
       isOk (fst (checkIn config tzOffset env input s')) = false /\
       snd (checkIn config tzOffset env input s') = s') /\
    (forall config env input,
       lc_employeeId input = "emp-1" ->
       isOk (fst (checkEmployeeLocation config env input s')) = false).
Proof.
  eexists. split; [reflexivity |].
  apply (deleteEmployee_removes_employee_and_attendance (quietQueryEnv 1000)
           "emp-1" "tenant-2" attendedStore).
  reflexivity.
Defined.

Lemma attendance_report_is_exact_witness :
  exists rows s',
    getAttendanceReport (quietQueryEnv 1000) "tenant-2" 0 100000 None attendedStore
    = (Ok rows, s') /\
    s' = attendedStore /\
    Permutation (map report_attendance rows)
                (filter (reportedFor "tenant-2" 0 100000 None)
                        (attendances attendedStore)) /\
    descending Attendance.checkInTime (map report_attendance rows) /\
    (forall r, In r rows ->
       let a := report_attendance r in
       In a (attendances attendedStore) /\
       Attendance.tenantId a = "tenant-2" /\
       0 <= Attendance.checkInTime a <= 100000 /\
       exists e, In e (employees attendedStore) /\
         Employee.id e = Attendance.employeeId a /\
         report_employee r
         = mkEmployeeSummary (Employee.id e) (Employee.name e)
                             (Employee.contactNumber e)) /\
    (forall id, @None string = Some id -> isEmpty id = false ->
       (forall r, In r rows -> Attendance.employeeId (report_attendance r) = id) /\
       exists e, In e (employees attendedStore) /\ Employee.id e = id /\
                 Employee.tenantId e = "tenant-2").
Proof.
  eexists. eexists. split; [reflexivity |].
  apply (attendance_report_is_exact (quietQueryEnv 1000) "tenant-2" 0 100000 None
           attendedStore).
  reflexivity.
Defined.

Lemma updateEmployee_changes_one_employee_witness :
  exists e' s',
    updateEmployee (quietQueryEnv 1000) "emp-1" "tenant-2" renameOnly attendedStore
    = (Ok e', s') /\
    Employee.name e' = "Asha R" /\
    Employee.contactNumber e' = Employee.contactNumber asha /\
    attendances s' = attendances attendedStore.
Proof.
  eexists. eexists. split; [reflexivity |].
  destruct (updateEmployee_changes_one_employee (quietQueryEnv 1000) "emp-1" "tenant-2"
              renameOnly attendedStore _ _ eq_refl)
    as (_ & _ & _ & e & Hfe & _ & _ & Hname & _ & _ & Hcn & _).
  injection Hfe as <-. split; [exact Hname |]. split; [exact Hcn | reflexivity].
Defined.

Lemma updateTenant_is_read_back_witness :
  exists p s',
    updateTenant (quietQueryEnv 1000) "tenant-1" moveOnly (acmeStore 0) = (Ok p, s') /\
    (forall env, dbFails env TenantFindUnique = false ->
       getTenantProfile env "tenant-1" s' = (Ok p, s')) /\
    refreshTokens s' = refreshTokens (acmeStore 0).
Proof.
  eexists. eexists. split; [reflexivity |].
  destruct (updateTenant_is_read_back (quietQueryEnv 1000) "tenant-1" moveOnly
              (acmeStore 0) _ _ eq_refl) as (Hread & _ & _ & Hsessions & _).
  split; [exact Hread | exact Hsessions].
Defined.

Lemma attendance_pages_cover_the_record_witness :
  exists total n,
    total = Z.of_nat (List.length (filter (attendedBy "emp-1" "tenant-2" None None)
                                          (attendances attendedStore))) /\
    (n - 1) * 1 < total <= n * 1 /\
    (forall page, 1 <= page ->
       exists rows,
         getEmployeeAttendance (quietQueryEnv 1000) "emp-1" "tenant-2" None None page 1
                               attendedStore
         = (Ok (mkAttendancePage rows total page (Pages n)), attendedStore) /\
         Z.of_nat (List.length rows) <= 1 /\
         (rows = [] <-> n < page) /\
         descending Attendance.checkInTime rows /\
         forall a, In a rows ->
           In a (attendances attendedStore) /\
           Attendance.employeeId a = "emp-1" /\
           Attendance.tenantId a = "tenant-2" /\
           (forall d, @None Z = Some d -> d <= Attendance.checkInTime a) /\
           (forall d, @None Z = Some d -> Attendance.checkInTime a <= d)) /\
    (forall a, In a (attendances attendedStore) ->
       attendedBy "emp-1" "tenant-2" None None a = true ->
       exists page pg,
         1 <= page <= n /\
         getEmployeeAttendance (quietQueryEnv 1000) "emp-1" "tenant-2" None None page 1
                               attendedStore
         = (Ok pg, attendedStore) /\
         In a (ap_attendances pg)).
Proof.
  apply (attendance_pages_cover_the_record (quietQueryEnv 1000) "emp-1" "tenant-2"
           None None 1 attendedStore asha).
  - reflexivity.
  - reflexivity.
  - reflexivity.
  - reflexivity.
  - lia.
Defined.
